(** * Coinone SDK: request signing and response classification

    A shallow embedding of [sdk.py] (class [CoinoneClient]) together with
    the parts of the Python runtime it calls: [str.encode("utf-8")],
    [base64.b64encode], [json.dumps], [uuid.uuid4], [hmac.new] with
    [hashlib.sha512], and the [requests] response object.

    Python values are modelled as the code has them:
    - a [str] is a sequence of Unicode code points ([pystr]);
    - a [bytes] object is a sequence of bytes ([bytes]);
    - a [dict] keeps insertion order and has no repeated key: an
      association list, updated in place where the key is present and
      extended at the end where it is not;
    - a [dict] that is passed around is an object of the heap, named by
      its location, so that copying and mutation can be told apart;
    - exceptions are an error monad over the state of the world (heap,
      entropy consumed, requests sent). *)

From Stdlib Require Import ZArith NArith List String Ascii Bool Lia.
From Stdlib Require Import Strings.Byte.
From Stdlib Require Import DecimalZ.
From stdpp Require Import base gmap.
Import ListNotations.

Local Open Scope N_scope.

(* ================================================================= *)
(** ** Python text and bytes *)

(** A Python [str]: Unicode code points, 0 to 0x10FFFF.  Lone surrogates
    (0xD800 to 0xDFFF) are legal members of a [str]. *)
Definition pystr := list N.

(** A Python [bytes] object. *)
Definition bytes := list byte.

Definition byte_of_N (n : N) : byte :=
  match Byte.of_N n with
  | Some b => b
  | None => x00
  end.

Module Utf8.

(** A code point that the [utf-8] codec can encode: a Unicode scalar
    value.  [str.encode] raises [UnicodeEncodeError] on anything else. *)
Definition scalar (c : N) : bool :=
  (c <? 0xD800) || ((0xDFFF <? c) && (c <? 0x110000)).

Definition encode_char (c : N) : option (list N) :=
  if c <? 0x80 then Some [c]
  else if c <? 0x800 then Some [0xC0 + c / 64; 0x80 + c mod 64]
  else if c <? 0x10000 then
    if (0xD800 <=? c) && (c <=? 0xDFFF) then None
    else Some [0xE0 + c / 4096; 0x80 + (c / 64) mod 64; 0x80 + c mod 64]
  else if c <? 0x110000 then
    Some [0xF0 + c / 262144; 0x80 + (c / 4096) mod 64;
          0x80 + (c / 64) mod 64; 0x80 + c mod 64]
  else None.

(** [s.encode("utf-8")]: [None] stands for [UnicodeEncodeError]. *)
Fixpoint encode (s : pystr) : option bytes :=
  match s with
  | [] => Some []
  | c :: s' =>
      match encode_char c, encode s' with
      | Some bs, Some rest => Some (List.map byte_of_N bs ++ rest)
      | _, _ => None
      end
  end.

Definition continuation (b : byte) : bool :=
  (0x80 <=? Byte.to_N b) && (Byte.to_N b <? 0xC0).

Definition low6 (b : byte) : N := Byte.to_N b - 0x80.

(** [b.decode("utf-8")], strict: overlong forms, surrogates and values
    past 0x10FFFF are refused.  [None] stands for [UnicodeDecodeError]. *)
Fixpoint decode (bs : bytes) : option pystr :=
  match bs with
  | [] => Some []
  | b0 :: t0 =>
      let n0 := Byte.to_N b0 in
      if n0 <? 0x80 then
        match decode t0 with Some s => Some (n0 :: s) | None => None end
      else if n0 <? 0xC2 then None
      else if n0 <? 0xE0 then
        match t0 with
        | b1 :: t1 =>
            if continuation b1 then
              match decode t1 with
              | Some s => Some ((n0 - 0xC0) * 64 + low6 b1 :: s)
              | None => None
              end
            else None
        | _ => None
        end
      else if n0 <? 0xF0 then
        match t0 with
        | b1 :: b2 :: t2 =>
            let c := (n0 - 0xE0) * 4096 + low6 b1 * 64 + low6 b2 in
            if continuation b1 && continuation b2
               && (0x800 <=? c) && negb ((0xD800 <=? c) && (c <=? 0xDFFF))
            then
              match decode t2 with
              | Some s => Some (c :: s)
              | None => None
              end
            else None
        | _ => None
        end
      else if n0 <? 0xF5 then
        match t0 with
        | b1 :: b2 :: b3 :: t3 =>
            let c := (n0 - 0xF0) * 262144 + low6 b1 * 4096
                     + low6 b2 * 64 + low6 b3 in
            if continuation b1 && continuation b2 && continuation b3
               && (0x10000 <=? c) && (c <? 0x110000)
            then
              match decode t3 with
              | Some s => Some (c :: s)
              | None => None
              end
            else None
        | _ => None
        end
      else None
  end.

End Utf8.

(** A string literal of this file, read as Python text: the literal's
    bytes are the UTF-8 form of the text. *)
Definition text (s : string) : pystr :=
  match Utf8.decode (list_byte_of_string s) with
  | Some t => t
  | None => []
  end.

(** Lowercase hexadecimal, as [%x] and [hexdigest] print it. *)
Definition hex_digit (d : N) : N :=
  if d <? 10 then 48 + d else 87 + d.

(** The [k] low hexadecimal digits of [n], most significant first. *)
Fixpoint hex_fixed (k : nat) (n : N) : pystr :=
  match k with
  | O => []
  | S k' => hex_fixed k' (n / 16) ++ [hex_digit (n mod 16)]
  end.

Definition is_lower_hex (c : N) : bool :=
  ((48 <=? c) && (c <=? 57)) || ((97 <=? c) && (c <=? 102)).

Module Base64.

(** The character of a sextet in the standard alphabet
    [A-Z a-z 0-9 + /]. *)
Definition char (s : N) : N :=
  if s <? 26 then 65 + s
  else if s <? 52 then 71 + s
  else if s <? 62 then s - 4
  else if s =? 62 then 43
  else 47.

Definition value (c : N) : option N :=
  if (65 <=? c) && (c <=? 90) then Some (c - 65)
  else if (97 <=? c) && (c <=? 122) then Some (c - 71)
  else if (48 <=? c) && (c <=? 57) then Some (c + 4)
  else if c =? 43 then Some 62
  else if c =? 47 then Some 63
  else None.

Definition pad : N := 61.

(** [base64.b64encode] on the bytes' values. *)
Fixpoint encodeN (l : list N) : list N :=
  match l with
  | [] => []
  | [a] => [char (a / 4); char ((a mod 4) * 16); pad; pad]
  | [a; b] =>
      [char (a / 4); char ((a mod 4) * 16 + b / 16);
       char ((b mod 16) * 4); pad]
  | a :: b :: c :: rest =>
      char (a / 4) :: char ((a mod 4) * 16 + b / 16)
        :: char ((b mod 16) * 4 + c / 64) :: char (c mod 64)
        :: encodeN rest
  end.

Definition b64encode (bs : bytes) : bytes :=
  List.map byte_of_N (encodeN (List.map Byte.to_N bs)).

(** Strict decoding (as [b64decode(..., validate=True)]): whole groups
    of four characters, padding only in the last group, and no stray
    bits under the padding. *)
Fixpoint decodeN (l : list N) : option (list N) :=
  match l with
  | [] => Some []
  | c1 :: c2 :: c3 :: c4 :: rest =>
      match value c1, value c2 with
      | Some s1, Some s2 =>
          let a := s1 * 4 + s2 / 16 in
          if (c3 =? pad) && (c4 =? pad) then
            match rest with
            | [] => if s2 mod 16 =? 0 then Some [a] else None
            | _ => None
            end
          else
            match value c3 with
            | Some s3 =>
                let b := (s2 mod 16) * 16 + s3 / 4 in
                if c4 =? pad then
                  match rest with
                  | [] => if s3 mod 4 =? 0 then Some [a; b] else None
                  | _ => None
                  end
                else
                  match value c4, decodeN rest with
                  | Some s4, Some tl =>
                      Some (a :: b :: (s3 mod 4) * 64 + s4 :: tl)
                  | _, _ => None
                  end
            | None => None
            end
      | _, _ => None
      end
  | _ => None
  end.

Definition b64decode (bs : bytes) : option bytes :=
  match decodeN (List.map Byte.to_N bs) with
  | Some l => Some (List.map byte_of_N l)
  | None => None
  end.

End Base64.

(* ================================================================= *)
(** ** [hashlib.sha512] and [hmac] *)

Module Sha512.

(** 64-bit words: numbers below [2^64], every sum reduced. *)
Definition mask : N := 0xFFFFFFFFFFFFFFFF.

Definition add (a b : N) : N := N.land (a + b) mask.

Definition rotr (n x : N) : N :=
  N.lor (N.shiftr x n) (N.land (N.shiftl x (64 - n)) mask).

Definition shr (n x : N) : N := N.shiftr x n.

Definition not64 (x : N) : N := N.lxor x mask.

Definition Ch (x y z : N) : N :=
  N.lxor (N.land x y) (N.land (not64 x) z).

Definition Maj (x y z : N) : N :=
  N.lxor (N.land x y) (N.lxor (N.land x z) (N.land y z)).

Definition Sigma0 (x : N) : N :=
  N.lxor (rotr 28 x) (N.lxor (rotr 34 x) (rotr 39 x)).

Definition Sigma1 (x : N) : N :=
  N.lxor (rotr 14 x) (N.lxor (rotr 18 x) (rotr 41 x)).

Definition sigma0 (x : N) : N :=
  N.lxor (rotr 1 x) (N.lxor (rotr 8 x) (shr 7 x)).

Definition sigma1 (x : N) : N :=
  N.lxor (rotr 19 x) (N.lxor (rotr 61 x) (shr 6 x)).

Definition K : list N :=
  [0x428a2f98d728ae22; 0x7137449123ef65cd; 0xb5c0fbcfec4d3b2f;
   0xe9b5dba58189dbbc; 0x3956c25bf348b538; 0x59f111f1b605d019;
   0x923f82a4af194f9b; 0xab1c5ed5da6d8118; 0xd807aa98a3030242;
   0x12835b0145706fbe; 0x243185be4ee4b28c; 0x550c7dc3d5ffb4e2;
   0x72be5d74f27b896f; 0x80deb1fe3b1696b1; 0x9bdc06a725c71235;
   0xc19bf174cf692694; 0xe49b69c19ef14ad2; 0xefbe4786384f25e3;
   0x0fc19dc68b8cd5b5; 0x240ca1cc77ac9c65; 0x2de92c6f592b0275;
   0x4a7484aa6ea6e483; 0x5cb0a9dcbd41fbd4; 0x76f988da831153b5;
   0x983e5152ee66dfab; 0xa831c66d2db43210; 0xb00327c898fb213f;
   0xbf597fc7beef0ee4; 0xc6e00bf33da88fc2; 0xd5a79147930aa725;
   0x06ca6351e003826f; 0x142929670a0e6e70; 0x27b70a8546d22ffc;
   0x2e1b21385c26c926; 0x4d2c6dfc5ac42aed; 0x53380d139d95b3df;
   0x650a73548baf63de; 0x766a0abb3c77b2a8; 0x81c2c92e47edaee6;
   0x92722c851482353b; 0xa2bfe8a14cf10364; 0xa81a664bbc423001;
   0xc24b8b70d0f89791; 0xc76c51a30654be30; 0xd192e819d6ef5218;
   0xd69906245565a910; 0xf40e35855771202a; 0x106aa07032bbd1b8;
   0x19a4c116b8d2d0c8; 0x1e376c085141ab53; 0x2748774cdf8eeb99;
   0x34b0bcb5e19b48a8; 0x391c0cb3c5c95a63; 0x4ed8aa4ae3418acb;
   0x5b9cca4f7763e373; 0x682e6ff3d6b2b8a3; 0x748f82ee5defb2fc;
   0x78a5636f43172f60; 0x84c87814a1f0ab72; 0x8cc702081a6439ec;
   0x90befffa23631e28; 0xa4506cebde82bde9; 0xbef9a3f7b2c67915;
   0xc67178f2e372532b; 0xca273eceea26619c; 0xd186b8c721c0c207;
   0xeada7dd6cde0eb1e; 0xf57d4f7fee6ed178; 0x06f067aa72176fba;
   0x0a637dc5a2c898a6; 0x113f9804bef90dae; 0x1b710b35131c471b;
   0x28db77f523047d84; 0x32caab7b40c72493; 0x3c9ebe0a15c9bebc;
   0x431d67c49c100d4c; 0x4cc5d4becb3e42b6; 0x597f299cfc657e2a;
   0x5fcb6fab3ad6faec; 0x6c44198c4a475817].

Definition H0 : list N :=
  [0x6a09e667f3bcc908; 0xbb67ae8584caa73b; 0x3c6ef372fe94f82b;
   0xa54ff53a5f1d36f1; 0x510e527fade682d1; 0x9b05688c2b3e6c1f;
   0x1f83d9abfb41bd6b; 0x5be0cd19137e2179].

(** Big-endian numbers. *)
Definition be_word (bs : list N) : N :=
  fold_left (fun acc b => acc * 256 + b) bs 0.

Fixpoint be_bytes (k : nat) (n : N) : list N :=
  match k with
  | O => []
  | S k' => be_bytes k' (n / 256) ++ [n mod 256]
  end.

(** The message, a one bit, zeros, and the bit length on 128 bits: a
    whole number of 128-byte blocks. *)
Definition padding (len : N) : list N :=
  0x80 :: repeat 0 (N.to_nat ((128 - (len + 17) mod 128) mod 128))
    ++ be_bytes 16 (8 * len).

Fixpoint chunks (fuel n : nat) (l : list N) : list (list N) :=
  match fuel, l with
  | O, _ | _, [] => []
  | S fuel', _ => firstn n l :: chunks fuel' n (skipn n l)
  end.

(** The message schedule, latest word first. *)
Definition next_word (rw : list N) : N :=
  add (add (sigma1 (nth 1 rw 0)) (nth 6 rw 0))
      (add (sigma0 (nth 14 rw 0)) (nth 15 rw 0)).

Fixpoint extend (k : nat) (rw : list N) : list N :=
  match k with
  | O => rw
  | S k' => extend k' (next_word rw :: rw)
  end.

Definition schedule (block : list N) : list N :=
  rev (extend 64 (rev (List.map be_word (chunks 16 8 block)))).

Definition round (st : list N) (kw : N * N) : list N :=
  match st with
  | [a; b; c; d; e; f; g; h] =>
      let T1 := add (add (add h (Sigma1 e)) (Ch e f g))
                    (add (fst kw) (snd kw)) in
      let T2 := add (Sigma0 a) (Maj a b c) in
      [add T1 T2; a; b; c; add d T1; e; f; g]
  | _ => st
  end.

Definition compress (H : list N) (block : list N) : list N :=
  List.map (fun p => add (fst p) (snd p))
    (combine H (fold_left round (combine K (schedule block)) H)).

Definition digestN (msg : list N) : list N :=
  let padded := msg ++ padding (N.of_nat (length msg)) in
  flat_map (be_bytes 8)
    (fold_left compress (chunks (length padded) 128 padded) H0).

(** [hashlib.sha512(msg).digest()] *)
Definition digest (msg : bytes) : bytes :=
  List.map byte_of_N (digestN (List.map Byte.to_N msg)).

Definition block_size : nat := 128.

End Sha512.

Module Hmac.

(** [hmac.new(key, msg, hashlib.sha512)], as [hmac.py] builds it: a key
    longer than a block is hashed first, the key is padded with zero
    bytes to a block, and the inner and outer hashes start from the key
    translated through [x ^ 0x36] and [x ^ 0x5C]. *)
Definition block_key (key : bytes) : list N :=
  let k := if (Sha512.block_size <? length key)%nat
           then Sha512.digest key else key in
  List.map Byte.to_N k ++ repeat 0 (Sha512.block_size - length k).

Definition trans_36 (x : N) : N := N.lxor x 0x36.
Definition trans_5C (x : N) : N := N.lxor x 0x5C.

Definition digest (key msg : bytes) : bytes :=
  let k := block_key key in
  let inner :=
    Sha512.digestN (List.map trans_36 k ++ List.map Byte.to_N msg) in
  List.map byte_of_N (Sha512.digestN (List.map trans_5C k ++ inner)).

(** [.hexdigest()]: two lowercase hexadecimal digits per byte. *)
Definition hexdigest (key msg : bytes) : pystr :=
  flat_map (fun b => hex_fixed 2 (Byte.to_N b)) (digest key msg).

End Hmac.

(* ================================================================= *)
(** ** [uuid.uuid4] *)

Module Uuid.

(** [UUID(bytes=b, version=4)]: the sixteen bytes read as a big-endian
    number, the variant set to RFC 4122 and the version to 4. *)
Definition of_random (b : list N) : N :=
  let i := Sha512.be_word b in
  let i := N.ldiff i (N.shiftl 0xc000 48) in
  let i := N.lor i (N.shiftl 0x8000 48) in
  let i := N.ldiff i (N.shiftl 0xf000 64) in
  N.lor i (N.shiftl 4 76).

(** [str(u)]: ['%032x' % u.int], cut 8-4-4-4-12 with hyphens. *)
Definition to_str (i : N) : pystr :=
  let hex := hex_fixed 32 i in
  firstn 8 hex ++ 45 :: firstn 4 (skipn 8 hex) ++ 45
    :: firstn 4 (skipn 12 hex) ++ 45 :: firstn 4 (skipn 16 hex) ++ 45
    :: skipn 20 hex.

(** The text form of a version-4 UUID: 36 characters, hyphens at
    positions 8, 13, 18 and 23, lowercase hexadecimal elsewhere, the
    version digit [4] and a variant digit among [8 9 a b]. *)
Definition well_formed (s : pystr) : bool :=
  (length s =? 36)%nat
  && forallb (fun ic : nat * N =>
       let (i, c) := ic in
       if ((i =? 8) || (i =? 13) || (i =? 18) || (i =? 23))%nat
       then c =? 45
       else if (i =? 14)%nat then c =? 52
       else if (i =? 19)%nat
       then (c =? 56) || (c =? 57) || (c =? 97) || (c =? 98)
       else is_lower_hex c)
     (combine (seq 0 36) s).

End Uuid.

(* ================================================================= *)
(** ** Python values and [json] *)

(** The values [json] can hold, floats apart (the exchange takes decimal
    quantities as strings).  A [dict] is its items in insertion order. *)
#[warnings="-register-all"]
Inductive pyval : Type :=
| PNone
| PBool (b : bool)
| PInt (z : Z)
| PStr (s : pystr)
| PList (l : list pyval)
| PDict (d : list (pystr * pyval)).

Definition pydict := list (pystr * pyval).

Fixpoint str_eqb (s t : pystr) : bool :=
  match s, t with
  | [], [] => true
  | a :: s', b :: t' => (a =? b) && str_eqb s' t'
  | _, _ => false
  end.

(** [d.get(k)], as an option. *)
Fixpoint dict_get (d : pydict) (k : pystr) : option pyval :=
  match d with
  | [] => None
  | (k', v) :: d' => if str_eqb k' k then Some v else dict_get d' k
  end.

(** [d.get(k, default)] *)
Definition dict_get_default (d : pydict) (k : pystr) (default : pyval)
  : pyval :=
  match dict_get d k with
  | Some v => v
  | None => default
  end.

(** [d[k] = v]: a key already present keeps its place and takes the new
    value; a new key goes last. *)
Fixpoint dict_set (d : pydict) (k : pystr) (v : pyval) : pydict :=
  match d with
  | [] => [(k, v)]
  | (k', v') :: d' =>
      if str_eqb k' k then (k', v) :: d' else (k', v') :: dict_set d' k v
  end.

(** [dict(pairs)]: the items inserted one after the other. *)
Definition dict_of_pairs (l : list (pystr * pyval)) : pydict :=
  fold_left (fun d kv => dict_set d (fst kv) (snd kv)) l [].

(** [x == s] for a [str] [s]: only an equal [str] is equal to it. *)
Definition py_eq_str (x : pyval) (s : pystr) : bool :=
  match x with
  | PStr t => str_eqb t s
  | _ => false
  end.

Fixpoint uint_chars (u : Decimal.uint) : pystr :=
  match u with
  | Decimal.Nil => []
  | Decimal.D0 u => 48 :: uint_chars u
  | Decimal.D1 u => 49 :: uint_chars u
  | Decimal.D2 u => 50 :: uint_chars u
  | Decimal.D3 u => 51 :: uint_chars u
  | Decimal.D4 u => 52 :: uint_chars u
  | Decimal.D5 u => 53 :: uint_chars u
  | Decimal.D6 u => 54 :: uint_chars u
  | Decimal.D7 u => 55 :: uint_chars u
  | Decimal.D8 u => 56 :: uint_chars u
  | Decimal.D9 u => 57 :: uint_chars u
  end.

(** [int.__repr__]: decimal, with a minus sign below zero.  This is
    the text where there is one: CPython from 3.11 on raises
    [ValueError] for more digits than [sys.int_max_str_digits] (4300
    unless set otherwise), which is not modelled. *)
Definition int_repr (z : Z) : pystr :=
  match Z.to_int z with
  | Decimal.Pos u => uint_chars u
  | Decimal.Neg u => 45 :: uint_chars u
  end.

(** [str(x)].  The text of a list or of a dict is their [repr], which
    rests on the Unicode tables ([str.isprintable]) and is not computed
    here: [None] stands for a text that starts with a bracket. *)
Definition py_str (x : pyval) : option pystr :=
  match x with
  | PNone => Some (text "None")
  | PBool true => Some (text "True")
  | PBool false => Some (text "False")
  | PInt z => Some (int_repr z)
  | PStr s => Some s
  | PList _ | PDict _ => None
  end.

(** [str(x) == s] *)
Definition py_str_is (x : pyval) (s : pystr) : bool :=
  match py_str x with
  | Some t => str_eqb t s
  | None => false
  end.

Module Json.

(** [ESCAPE_DCT] of [json.encoder], as [ensure_ascii=False] uses it:
    the quote, the backslash and the control characters below 0x20 are
    escaped; everything else, non-ASCII included, stands for itself. *)
Definition escape_char (c : N) : pystr :=
  if c =? 34 then [92; 34]
  else if c =? 92 then [92; 92]
  else if c =? 10 then [92; 110]
  else if c =? 13 then [92; 114]
  else if c =? 9 then [92; 116]
  else if c =? 8 then [92; 98]
  else if c =? 12 then [92; 102]
  else if c <? 0x20 then 92 :: 117 :: hex_fixed 4 c
  else [c].

(** [encode_basestring] *)
Definition encode_basestring (s : pystr) : pystr :=
  34 :: flat_map escape_char s ++ [34].

Fixpoint join (sep : pystr) (l : list pystr) : pystr :=
  match l with
  | [] => []
  | [x] => x
  | x :: l' => x ++ sep ++ join sep l'
  end.

(** [json.dumps(v, separators=(",", ":"), ensure_ascii=False)], where
    it returns.  It raises [ValueError] on an integer whose text
    [int.__repr__] refuses, and [RecursionError] on a value nested more
    deeply than the interpreter's stack allows; neither is modelled:
    what is stated of a payload below is stated of one that was
    built. *)
Fixpoint dumps (v : pyval) : pystr :=
  match v with
  | PNone => text "null"
  | PBool true => text "true"
  | PBool false => text "false"
  | PInt z => int_repr z
  | PStr s => encode_basestring s
  | PList l => 91 :: join [44] (List.map dumps l) ++ [93]
  | PDict d =>
      123 :: join [44]
               (List.map (fun kv => encode_basestring (fst kv) ++ 58
                                      :: dumps (snd kv)) d)
          ++ [125]
  end.

(** *** [json.loads]

    The scanner of [json.decoder] and [json.scanner].  Input is consumed
    from the front; a result comes with the text that is left.  Numbers
    with a fraction or an exponent, [NaN] and [Infinity] are floats and
    have no value in [pyval]: the scanner gives [None] on them, as it
    does on text that is not JSON. *)

Definition is_ws (c : N) : bool :=
  (c =? 32) || (c =? 9) || (c =? 10) || (c =? 13).

Fixpoint skip_ws (s : pystr) : pystr :=
  match s with
  | c :: s' => if is_ws c then skip_ws s' else s
  | [] => []
  end.

Fixpoint strip_prefix (p s : pystr) : option pystr :=
  match p, s with
  | [], _ => Some s
  | a :: p', b :: s' => if a =? b then strip_prefix p' s' else None
  | _ :: _, [] => None
  end.

Definition hex_value (c : N) : option N :=
  if (48 <=? c) && (c <=? 57) then Some (c - 48)
  else if (97 <=? c) && (c <=? 102) then Some (c - 87)
  else if (65 <=? c) && (c <=? 70) then Some (c - 55)
  else None.

(** [_decode_uXXXX]: four hexadecimal digits. *)
Definition hex4 (h1 h2 h3 h4 : N) : option N :=
  match hex_value h1, hex_value h2, hex_value h3, hex_value h4 with
  | Some a, Some b, Some c, Some d => Some (((a * 16 + b) * 16 + c) * 16 + d)
  | _, _, _, _ => None
  end.

(** [BACKSLASH]: the one-character escapes. *)
Definition unescape (e : N) : option N :=
  if e =? 34 then Some 34
  else if e =? 92 then Some 92
  else if e =? 47 then Some 47
  else if e =? 98 then Some 8
  else if e =? 102 then Some 12
  else if e =? 110 then Some 10
  else if e =? 114 then Some 13
  else if e =? 116 then Some 9
  else None.

Definition cons_char (c : N) (r : option (pystr * pystr))
  : option (pystr * pystr) :=
  match r with
  | Some (t, rest) => Some (c :: t, rest)
  | None => None
  end.

(** [py_scanstring] with [strict=True], from the character after the
    opening quote: the text up to the closing quote, escapes resolved
    and a surrogate pair of [u] escapes joined into one code point. *)
Fixpoint scanstring (s : pystr) : option (pystr * pystr) :=
  match s with
  | [] => None
  | c :: s1 =>
      if c =? 34 then Some ([], s1)
      else if c =? 92 then
        match s1 with
        | [] => None
        | e :: s2 =>
            if e =? 117 then
              match s2 with
              | h1 :: h2 :: h3 :: h4 :: s3 =>
                  match hex4 h1 h2 h3 h4 with
                  | Some uni =>
                      if (0xd800 <=? uni) && (uni <=? 0xdbff) then
                        match s3 with
                        | b :: u :: s4 =>
                            if (b =? 92) && (u =? 117) then
                              match s4 with
                              | g1 :: g2 :: g3 :: g4 :: s5 =>
                                  match hex4 g1 g2 g3 g4 with
                                  | Some uni2 =>
                                      if (0xdc00 <=? uni2) && (uni2 <=? 0xdfff)
                                      then
                                        cons_char
                                          (0x10000 + ((uni - 0xd800) * 1024
                                                      + (uni2 - 0xdc00)))
                                          (scanstring s5)
                                      else cons_char uni (scanstring s3)
                                  | None => None
                                  end
                              | _ => None
                              end
                            else cons_char uni (scanstring s3)
                        | _ => cons_char uni (scanstring s3)
                        end
                      else cons_char uni (scanstring s3)
                  | None => None
                  end
              | _ => None
              end
            else
              match unescape e with
              | Some ch => cons_char ch (scanstring s2)
              | None => None
              end
        end
      else if c <? 0x20 then None
      else cons_char c (scanstring s1)
  end.

Definition digit_of (c : N) (u : Decimal.uint) : option Decimal.uint :=
  if c =? 48 then Some (Decimal.D0 u)
  else if c =? 49 then Some (Decimal.D1 u)
  else if c =? 50 then Some (Decimal.D2 u)
  else if c =? 51 then Some (Decimal.D3 u)
  else if c =? 52 then Some (Decimal.D4 u)
  else if c =? 53 then Some (Decimal.D5 u)
  else if c =? 54 then Some (Decimal.D6 u)
  else if c =? 55 then Some (Decimal.D7 u)
  else if c =? 56 then Some (Decimal.D8 u)
  else if c =? 57 then Some (Decimal.D9 u)
  else None.

(** The longest run of digits at the front of [s]. *)
Fixpoint scan_digits (s : pystr) : Decimal.uint * pystr :=
  match s with
  | [] => (Decimal.Nil, [])
  | c :: s' =>
      let (u, rest) := scan_digits s' in
      match digit_of c u with
      | Some u' => (u', rest)
      | None => (Decimal.Nil, s)
      end
  end.

(** The integer part of [NUMBER_RE]: [0], or a digit from 1 to 9
    followed by digits. *)
Definition scan_natural (s : pystr) : option (Decimal.uint * pystr) :=
  match s with
  | [] => None
  | c :: s' =>
      if c =? 48 then Some (Decimal.D0 Decimal.Nil, s')
      else
        match scan_digits s with
        | (Decimal.Nil, _) => None
        | (u, rest) => Some (u, rest)
        end
  end.

(** What follows an integer literal opens a fraction or an exponent. *)
Definition float_tail (s : pystr) : bool :=
  match s with
  | c :: _ => (c =? 46) || (c =? 101) || (c =? 69)
  | [] => false
  end.

(** [match_number]: an integer.  After the digits, a [.] or an [e]
    either makes the literal a float or is a syntax error at the next
    token: [None] in both cases. *)
Definition scan_number (s : pystr) : option (pyval * pystr) :=
  match s with
  | [] => None
  | c :: s' =>
      if c =? 45 then
        match scan_natural s' with
        | Some (u, rest) =>
            if float_tail rest then None
            else Some (PInt (Z.of_int (Decimal.Neg u)), rest)
        | None => None
        end
      else
        match scan_natural s with
        | Some (u, rest) =>
            if float_tail rest then None
            else Some (PInt (Z.of_int (Decimal.Pos u)), rest)
        | None => None
        end
  end.

(** [scan_once], [JSONArray] and [JSONObject].  The recursion is on the
    nesting of the text; [fuel] bounds it and [loads] gives enough. *)
Fixpoint scan (fuel : nat) (s : pystr) {struct fuel}
  : option (pyval * pystr) :=
  match fuel with
  | O => None
  | S fuel' =>
      match s with
      | [] => None
      | c :: s' =>
          if c =? 34 then
            match scanstring s' with
            | Some (t, rest) => Some (PStr t, rest)
            | None => None
            end
          else if c =? 123 then
            match skip_ws s' with
            | c1 :: s1 =>
                if c1 =? 125 then Some (PDict [], s1)
                else
                  match scan_members fuel' (c1 :: s1) with
                  | Some (m, rest) => Some (PDict (dict_of_pairs m), rest)
                  | None => None
                  end
            | [] => None
            end
          else if c =? 91 then
            match skip_ws s' with
            | c1 :: s1 =>
                if c1 =? 93 then Some (PList [], s1)
                else
                  match scan_items fuel' (c1 :: s1) with
                  | Some (l, rest) => Some (PList l, rest)
                  | None => None
                  end
            | [] => None
            end
          else if c =? 110 then
            match strip_prefix (text "null") s with
            | Some rest => Some (PNone, rest)
            | None => None
            end
          else if c =? 116 then
            match strip_prefix (text "true") s with
            | Some rest => Some (PBool true, rest)
            | None => None
            end
          else if c =? 102 then
            match strip_prefix (text "false") s with
            | Some rest => Some (PBool false, rest)
            | None => None
            end
          else scan_number s
      end
  end
with scan_items (fuel : nat) (s : pystr) {struct fuel}
  : option (list pyval * pystr) :=
  match fuel with
  | O => None
  | S fuel' =>
      match scan fuel' s with
      | Some (v, rest) =>
          match skip_ws rest with
          | c :: s1 =>
              if c =? 93 then Some ([v], s1)
              else if c =? 44 then
                match scan_items fuel' (skip_ws s1) with
                | Some (l, rest') => Some (v :: l, rest')
                | None => None
                end
              else None
          | [] => None
          end
      | None => None
      end
  end
with scan_members (fuel : nat) (s : pystr) {struct fuel}
  : option (list (pystr * pyval) * pystr) :=
  match fuel with
  | O => None
  | S fuel' =>
      match s with
      | q :: s0 =>
          if q =? 34 then
            match scanstring s0 with
            | Some (k, rest) =>
                match skip_ws rest with
                | colon :: s1 =>
                    if colon =? 58 then
                      match scan fuel' (skip_ws s1) with
                      | Some (v, rest1) =>
                          match skip_ws rest1 with
                          | c :: s2 =>
                              if c =? 125 then Some ([(k, v)], s2)
                              else if c =? 44 then
                                match scan_members fuel' (skip_ws s2) with
                                | Some (m, rest') => Some ((k, v) :: m, rest')
                                | None => None
                                end
                              else None
                          | [] => None
                          end
                      | None => None
                      end
                    else None
                | [] => None
                end
            | None => None
            end
          else None
      | [] => None
      end
  end.

(** [json.loads(s)]: one value, white space around it, nothing else. *)
Definition loads (s : pystr) : option pyval :=
  match scan (S (length s)) (skip_ws s) with
  | Some (v, rest) =>
      match skip_ws rest with
      | [] => Some v
      | _ => None
      end
  | None => None
  end.

End Json.

(* ================================================================= *)
(** ** Exceptions, the world, the transport *)

(** What [requests] itself raises from [session.get] and
    [session.post]: no connection, or the time bound passed. *)
Inductive transport_error : Type :=
| ConnectionError
| Timeout.

(** The exceptions of the calls modelled here; the list is not closed
    ([ValueError] and [RecursionError] of [json.dumps] and
    [RecursionError] of [resp.json()] are left out, see [Json.dumps]
    and [response]).  [CoinoneRateLimitError] is the subclass of
    [CoinoneAPIError]; both carry [message], [code] and [http_status],
    where Python's [None] is [PNone] for the code and [None] for the
    status. *)
Inductive exn : Type :=
| CoinoneAPIError (message : pyval) (code : pyval) (http_status : option Z)
| CoinoneRateLimitError (message : pyval) (code : pyval)
    (http_status : option Z)
| AttributeError
| TypeError
| UnicodeEncodeError
| UnicodeDecodeError
| RequestException (e : transport_error).

(** [isinstance(e, CoinoneRateLimitError)] *)
Definition is_rate_limit (e : exn) : bool :=
  match e with
  | CoinoneRateLimitError _ _ _ => true
  | _ => false
  end.

Inductive http_method : Type := GET | POST.

Record request : Type := mk_request {
  req_method : http_method;
  req_url : pystr;
  req_params : option pydict;
  req_data : option bytes;
  req_headers : list (pystr * pystr);
  req_timeout : Z
}.

(** A [requests.Response]: [resp_json] is what [resp.json()] gives,
    [None] where it raises [ValueError].  A body nested so deeply that
    [resp.json()] raises [RecursionError] has no counterpart here. *)
Record response : Type := mk_response {
  status_code : Z;
  reason : pystr;
  resp_url : pystr;
  resp_json : option pyval;
  resp_headers : list (pystr * pystr)
}.

Definition loc := positive.

(** The state a call runs in: the [dict] objects of the heap, the
    stream [os.urandom] reads with the number of bytes read so far, the
    far end of the session (what the [n]-th request of the session is
    answered with), and the exchanges made so far, oldest first. *)
Record world : Type := mk_world {
  heap : gmap loc pydict;
  entropy : nat -> byte;
  drawn : nat;
  transport : nat -> request -> transport_error + response;
  sent : list (request * (transport_error + response))
}.

Definition set_heap (h : gmap loc pydict) (w : world) : world :=
  mk_world h (entropy w) (drawn w) (transport w) (sent w).

Definition set_drawn (n : nat) (w : world) : world :=
  mk_world (heap w) (entropy w) n (transport w) (sent w).

Definition set_sent (l : list (request * (transport_error + response)))
  (w : world) : world :=
  mk_world (heap w) (entropy w) (drawn w) (transport w) l.

(** A computation that returns a value or raises, and changes the
    world on the way. *)
Definition M (A : Type) : Type := world -> (exn + A) * world.

Definition ret {A : Type} (a : A) : M A := fun w => (inr a, w).

Definition raise {A : Type} (e : exn) : M A := fun w => (inl e, w).

Definition bind {A B : Type} (c : M A) (k : A -> M B) : M B :=
  fun w =>
    match c w with
    | (inr a, w') => k a w'
    | (inl e, w') => (inl e, w')
    end.

Notation "x <- c ;; k" := (bind c (fun x => k))
  (at level 100, c at next level, right associativity).

(** A pure step that may raise. *)
Definition lift {A : Type} (r : exn + A) : M A := fun w => (r, w).

(** [dict(o)]: a new object with the items of [o].  A location that
    holds no dict stands for an argument that is no mapping and cannot
    be iterated ([None], a number): [TypeError].  The parameters are a
    dict, as the annotation of the source says, or such an object; an
    iterable of pairs, which [dict] accepts, and any other iterable, on
    which it raises [ValueError], have no counterpart here. *)
Definition dict_copy (o : loc) : M loc :=
  fun w =>
    match heap w !! o with
    | Some d =>
        let l := fresh (dom (heap w)) in
        (inr l, set_heap (<[l := d]> (heap w)) w)
    | None => (inl TypeError, w)
    end.

(** [{...}]: a new dict object. *)
Definition dict_new (d : pydict) : M loc :=
  fun w =>
    let l := fresh (dom (heap w)) in
    (inr l, set_heap (<[l := d]> (heap w)) w).

(** [o[k] = v] *)
Definition dict_setitem (o : loc) (k : pystr) (v : pyval) : M unit :=
  fun w =>
    match heap w !! o with
    | Some d => (inr tt, set_heap (<[o := dict_set d k v]> (heap w)) w)
    | None => (inl TypeError, w)
    end.

Definition dict_read (o : loc) : M pydict :=
  fun w =>
    match heap w !! o with
    | Some d => (inr d, w)
    | None => (inl TypeError, w)
    end.

(** [os.urandom(n)] *)
Definition urandom (n : nat) : M (list N) :=
  fun w =>
    (inr (List.map (fun i => Byte.to_N (entropy w i)) (seq (drawn w) n)),
     set_drawn (drawn w + n)%nat w).

(** [uuid.uuid4()]: [UUID(bytes=os.urandom(16), version=4)] *)
Definition uuid4 : M N :=
  b <- urandom 16 ;;
  ret (Uuid.of_random b).

(** [s.encode("utf-8")] *)
Definition str_encode (s : pystr) : exn + bytes :=
  match Utf8.encode s with
  | Some b => inr b
  | None => inl UnicodeEncodeError
  end.

(** [b.decode("utf-8")] *)
Definition bytes_decode (b : bytes) : exn + pystr :=
  match Utf8.decode b with
  | Some s => inr s
  | None => inl UnicodeDecodeError
  end.

(** One call of [session.get] or of [session.post]: the request is
    handed to the session, the final response (or the exception of
    [requests]) comes back, and both are on record.  What [requests]
    does inside the call, such as following a redirect with a second
    HTTP exchange, belongs to the transport and is not on record. *)
Definition session_send (rq : request) : M response :=
  fun w =>
    let answer := transport w (length (sent w)) rq in
    let w' := set_sent (sent w ++ [(rq, answer)]) w in
    match answer with
    | inr resp => (inr resp, w')
    | inl e => (inl (RequestException e), w')
    end.

(** [resp.raise_for_status()]: the text of the [HTTPError] it raises
    for a status from 400 to 599, [None] where it returns. *)
Definition raise_for_status (resp : response) : option pystr :=
  let s := status_code resp in
  if ((400 <=? s) && (s <? 500))%Z then
    Some (int_repr s ++ text " Client Error: " ++ reason resp
            ++ text " for url: " ++ resp_url resp)
  else if ((500 <=? s) && (s <? 600))%Z then
    Some (int_repr s ++ text " Server Error: " ++ reason resp
            ++ text " for url: " ++ resp_url resp)
  else None.

(** Truth of an [Optional[str]]: [None] and the empty string are
    false. *)
Definition truthy (o : option pystr) : bool :=
  match o with
  | Some (_ :: _) => true
  | _ => false
  end.

Definition of_optional (o : option pystr) : pyval :=
  match o with
  | Some s => PStr s
  | None => PNone
  end.

(* ================================================================= *)
(** ** [class CoinoneClient] *)

Record client : Type := mk_client {
  access_token : option pystr;
  secret_key : option pystr;
  timeout : Z
}.

Module CoinoneClient.

Definition PUBLIC_BASE_URL : pystr :=
  text "https://api.coinone.co.kr/public/v2".

Definition PRIVATE_BASE_URL : pystr := text "https://api.coinone.co.kr".

(** [isinstance(j, dict) and j.get("result") == "error"] *)
Definition is_error_body (j : pyval) : option pydict :=
  match j with
  | PDict d =>
      if py_eq_str (dict_get_default d (text "result") PNone) (text "error")
      then Some d
      else None
  | _ => None
  end.

(** [_get]: a GET on the public API. *)
Definition _get (self : client) (path : pystr) (params : option pydict)
  : M (pyval * list (pystr * pystr)) :=
  let url := PUBLIC_BASE_URL ++ path in
  resp <- session_send
            (mk_request GET url params None
               [(text "Accept", text "application/json")] (timeout self)) ;;
  match raise_for_status resp with
  | Some e =>
      raise (CoinoneAPIError (PStr (text "HTTP 错误: " ++ e)) PNone
               (Some (status_code resp)))
  | None =>
      match resp_json resp with
      | None =>
          raise (CoinoneAPIError (PStr (text "API 返回了无效的 JSON")) PNone
                   (Some (status_code resp)))
      | Some j =>
          match is_error_body j with
          | Some d =>
              raise (CoinoneAPIError
                       (dict_get_default d (text "error_msg")
                          (PStr (text "API 错误")))
                       (dict_get_default d (text "error_code") PNone)
                       None)
          | None => ret (j, resp_headers resp)
          end
      end
  end.

(** [_encode_payload_v21]: copy, add the token and a fresh nonce,
    compact JSON, base64. *)
Definition _encode_payload_v21 (self : client) (params : loc) : M bytes :=
  body <- dict_copy params ;;
  _ <- dict_setitem body (text "access_token")
         (of_optional (access_token self)) ;;
  u <- uuid4 ;;
  _ <- dict_setitem body (text "nonce") (PStr (Uuid.to_str u)) ;;
  b <- dict_read body ;;
  let json_str := Json.dumps (PDict b) in
  utf8 <- lift (str_encode json_str) ;;
  ret (Base64.b64encode utf8).

(** [_sign]: HMAC-SHA512 of the payload under the secret key, in
    hexadecimal.  With no secret key, [None.encode] is an
    [AttributeError]. *)
Definition _sign (self : client) (encoded_payload : bytes) : exn + pystr :=
  match secret_key self with
  | Some k =>
      match str_encode k with
      | inr key => inr (Hmac.hexdigest key encoded_payload)
      | inl e => inl e
      end
  | None => inl AttributeError
  end.

(** [_post_v21]: a signed POST on the private API. *)
Definition _post_v21 (self : client) (path : pystr) (params : loc)
  : M (pyval * list (pystr * pystr)) :=
  if negb (truthy (access_token self)) || negb (truthy (secret_key self))
  then
    raise (CoinoneAPIError
             (PStr (text "调用私有 API 需要提供 access_token 和 secret_key"))
             PNone None)
  else
    let url := PRIVATE_BASE_URL ++ path in
    encoded <- _encode_payload_v21 self params ;;
    signature <- lift (_sign self encoded) ;;
    payload <- lift (bytes_decode encoded) ;;
    let headers :=
      [(text "Content-type", text "application/json");
       (text "X-COINONE-PAYLOAD", payload);
       (text "X-COINONE-SIGNATURE", signature)] in
    resp <- session_send
              (mk_request POST url None (Some encoded) headers
                 (timeout self)) ;;
    match raise_for_status resp with
    | Some _ =>
        match resp_json resp with
        | Some (PDict d) =>
            raise (CoinoneAPIError
                     (dict_get_default d (text "error_msg")
                        (PStr (text "HTTP 错误")))
                     (dict_get_default d (text "error_code") PNone)
                     (Some (status_code resp)))
        | Some _ => raise AttributeError
        | None =>
            raise (CoinoneAPIError (PStr (text "HTTP 错误")) PNone
                     (Some (status_code resp)))
        end
    | None =>
        match resp_json resp with
        | None =>
            raise (CoinoneAPIError (PStr (text "API 返回了无效的 JSON"))
                     PNone (Some (status_code resp)))
        | Some j =>
            match is_error_body j with
            | Some d =>
                if py_str_is (dict_get_default d (text "error_code") PNone)
                     (text "4")
                then
                  raise (CoinoneRateLimitError
                           (dict_get_default d (text "error_msg")
                              (PStr (text "请求频率过高")))
                           (dict_get_default d (text "error_code") PNone)
                           None)
                else
                  raise (CoinoneAPIError
                           (dict_get_default d (text "error_msg")
                              (PStr (text "API 错误")))
                           (dict_get_default d (text "error_code") PNone)
                           None)
            | None => ret (j, resp_headers resp)
            end
        end
    end.

(** [get_balance_all]: POST /v2.1/account/balance/all *)
Definition get_balance_all (self : client)
  : M (pyval * list (pystr * pystr)) :=
  params <- dict_new [] ;;
  _post_v21 self (text "/v2.1/account/balance/all") params.

(** [cancel_all_orders]: POST /v2.1/order/cancel/all *)
Definition cancel_all_orders (self : client)
  (quote_currency target_currency : pystr)
  : M (pyval * list (pystr * pystr)) :=
  params <- dict_new [(text "quote_currency", PStr quote_currency);
                      (text "target_currency", PStr target_currency)] ;;
  _post_v21 self (text "/v2.1/order/cancel/all") params.

(** The arguments of [place_order]; an absent optional argument is
    [None]. *)
Record order : Type := mk_order {
  o_quote_currency : pystr;
  o_target_currency : pystr;
  o_side : pystr;
  o_type_ : pystr;
  o_price : option pystr;
  o_qty : option pystr;
  o_amount : option pystr;
  o_post_only : option bool;
  o_limit_price : option pystr;
  o_trigger_price : option pystr;
  o_user_order_id : option pystr
}.

(** [if x is not None: payload[k] = x] *)
Definition set_if_given (payload : loc) (k : pystr) (x : option pyval)
  : M unit :=
  match x with
  | Some v => dict_setitem payload k v
  | None => ret tt
  end.

(** [place_order]: POST /v2.1/order *)
Definition place_order (self : client) (o : order)
  : M (pyval * list (pystr * pystr)) :=
  payload <- dict_new [(text "quote_currency", PStr (o_quote_currency o));
                       (text "target_currency", PStr (o_target_currency o));
                       (text "side", PStr (o_side o));
                       (text "type", PStr (o_type_ o))] ;;
  _ <- set_if_given payload (text "price") (option_map PStr (o_price o)) ;;
  _ <- set_if_given payload (text "qty") (option_map PStr (o_qty o)) ;;
  _ <- set_if_given payload (text "amount") (option_map PStr (o_amount o)) ;;
  _ <- set_if_given payload (text "post_only")
         (option_map PBool (o_post_only o)) ;;
  _ <- set_if_given payload (text "limit_price")
         (option_map PStr (o_limit_price o)) ;;
  _ <- set_if_given payload (text "trigger_price")
         (option_map PStr (o_trigger_price o)) ;;
  _ <- set_if_given payload (text "user_order_id")
         (option_map PStr (o_user_order_id o)) ;;
  _post_v21 self (text "/v2.1/order") payload.

(** *** The public wrappers

    Each formats its path from its [str] arguments and hands it to
    [_get].  A default argument of the source ([quote_currency="KRW"],
    [size=200], [additional_data=False]) is the caller's to pass here.
    [get_orderbook] takes a float and is left out. *)








End CoinoneClient.

(* ================================================================= *)
(** ** Notions the statements use *)

(** Induction on a value, with the property at hand for every member
    of a list and every value of a dict. *)
Section pyval_induction.
  Variable P : pyval -> Prop.
  Hypothesis HNone : P PNone.
  Hypothesis HBool : forall b, P (PBool b).
  Hypothesis HInt : forall z, P (PInt z).
  Hypothesis HStr : forall s, P (PStr s).
  Hypothesis HList : forall l, Forall P l -> P (PList l).
  Hypothesis HDict :
    forall d, Forall (fun kv => P (snd kv)) d -> P (PDict d).

Fixpoint pyval_induction (v : pyval) : P v :=
  match v with
  | PNone => HNone
  | PBool b => HBool b
  | PInt z => HInt z
  | PStr s => HStr s
  | PList l =>
      HList l
        ((fix members (l : list pyval) : Forall P l :=
            match l with
            | [] => @List.Forall_nil _ P
            | x :: l' =>
                @List.Forall_cons _ P x l' (pyval_induction x) (members l')
            end) l)
  | PDict d =>
      HDict d
        ((fix items (d : pydict) : Forall (fun kv => P (snd kv)) d :=
            match d with
            | [] => @List.Forall_nil _ _
            | kv :: d' =>
                @List.Forall_cons _ _ kv d' (pyval_induction (snd kv))
                  (items d')
            end) d)
  end.

End pyval_induction.

(** No dict of [v], at any depth, holds a key twice: what every Python
    dict satisfies, and an association list need not. *)
Fixpoint distinct (l : list pystr) : bool :=
  match l with
  | [] => true
  | k :: l' => negb (existsb (str_eqb k) l') && distinct l'
  end.

Fixpoint wf (v : pyval) : bool :=
  match v with
  | PList l => forallb wf l
  | PDict d =>
      distinct (List.map fst d) && forallb (fun kv => wf (snd kv)) d
  | _ => true
  end.

(** Every code point of every string of [v], keys included, passes
    [p]. *)
Fixpoint all_chars (p : N -> bool) (v : pyval) : bool :=
  match v with
  | PStr s => forallb p s
  | PList l => forallb (all_chars p) l
  | PDict d =>
      forallb (fun kv => forallb p (fst kv) && all_chars p (snd kv)) d
  | _ => true
  end.

(** What may follow a value inside JSON text: nothing, a comma or a
    closing bracket; in particular no digit. *)
Definition delimited (s : pystr) : Prop :=
  match s with
  | [] => True
  | c :: _ => c = 44 \/ c = 93 \/ c = 125
  end.

Definition no_digit (s : pystr) : Prop :=
  match s with
  | [] => True
  | c :: _ => c < 48 \/ 57 < c
  end.

(** The sixteen bytes the next [os.urandom(16)] reads, and the nonce
    [str(uuid.uuid4())] makes of them. *)
Definition next_draw (w : world) : list N :=
  List.map (fun i => Byte.to_N (entropy w i)) (seq (drawn w) 16).

Definition next_nonce (w : world) : pystr :=
  Uuid.to_str (Uuid.of_random (next_draw w)).

(** The body [_encode_payload_v21] serializes for the parameters [d]:
    [d] with [access_token] and [nonce] set. *)
Definition signed_body (self : client) (d : pydict) (nonce : pystr)
  : pydict :=
  dict_set (dict_set d (text "access_token")
              (of_optional (access_token self)))
    (text "nonce") (PStr nonce).

(** A header of a request, by name. *)
Fixpoint header (h : list (pystr * pystr)) (name : pystr) : option pystr :=
  match h with
  | [] => None
  | (k, v) :: h' => if str_eqb k name then Some v else header h' name
  end.

(** Bytes read as text one for one (ASCII, Latin-1). *)
Definition bytes_text (b : bytes) : pystr := List.map Byte.to_N b.

(** HMAC as RFC 2104 words it, over SHA-512 (block of 128 bytes):
    [H((K0 xor opad) || H((K0 xor ipad) || text))], where [K0] is the
    key, hashed first when longer than a block, padded with zeros to a
    block, [ipad] is the byte 0x36 and [opad] the byte 0x5C repeated. *)
Definition rfc2104_key (key : bytes) : bytes :=
  let k := if (128 <? length key)%nat then Sha512.digest key else key in
  k ++ repeat x00 (128 - length k).

Definition xor_pad (p : N) (k : bytes) : bytes :=
  List.map (fun b => byte_of_N (N.lxor (Byte.to_N b) p)) k.

Definition rfc2104_hmac_sha512 (key msg : bytes) : bytes :=
  Sha512.digest
    (xor_pad 0x5C (rfc2104_key key)
       ++ Sha512.digest (xor_pad 0x36 (rfc2104_key key) ++ msg)).

(** Two lowercase hexadecimal digits per byte. *)
Definition lower_hex (b : bytes) : pystr :=
  flat_map (fun x => [hex_digit (Byte.to_N x / 16);
                      hex_digit (Byte.to_N x mod 16)]) b.

(** The first character of a serialized value: never white space, never
    a closing bracket. *)
Definition opens_value (c : N) : Prop :=
  Json.is_ws c = false /\ c <> 93 /\ c <> 125.

(** What the scanner is proved to do on the serialized form of [v]. *)
Definition scans_back (v : pyval) : Prop :=
  wf v = true ->
  forall fuel t,
    (length (Json.dumps v) <= fuel)%nat -> delimited t ->
    Json.scan fuel (Json.dumps v ++ t) = Some (v, t).

(** The serialized form of one item of a dict. *)
Definition member (kv : pystr * pyval) : pystr :=
  Json.encode_basestring (fst kv) ++ 58 :: Json.dumps (snd kv).

(** What a private call ends in once the response is there
    (lines 145 to 164 of [_post_v21]), without the monad. *)
Definition private_outcome (resp : response)
  : exn + pyval * list (pystr * pystr) :=
  match raise_for_status resp with
  | Some _ =>
      match resp_json resp with
      | Some (PDict d) =>
          inl (CoinoneAPIError
                 (dict_get_default d (text "error_msg")
                    (PStr (text "HTTP 错误")))
                 (dict_get_default d (text "error_code") PNone)
                 (Some (status_code resp)))
      | Some _ => inl AttributeError
      | None =>
          inl (CoinoneAPIError (PStr (text "HTTP 错误")) PNone
                 (Some (status_code resp)))
      end
  | None =>
      match resp_json resp with
      | None =>
          inl (CoinoneAPIError (PStr (text "API 返回了无效的 JSON")) PNone
                 (Some (status_code resp)))
      | Some j =>
          match CoinoneClient.is_error_body j with
          | Some d =>
              if py_str_is (dict_get_default d (text "error_code") PNone)
                   (text "4")
              then
                inl (CoinoneRateLimitError
                       (dict_get_default d (text "error_msg")
                          (PStr (text "请求频率过高")))
                       (dict_get_default d (text "error_code") PNone)
                       None)
              else
                inl (CoinoneAPIError
                       (dict_get_default d (text "error_msg")
                          (PStr (text "API 错误")))
                       (dict_get_default d (text "error_code") PNone)
                       None)
          | None => inr (j, resp_headers resp)
          end
      end
  end.

(** The same for a public call (lines 53 to 66 of [_get]). *)
Definition public_outcome (resp : response)
  : exn + pyval * list (pystr * pystr) :=
  match raise_for_status resp with
  | Some e =>
      inl (CoinoneAPIError (PStr (text "HTTP 错误: " ++ e)) PNone
             (Some (status_code resp)))
  | None =>
      match resp_json resp with
      | None =>
          inl (CoinoneAPIError (PStr (text "API 返回了无效的 JSON")) PNone
                 (Some (status_code resp)))
      | Some j =>
          match CoinoneClient.is_error_body j with
          | Some d =>
              inl (CoinoneAPIError
                     (dict_get_default d (text "error_msg")
                        (PStr (text "API 错误")))
                     (dict_get_default d (text "error_code") PNone)
                     None)
          | None => inr (j, resp_headers resp)
          end
      end
  end.

(** What a call ends in on the transport's answer. *)
Definition on_answer {A : Type} (f : response -> exn + A)
  (ans : transport_error + response) : exn + A :=
  match ans with
  | inr resp => f resp
  | inl e => inl (RequestException e)
  end.

(** The world after [_encode_payload_v21] has built the body of the
    parameters [d]: one more dict on the heap, sixteen more bytes of
    entropy read. *)
Definition after_encode (self : client) (d : pydict) (w : world) : world :=
  mk_world
    (<[fresh (dom (heap w)) := signed_body self d (next_nonce w)]> (heap w))
    (entropy w) (drawn w + 16)%nat (transport w) (sent w).

(** The request [_post_v21] sends for an encoded payload and its
    signature. *)
Definition private_request (self : client) (path : pystr)
  (encoded : bytes) (signature : pystr) : request :=
  mk_request POST (CoinoneClient.PRIVATE_BASE_URL ++ path) None
    (Some encoded)
    [(text "Content-type", text "application/json");
     (text "X-COINONE-PAYLOAD", bytes_text encoded);
     (text "X-COINONE-SIGNATURE", signature)]
    (timeout self).

(** The request [_get] sends. *)
Definition public_request (self : client) (path : pystr)
  (params : option pydict) : request :=
  mk_request GET (CoinoneClient.PUBLIC_BASE_URL ++ path) params None
    [(text "Accept", text "application/json")] (timeout self).

(** The answer is a transport failure: the transport raised, or the
    HTTP status is an error status. *)
Definition transport_failure (ans : transport_error + response) : Prop :=
  match ans with
  | inl _ => True
  | inr resp => raise_for_status resp <> None
  end.

(** The fields [place_order] puts in its payload: the four it always
    sends, then each optional one that was given, in the order of the
    assignments. *)
Definition given (k : string) (x : option pyval) : pydict :=
  match x with
  | Some v => [(text k, v)]
  | None => []
  end.

Definition order_fields (o : CoinoneClient.order) : pydict :=
  [(text "quote_currency", PStr (CoinoneClient.o_quote_currency o));
   (text "target_currency", PStr (CoinoneClient.o_target_currency o));
   (text "side", PStr (CoinoneClient.o_side o));
   (text "type", PStr (CoinoneClient.o_type_ o))]
  ++ given "price" (option_map PStr (CoinoneClient.o_price o))
  ++ given "qty" (option_map PStr (CoinoneClient.o_qty o))
  ++ given "amount" (option_map PStr (CoinoneClient.o_amount o))
  ++ given "post_only" (option_map PBool (CoinoneClient.o_post_only o))
  ++ given "limit_price" (option_map PStr (CoinoneClient.o_limit_price o))
  ++ given "trigger_price"
       (option_map PStr (CoinoneClient.o_trigger_price o))
  ++ given "user_order_id"
       (option_map PStr (CoinoneClient.o_user_order_id o)).

(** Decoding a request body: base64, then UTF-8, then JSON. *)
Definition decode_payload (b : bytes) : option pyval :=
  match Base64.b64decode b with
  | Some utf8 =>
      match Utf8.decode utf8 with
      | Some txt => Json.loads txt
      | None => None
      end
  | None => None
  end.

(** The body of a request, decoded; [None] where it has none. *)
Definition request_payload (rq : request) : option pyval :=
  match req_data rq with
  | Some b => decode_payload b
  | None => None
  end.


(** The world with the dict [d] at location [l]. *)
Definition with_dict (l : loc) (d : pydict) (w : world) : world :=
  set_heap (<[l := d]> (heap w)) w.

(** The two fields [_encode_payload_v21] adds to the parameters. *)
Definition credential_fields (self : client) (nonce : pystr) : pydict :=
  [(text "access_token", of_optional (access_token self));
   (text "nonce", PStr nonce)].

(** [isinstance(e, CoinoneAPIError)]: the class or its subclass. *)
Definition is_api_error (e : exn) : bool :=
  match e with
  | CoinoneAPIError _ _ _ | CoinoneRateLimitError _ _ _ => true
  | _ => false
  end.

(* ================================================================= *)
(** ** Sample data *)

Definition sample_client : client :=
  mk_client (Some (text "token")) (Some (text "secret")) 10.

Definition sample_params : pydict :=
  [(text "quote_currency", PStr (text "KRW"));
   (text "target_currency", PStr (text "BTC"))].

(** A world where the caller's parameters are the dict at location 1,
    [os.urandom] counts up from [start], and every request is answered
    by [answer]. *)
Definition sample_world (start : nat)
  (answer : transport_error + response) : world :=
  mk_world (<[1%positive := sample_params]> ∅)
    (fun i => byte_of_N (N.of_nat (start + i))) 0
    (fun _ _ => answer) [].

Definition sample_response (status : Z) (body : option pyval) : response :=
  mk_response status (text "") (text "https://api.coinone.co.kr/v2.1/order")
    body [(text "Content-Type", text "application/json")].

(** [{"result":"error","error_code":"4","error_msg":"rate limit"}] *)
Definition rate_limit_body : pyval :=
  PDict [(text "result", PStr (text "error"));
         (text "error_code", PStr (text "4"));
         (text "error_msg", PStr (text "rate limit"))].

(** [{"result":"error","error_code":"100","error_msg":"bad param"}] *)
Definition bad_param_body : pyval :=
  PDict [(text "result", PStr (text "error"));
         (text "error_code", PStr (text "100"));
         (text "error_msg", PStr (text "bad param"))].

(** [{"result":"error","error_code":4}] *)
Definition numeric_limit_body : pyval :=
  PDict [(text "result", PStr (text "error")); (text "error_code", PInt 4)].

(** The sample client with another secret key. *)
Definition other_client : client :=
  mk_client (Some (text "token")) (Some (text "another secret")) 10.

(** Parameters with a lone surrogate in a value, and a world that holds
    them at location 1. *)
Definition surrogate_params : pydict :=
  [(text "user_order_id", PStr [0xD800])].

Definition surrogate_world : world :=
  mk_world (<[1%positive := surrogate_params]> ∅)
    (fun i => byte_of_N (N.of_nat i)) 0 (fun _ _ => inl Timeout) [].

(** A world whose first two draws of sixteen bytes differ, in the byte
    that holds the version bits only: zeros, then zeros with 0x10 as
    byte 6. *)
Definition twin_entropy (i : nat) : byte :=
  if (i =? 22)%nat then x10 else x00.

Definition twin_world : world :=
  mk_world (<[1%positive := sample_params]> ∅) twin_entropy 0
    (fun _ _ => inl Timeout) [].

(** The payload of a run of [_encode_payload_v21] that returned. *)
Definition payload_of (r : exn + bytes) : bytes :=
  match r with
  | inr p => p
  | inl _ => []
  end.

(** The one request a call has sent in a world that had sent none. *)
Definition request_sent (w : world) : request :=
  match sent w with
  | (rq, _) :: _ => rq
  | [] => mk_request GET [] None None [] 0
  end.

(** A limit order with a price, a quantity and [post_only]. *)
Definition sample_order : CoinoneClient.order :=
  CoinoneClient.mk_order (text "KRW") (text "BTC") (text "BUY")
    (text "LIMIT") (Some (text "50000000")) (Some (text "0.01")) None
    (Some true) None None None.

(* ================================================================= *)
(** * Proofs *)

Ltac Zify.zify_post_hook ::= Z.to_euclidean_division_equations.

(** Decide the comparisons of the goal, one after the other. *)
Ltac ncases :=
  repeat match goal with
  | |- context [N.ltb ?a ?b] => destruct (N.ltb_spec a b); try lia
  | |- context [N.leb ?a ?b] => destruct (N.leb_spec a b); try lia
  | |- context [N.eqb ?a ?b] => destruct (N.eqb_spec a b); try lia
  end; cbn [andb orb negb].

(** ** Bytes *)

Lemma to_N_lt (b : byte) : Byte.to_N b < 256.
Proof. pose proof (Byte.to_N_bounded b). lia. Qed.

Lemma to_N_byte_of_N (n : N) : n < 256 -> Byte.to_N (byte_of_N n) = n.
Proof.
  intros Hn. unfold byte_of_N.
  destruct (Byte.of_N n) as [b|] eqn:E.
  - now apply Byte.to_of_N.
  - apply Byte.of_N_None_iff in E. lia.
Qed.

Lemma byte_of_N_to_N (b : byte) : byte_of_N (Byte.to_N b) = b.
Proof. unfold byte_of_N. now rewrite Byte.of_to_N. Qed.

Lemma map_byte_of_N_to_N (b : bytes) :
  List.map byte_of_N (List.map Byte.to_N b) = b.
Proof.
  induction b as [|x b IH]; cbn; [reflexivity|].
  now rewrite byte_of_N_to_N, IH.
Qed.

Lemma map_to_N_byte_of_N (l : list N) :
  Forall (fun n => n < 256) l ->
  List.map Byte.to_N (List.map byte_of_N l) = l.
Proof.
  induction 1 as [|n l Hn _ IH]; cbn; [reflexivity|].
  now rewrite to_N_byte_of_N, IH.
Qed.

(** ** UTF-8 *)

Lemma utf8_decode_1 (n : N) (t : bytes) :
  n < 0x80 ->
  Utf8.decode (byte_of_N n :: t)
  = match Utf8.decode t with Some s => Some (n :: s) | None => None end.
Proof.
  intros H. cbn [Utf8.decode]. rewrite to_N_byte_of_N by lia.
  now ncases.
Qed.

Lemma utf8_continuation (n : N) :
  n < 64 -> Utf8.continuation (byte_of_N (0x80 + n)) = true
            /\ Utf8.low6 (byte_of_N (0x80 + n)) = n.
Proof.
  intros H. unfold Utf8.continuation, Utf8.low6.
  rewrite to_N_byte_of_N by lia. split; [now ncases | lia].
Qed.

Lemma utf8_decode_char (c : N) (bs : list N) (t : bytes) :
  Utf8.encode_char c = Some bs ->
  Utf8.decode (List.map byte_of_N bs ++ t)
  = match Utf8.decode t with Some s => Some (c :: s) | None => None end.
Proof.
  unfold Utf8.encode_char. intros H.
  destruct (N.ltb_spec c 0x80) as [H1|H1].
  { injection H as <-. now apply utf8_decode_1. }
  destruct (N.ltb_spec c 0x800) as [H2|H2].
  { injection H as <-. cbn [List.map app Utf8.decode].
    destruct (utf8_continuation (c mod 64)) as [-> ->]; [lia|].
    rewrite to_N_byte_of_N by lia. ncases.
    replace ((192 + c / 64 - 192) * 64 + c mod 64) with c by lia.
    reflexivity. }
  destruct (N.ltb_spec c 0x10000) as [H3|H3].
  { destruct ((0xD800 <=? c) && (c <=? 0xDFFF)) eqn:Hs; [discriminate|].
    injection H as <-. cbn [List.map app Utf8.decode].
    destruct (utf8_continuation (c mod 64)) as [-> ->]; [lia|].
    destruct (utf8_continuation ((c / 64) mod 64)) as [-> ->]; [lia|].
    rewrite to_N_byte_of_N by lia.
    replace ((224 + c / 4096 - 224) * 4096 + (c / 64) mod 64 * 64
             + c mod 64) with c by lia.
    rewrite Hs. ncases. reflexivity. }
  destruct (N.ltb_spec c 0x110000) as [H4|H4]; [|discriminate].
  injection H as <-. cbn [List.map app Utf8.decode].
  destruct (utf8_continuation (c mod 64)) as [-> ->]; [lia|].
  destruct (utf8_continuation ((c / 64) mod 64)) as [-> ->]; [lia|].
  destruct (utf8_continuation ((c / 4096) mod 64)) as [-> ->]; [lia|].
  rewrite to_N_byte_of_N by lia.
  replace ((240 + c / 262144 - 240) * 262144 + (c / 4096) mod 64 * 4096
           + (c / 64) mod 64 * 64 + c mod 64) with c by lia.
  ncases. reflexivity.
Qed.

(** Decoding undoes encoding. *)
Lemma utf8_decode_encode (s : pystr) (b : bytes) :
  Utf8.encode s = Some b -> Utf8.decode b = Some s.
Proof.
  revert b. induction s as [|c s IH]; intros b H; cbn in H.
  - now injection H as <-.
  - destruct (Utf8.encode_char c) as [bs|] eqn:Hc; [|discriminate].
    destruct (Utf8.encode s) as [rest|]; [|discriminate].
    injection H as <-.
    rewrite (utf8_decode_char _ _ _ Hc), (IH rest eq_refl). reflexivity.
Qed.

(** Text made of scalar values has an encoding. *)
Lemma utf8_encode_total (s : pystr) :
  forallb Utf8.scalar s = true -> exists b, Utf8.encode s = Some b.
Proof.
  induction s as [|c s IH]; cbn; intros H.
  - now exists [].
  - apply andb_true_iff in H as [Hc Hs].
    destruct (IH Hs) as [rest ->].
    assert (exists bs, Utf8.encode_char c = Some bs) as [bs ->].
    { unfold Utf8.scalar in Hc. unfold Utf8.encode_char.
      revert Hc. ncases; intros; try discriminate; eauto. }
    eauto.
Qed.

(** ASCII bytes decode to themselves. *)
Lemma utf8_decode_ascii (b : bytes) :
  Forall (fun x => Byte.to_N x < 0x80) b ->
  Utf8.decode b = Some (List.map Byte.to_N b).
Proof.
  induction 1 as [|x b Hx _ IH]; [reflexivity|].
  cbn [Utf8.decode List.map]. rewrite IH. now ncases.
Qed.

(** ** Base64 *)

Lemma b64_char_ascii (s : N) : Base64.char s < 0x80.
Proof. unfold Base64.char. ncases; lia. Qed.

Lemma b64_char_not_pad (s : N) : (Base64.char s =? Base64.pad) = false.
Proof.
  unfold Base64.char, Base64.pad.
  destruct (N.eqb_spec s 62); ncases; reflexivity || lia.
Qed.

Lemma b64_value_char (s : N) : s < 64 -> Base64.value (Base64.char s) = Some s.
Proof.
  intros H. unfold Base64.value, Base64.char.
  ncases; f_equal; lia.
Qed.

Lemma b64_encodeN_ascii (l : list N) :
  Forall (fun c => c < 0x80) (Base64.encodeN l).
Proof.
  assert (Hpad : Base64.pad < 0x80) by (unfold Base64.pad; lia).
  assert (G : forall n l, (length l <= n)%nat ->
                          Forall (fun c => c < 0x80) (Base64.encodeN l)).
  { clear l. induction n as [|n IH]; intros l Hl.
    - destruct l; [constructor | cbn in Hl; lia].
    - destruct l as [|a [|b [|c rest]]]; cbn [Base64.encodeN];
        repeat (constructor; try apply b64_char_ascii; try assumption).
      apply IH. cbn in Hl. lia. }
  now apply (G (length l)).
Qed.

Lemma b64_decodeN_encodeN (l : list N) :
  Forall (fun n => n < 256) l ->
  Base64.decodeN (Base64.encodeN l) = Some l.
Proof.
  assert (G : forall n l, (length l <= n)%nat ->
                          Forall (fun n => n < 256) l ->
                          Base64.decodeN (Base64.encodeN l) = Some l).
  { clear l. induction n as [|n IH]; intros l Hl Hb.
    - destruct l; [reflexivity | cbn in Hl; lia].
    - destruct l as [|a [|b [|c rest]]]; [reflexivity | | | ].
      + inversion_clear Hb as [|? ? Ha _].
        cbn [Base64.encodeN Base64.decodeN].
        rewrite !b64_value_char by lia.
        rewrite N.eqb_refl. cbn [andb]. ncases. f_equal. f_equal. lia.
      + inversion_clear Hb as [|? ? Ha Hb']. inversion_clear Hb' as [|? ? Hb _].
        cbn [Base64.encodeN Base64.decodeN].
        rewrite !b64_value_char by lia.
        rewrite b64_char_not_pad, N.eqb_refl. cbn [andb]. ncases.
        f_equal. f_equal; [lia|]. f_equal. lia.
      + inversion_clear Hb as [|? ? Ha Hb']. inversion_clear Hb' as [|? ? Hb Hc'].
        inversion_clear Hc' as [|? ? Hc Hrest].
        cbn [Base64.encodeN Base64.decodeN].
        rewrite !b64_value_char by lia.
        rewrite !b64_char_not_pad. cbn [andb].
        rewrite IH by (assumption || (cbn in Hl; lia)).
        f_equal. f_equal; [lia|]. f_equal; [lia|]. f_equal. lia. }
  now apply (G (length l)).
Qed.

Lemma Forall_to_N_lt (b : bytes) :
  Forall (fun n => n < 256) (List.map Byte.to_N b).
Proof.
  induction b; cbn; constructor; [apply to_N_lt | assumption].
Qed.

Lemma b64encode_to_N (b : bytes) :
  List.map Byte.to_N (Base64.b64encode b)
  = Base64.encodeN (List.map Byte.to_N b).
Proof.
  unfold Base64.b64encode. apply map_to_N_byte_of_N.
  eapply List.Forall_impl; [|apply b64_encodeN_ascii]. cbn. intros; lia.
Qed.

(** Decoding undoes encoding. *)
Lemma b64decode_b64encode (b : bytes) :
  Base64.b64decode (Base64.b64encode b) = Some b.
Proof.
  unfold Base64.b64decode. rewrite b64encode_to_N.
  rewrite b64_decodeN_encodeN by apply Forall_to_N_lt.
  now rewrite map_byte_of_N_to_N.
Qed.

(** The encoded payload is ASCII: its [decode("utf-8")] never raises and
    gives the same characters. *)
Lemma b64encode_decode_text (b : bytes) :
  bytes_decode (Base64.b64encode b) = inr (bytes_text (Base64.b64encode b)).
Proof.
  unfold bytes_decode, bytes_text. rewrite utf8_decode_ascii; [reflexivity|].
  pose proof (b64_encodeN_ascii (List.map Byte.to_N b)) as H.
  rewrite <- b64encode_to_N in H.
  now apply (proj1 (List.Forall_map _ _ _)) in H.
Qed.

(** ** Strings and dicts *)

Lemma str_eqb_eq (s t : pystr) : str_eqb s t = true <-> s = t.
Proof.
  revert t. induction s as [|a s IH]; intros [|b t]; cbn;
    try (split; [discriminate | congruence]); [tauto|].
  rewrite andb_true_iff, N.eqb_eq, IH. split.
  - now intros [-> ->].
  - intros [= -> ->]. auto.
Qed.

Lemma str_eqb_refl (s : pystr) : str_eqb s s = true.
Proof. now apply str_eqb_eq. Qed.

Lemma str_eqb_neq (s t : pystr) : str_eqb s t = false <-> s <> t.
Proof.
  rewrite <- str_eqb_eq. destruct (str_eqb s t); split; congruence.
Qed.

Lemma dict_get_set_eq (d : pydict) (k : pystr) (v : pyval) :
  dict_get (dict_set d k v) k = Some v.
Proof.
  induction d as [|[k' v'] d IH]; cbn.
  - now rewrite str_eqb_refl.
  - destruct (str_eqb k' k) eqn:E; cbn; now rewrite E.
Qed.

Lemma dict_get_set_ne (d : pydict) (k k' : pystr) (v : pyval) :
  k <> k' -> dict_get (dict_set d k v) k' = dict_get d k'.
Proof.
  intros Hne. induction d as [|[k0 v0] d IH]; cbn.
  - apply str_eqb_neq in Hne. now rewrite Hne.
  - destruct (str_eqb k0 k) eqn:E; cbn.
    + apply str_eqb_eq in E as ->. apply str_eqb_neq in Hne.
      now rewrite Hne.
    + now rewrite IH.
Qed.

Lemma existsb_str_eqb (k : pystr) (l : list pystr) :
  existsb (str_eqb k) l = true <-> In k l.
Proof.
  rewrite existsb_exists. split.
  - intros (x & Hx & E). apply str_eqb_eq in E. now subst.
  - intros H. exists k. split; [assumption | apply str_eqb_refl].
Qed.

Lemma dict_set_fresh (d : pydict) (k : pystr) (v : pyval) :
  existsb (str_eqb k) (List.map fst d) = false ->
  dict_set d k v = d ++ [(k, v)].
Proof.
  induction d as [|[k' v'] d IH]; cbn; [reflexivity|].
  intros H. apply orb_false_iff in H as [H1 H2].
  assert (str_eqb k' k = false) as ->.
  { apply str_eqb_neq. apply str_eqb_neq in H1. congruence. }
  now rewrite IH.
Qed.

Lemma dict_set_keys (d : pydict) (k : pystr) (v : pyval) :
  List.map fst (dict_set d k v)
  = if existsb (str_eqb k) (List.map fst d)
    then List.map fst d else List.map fst d ++ [k].
Proof.
  induction d as [|[k' v'] d IH]; cbn; [reflexivity|].
  destruct (str_eqb k' k) eqn:E; cbn.
  - apply str_eqb_eq in E as ->. now rewrite str_eqb_refl.
  - assert (str_eqb k k' = false) as ->.
    { apply str_eqb_neq. apply str_eqb_neq in E. congruence. }
    cbn. rewrite IH. now destruct (existsb _ _).
Qed.

Lemma distinct_app_one (l : list pystr) (k : pystr) :
  distinct l = true -> existsb (str_eqb k) l = false ->
  distinct (l ++ [k]) = true.
Proof.
  induction l as [|a l IH]; cbn; [reflexivity|].
  intros H1 H2. apply andb_true_iff in H1 as [Ha Hl].
  apply orb_false_iff in H2 as [Hk Hk'].
  rewrite IH by assumption. rewrite andb_true_r.
  apply negb_true_iff. apply negb_true_iff in Ha.
  rewrite existsb_app. apply orb_false_iff. split; [assumption|]. cbn.
  rewrite orb_false_r. apply str_eqb_neq. apply str_eqb_neq in Hk.
  congruence.
Qed.

(** Setting an item keeps the keys distinct. *)
Lemma dict_set_distinct (d : pydict) (k : pystr) (v : pyval) :
  distinct (List.map fst d) = true ->
  distinct (List.map fst (dict_set d k v)) = true.
Proof.
  intros H. rewrite dict_set_keys.
  destruct (existsb _ _) eqn:E; [assumption|].
  now apply distinct_app_one.
Qed.

Lemma dict_set_wf (d : pydict) (k : pystr) (v : pyval) :
  wf (PDict d) = true -> wf v = true -> wf (PDict (dict_set d k v)) = true.
Proof.
  cbn. intros H Hv. apply andb_true_iff in H as [Hk Hd].
  rewrite dict_set_distinct by assumption. cbn.
  clear Hk. induction d as [|[k' v'] d IH]; cbn.
  - now rewrite Hv.
  - cbn in Hd. apply andb_true_iff in Hd as [H1 H2].
    destruct (str_eqb k' k); cbn.
    + now rewrite Hv, H2.
    + now rewrite H1, IH.
Qed.

(** [dict(pairs)] of pairs with distinct keys is the pairs. *)
Lemma dict_of_pairs_distinct (d : pydict) :
  distinct (List.map fst d) = true -> dict_of_pairs d = d.
Proof.
  unfold dict_of_pairs.
  assert (G : forall l acc,
             distinct (List.map fst (acc ++ l)) = true ->
             fold_left (fun d kv => dict_set d (fst kv) (snd kv)) l acc
             = acc ++ l).
  { induction l as [|[k v] l IH]; intros acc H; cbn.
    - now rewrite app_nil_r.
    - replace (acc ++ (k, v) :: l) with ((acc ++ [(k, v)]) ++ l) in *
        by now rewrite <- app_assoc.
      rewrite dict_set_fresh; [now apply IH|].
      clear IH. revert H. rewrite !map_app. cbn.
      generalize (List.map fst acc) as ks. intros ks.
      induction ks as [|a ks IH]; cbn; [reflexivity|].
      intros H. apply andb_true_iff in H as [Ha Hks].
      rewrite IH by assumption. rewrite orb_false_r.
      apply negb_true_iff in Ha. rewrite <- app_assoc in Ha. cbn in Ha.
      rewrite existsb_app in Ha. apply orb_false_iff in Ha as [_ Ha].
      cbn in Ha. apply orb_false_iff in Ha as [Ha _].
      apply str_eqb_neq. apply str_eqb_neq in Ha. congruence. }
  intros H. now apply (G d []).
Qed.

(** ** JSON: strings *)

Lemma hex_value_digit (d : N) :
  d < 16 -> Json.hex_value (hex_digit d) = Some d.
Proof.
  intros H. unfold Json.hex_value, hex_digit. ncases; f_equal; lia.
Qed.

Lemma hex4_fixed (c : N) (t : pystr) :
  c < 65536 ->
  exists h1 h2 h3 h4,
    hex_fixed 4 c ++ t = h1 :: h2 :: h3 :: h4 :: t
    /\ Json.hex4 h1 h2 h3 h4 = Some c.
Proof.
  intros H. cbn [hex_fixed app]. do 4 eexists. split; [reflexivity|].
  unfold Json.hex4. rewrite !hex_value_digit by lia. f_equal. lia.
Qed.

(** Scanning an escaped character gives the character back. *)
Lemma scanstring_escape (c : N) (t : pystr) :
  Json.scanstring (Json.escape_char c ++ t)
  = Json.cons_char c (Json.scanstring t).
Proof.
  unfold Json.escape_char.
  destruct (N.eqb_spec c 34) as [->|H1]; [reflexivity|].
  destruct (N.eqb_spec c 92) as [->|H2]; [reflexivity|].
  destruct (N.eqb_spec c 10) as [->|H3]; [reflexivity|].
  destruct (N.eqb_spec c 13) as [->|H4]; [reflexivity|].
  destruct (N.eqb_spec c 9) as [->|H5]; [reflexivity|].
  destruct (N.eqb_spec c 8) as [->|H6]; [reflexivity|].
  destruct (N.eqb_spec c 12) as [->|H7]; [reflexivity|].
  destruct (N.ltb_spec c 0x20) as [H8|H8].
  - destruct (hex4_fixed c t) as (h1 & h2 & h3 & h4 & E & Hh); [lia|].
    cbn [app]. rewrite E. cbn [Json.scanstring].
    rewrite Hh. cbn. now ncases.
  - cbn [app Json.scanstring]. now ncases.
Qed.

Lemma scanstring_escaped (s : pystr) (t : pystr) :
  Json.scanstring (flat_map Json.escape_char s ++ 34 :: t) = Some (s, t).
Proof.
  induction s as [|c s IH]; [reflexivity|].
  cbn [flat_map]. rewrite <- app_assoc, scanstring_escape, IH.
  reflexivity.
Qed.

(** ** JSON: integers *)

Lemma digit_of_none (c : N) (u : Decimal.uint) :
  c < 48 \/ 57 < c -> Json.digit_of c u = None.
Proof. intros H. unfold Json.digit_of. now ncases. Qed.

Lemma scan_digits_chars (u : Decimal.uint) (t : pystr) :
  no_digit t -> Json.scan_digits (uint_chars u ++ t) = (u, t).
Proof.
  intros Ht. induction u; cbn [uint_chars app Json.scan_digits];
    try (rewrite IHu; reflexivity).
  destruct t as [|c t]; [reflexivity|].
  cbn [Json.scan_digits]. destruct (Json.scan_digits t) as [u r].
  now rewrite digit_of_none.
Qed.

Lemma to_uint_head (p : positive) :
  exists c t, uint_chars (Pos.to_uint p) = c :: t /\ 48 < c /\ c <= 57.
Proof.
  pose proof (DecimalPos.Unsigned.to_of (Pos.to_uint p)) as H.
  rewrite DecimalPos.Unsigned.of_to in H. cbn in H.
  pose proof (DecimalPos.Unsigned.to_uint_nonzero p) as Hz.
  assert (Hn : Decimal.nzhead (Pos.to_uint p) = Pos.to_uint p).
  { unfold Decimal.unorm in H.
    destruct (Decimal.nzhead (Pos.to_uint p)) eqn:E; congruence. }
  pose proof (DecimalFacts.nzhead_nonzero (Pos.to_uint p)) as Hd.
  pose proof (DecimalPos.Unsigned.to_uint_nonnil p) as Hnil.
  rewrite Hn in Hd.
  destruct (Pos.to_uint p) as [|u|u|u|u|u|u|u|u|u|u]; cbn;
    try (do 2 eexists; split; [reflexivity | lia]).
  - congruence.
  - exfalso. now apply (Hd u).
Qed.

Lemma delimited_no_digit (s : pystr) : delimited s -> no_digit s.
Proof. destruct s; cbn; [trivial | lia]. Qed.

Lemma delimited_float_tail (s : pystr) :
  delimited s -> Json.float_tail s = false.
Proof.
  destruct s as [|c s]; cbn; [reflexivity|]. intros H. ncases; reflexivity.
Qed.

Lemma scan_natural_pos (p : positive) (t : pystr) :
  delimited t ->
  Json.scan_natural (uint_chars (Pos.to_uint p) ++ t)
  = Some (Pos.to_uint p, t).
Proof.
  intros Ht. destruct (to_uint_head p) as (c & r & E & Hc1 & Hc2).
  unfold Json.scan_natural.
  rewrite scan_digits_chars by now apply delimited_no_digit.
  rewrite E. cbn [app]. ncases.
  pose proof (DecimalPos.Unsigned.to_uint_nonnil p).
  destruct (Pos.to_uint p); congruence.
Qed.

(** Scanning the decimal form of an integer gives the integer back. *)
Lemma scan_number_repr (z : Z) (t : pystr) :
  delimited t -> Json.scan_number (int_repr z ++ t) = Some (PInt z, t).
Proof.
  intros Ht. unfold int_repr.
  pose proof (DecimalZ.of_to z) as Hz.
  destruct z as [|p|p]; cbn [Z.to_int] in *.
  - cbn. now rewrite delimited_float_tail.
  - destruct (to_uint_head p) as (c & r & E & Hc1 & Hc2).
    unfold Json.scan_number.
    rewrite scan_natural_pos by assumption.
    rewrite E. cbn [app]. ncases.
    rewrite delimited_float_tail by assumption. now rewrite Hz.
  - cbn [app Json.scan_number]. ncases.
    rewrite scan_natural_pos by assumption.
    rewrite delimited_float_tail by assumption. now rewrite Hz.
Qed.

Lemma int_repr_head (z : Z) :
  exists c t, int_repr z = c :: t /\ (c = 45 \/ (48 <= c /\ c <= 57)).
Proof.
  unfold int_repr. destruct z as [|p|p]; cbn [Z.to_int].
  - do 2 eexists. split; [reflexivity | lia].
  - destruct (to_uint_head p) as (c & r & E & Hc1 & Hc2).
    rewrite E. do 2 eexists. split; [reflexivity | lia].
  - do 2 eexists. split; [reflexivity | lia].
Qed.

(** ** JSON: values *)

(** Replace the literals of the goal by their code points. *)
Ltac eval_text :=
  repeat match goal with
  | |- context [text ?s] =>
      let v := eval vm_compute in (text s) in change (text s) with v
  end.

Lemma scan_string (f : nat) (s : pystr) :
  Json.scan (S f) (34 :: s)
  = match Json.scanstring s with
    | Some (t, rest) => Some (PStr t, rest)
    | None => None
    end.
Proof. reflexivity. Qed.

Lemma scan_list (f : nat) (s : pystr) :
  Json.scan (S f) (91 :: s)
  = match Json.skip_ws s with
    | c1 :: s1 =>
        if c1 =? 93 then Some (PList [], s1)
        else
          match Json.scan_items f (c1 :: s1) with
          | Some (l, rest) => Some (PList l, rest)
          | None => None
          end
    | [] => None
    end.
Proof. reflexivity. Qed.

Lemma scan_dict (f : nat) (s : pystr) :
  Json.scan (S f) (123 :: s)
  = match Json.skip_ws s with
    | c1 :: s1 =>
        if c1 =? 125 then Some (PDict [], s1)
        else
          match Json.scan_members f (c1 :: s1) with
          | Some (m, rest) => Some (PDict (dict_of_pairs m), rest)
          | None => None
          end
    | [] => None
    end.
Proof. reflexivity. Qed.

Lemma scan_literals (f : nat) (t : pystr) :
  Json.scan (S f) (text "null" ++ t) = Some (PNone, t)
  /\ Json.scan (S f) (text "true" ++ t) = Some (PBool true, t)
  /\ Json.scan (S f) (text "false" ++ t) = Some (PBool false, t).
Proof. repeat split. Qed.

Lemma scan_int (f : nat) (c : N) (s : pystr) :
  c = 45 \/ (48 <= c /\ c <= 57) ->
  Json.scan (S f) (c :: s) = Json.scan_number (c :: s).
Proof. intros H. cbn [Json.scan]. now ncases. Qed.

Lemma scan_items_eq (f : nat) (s : pystr) :
  Json.scan_items (S f) s
  = match Json.scan f s with
    | Some (v, rest) =>
        match Json.skip_ws rest with
        | c :: s1 =>
            if c =? 93 then Some ([v], s1)
            else if c =? 44 then
              match Json.scan_items f (Json.skip_ws s1) with
              | Some (l, rest') => Some (v :: l, rest')
              | None => None
              end
            else None
        | [] => None
        end
    | None => None
    end.
Proof. reflexivity. Qed.

Lemma scan_members_eq (f : nat) (s0 : pystr) :
  Json.scan_members (S f) (34 :: s0)
  = match Json.scanstring s0 with
    | Some (k, rest) =>
        match Json.skip_ws rest with
        | colon :: s1 =>
            if colon =? 58 then
              match Json.scan f (Json.skip_ws s1) with
              | Some (v, rest1) =>
                  match Json.skip_ws rest1 with
                  | c :: s2 =>
                      if c =? 125 then Some ([(k, v)], s2)
                      else if c =? 44 then
                        match Json.scan_members f (Json.skip_ws s2) with
                        | Some (m, rest') => Some ((k, v) :: m, rest')
                        | None => None
                        end
                      else None
                  | [] => None
                  end
              | None => None
              end
            else None
        | [] => None
        end
    | None => None
    end.
Proof. reflexivity. Qed.

Lemma dumps_head (v : pyval) :
  exists c t, Json.dumps v = c :: t /\ opens_value c.
Proof.
  unfold opens_value.
  destruct v as [| [|] | z | s | l | d]; cbn [Json.dumps]; eval_text;
    try (do 2 eexists; split;
         [reflexivity | repeat split; (reflexivity || lia)]).
  destruct (int_repr_head z) as (c & t & E & Hc).
  exists c, t. split; [assumption|].
  unfold Json.is_ws. repeat split; try lia. ncases; reflexivity.
Qed.

Lemma skip_ws_opens (c : N) (s : pystr) :
  Json.is_ws c = false -> Json.skip_ws (c :: s) = c :: s.
Proof. intros H. cbn. now rewrite H. Qed.

Lemma skip_ws_dumps (v : pyval) (t : pystr) :
  Json.skip_ws (Json.dumps v ++ t) = Json.dumps v ++ t.
Proof.
  destruct (dumps_head v) as (c & r & -> & Hc & _).
  now apply skip_ws_opens.
Qed.

Lemma skip_ws_join (l : list pyval) (t : pystr) :
  l <> [] ->
  Json.skip_ws (Json.join [44] (List.map Json.dumps l) ++ t)
  = Json.join [44] (List.map Json.dumps l) ++ t.
Proof.
  destruct l as [|v [|v' l]]; [congruence | |]; intros _;
    cbn [List.map Json.join]; rewrite <- ?app_assoc;
    apply skip_ws_dumps.
Qed.

Lemma length_join_cons (x : pystr) (l : list pystr) :
  (length x <= length (Json.join [44%N] (x :: l)))%nat.
Proof.
  destruct l; cbn [Json.join]; rewrite ?length_app; lia.
Qed.

Lemma join_cons2 (sep x y : pystr) (l : list pystr) :
  Json.join sep (x :: y :: l) = x ++ sep ++ Json.join sep (y :: l).
Proof. reflexivity. Qed.

Lemma scan_items_dumps (l : list pyval) :
  Forall scans_back l -> forallb wf l = true -> l <> [] ->
  forall fuel t,
    (S (length (Json.join [44%N] (List.map Json.dumps l))) <= fuel)%nat ->
    Json.scan_items fuel
      (Json.join [44] (List.map Json.dumps l) ++ 93 :: t)
    = Some (l, t).
Proof.
  induction 1 as [|v l Hv Hl IH]; intros Hwf Hne fuel t Hf; [congruence|].
  cbn [forallb] in Hwf. apply andb_true_iff in Hwf as [Hwv Hwl].
  destruct fuel as [|f]; [lia|]. rewrite scan_items_eq.
  destruct l as [|v' l'].
  - cbn [List.map Json.join] in *.
    rewrite (Hv Hwv) by (cbn; auto; lia). reflexivity.
  - change (List.map Json.dumps (v :: v' :: l'))
      with (Json.dumps v :: Json.dumps v' :: List.map Json.dumps l') in *.
    rewrite join_cons2 in *.
    change (Json.dumps v' :: List.map Json.dumps l')
      with (List.map Json.dumps (v' :: l')) in *.
    rewrite !length_app in Hf. cbn [length] in Hf.
    rewrite <- !app_assoc. cbn [app].
    rewrite (Hv Hwv) by (cbn; auto; lia).
    rewrite skip_ws_opens by reflexivity.
    change (44 =? 93) with false. change (44 =? 44) with true. cbv iota.
    rewrite skip_ws_join by congruence.
    now rewrite IH by (congruence || lia).
Qed.

Lemma member_app (kv : pystr * pyval) (t : pystr) :
  member kv ++ t
  = 34 :: flat_map Json.escape_char (fst kv)
       ++ 34 :: 58 :: Json.dumps (snd kv) ++ t.
Proof.
  unfold member, Json.encode_basestring. cbn [app].
  now rewrite <- !app_assoc.
Qed.

Lemma length_member (kv : pystr * pyval) :
  (2 + length (Json.dumps (snd kv)) <= length (member kv))%nat.
Proof.
  unfold member, Json.encode_basestring. cbn [length].
  rewrite !length_app. cbn [length]. lia.
Qed.

Lemma skip_ws_members (d : pydict) (t : pystr) :
  d <> [] ->
  Json.skip_ws (Json.join [44] (List.map member d) ++ t)
  = Json.join [44] (List.map member d) ++ t.
Proof.
  destruct d as [|kv [|kv' d]]; [congruence | |]; intros _;
    cbn [List.map Json.join]; rewrite <- ?app_assoc;
    rewrite member_app; reflexivity.
Qed.

Lemma scan_members_dumps (d : pydict) :
  Forall (fun kv => scans_back (snd kv)) d ->
  forallb (fun kv => wf (snd kv)) d = true -> d <> [] ->
  forall fuel t,
    (S (length (Json.join [44%N] (List.map member d))) <= fuel)%nat ->
    Json.scan_members fuel
      (Json.join [44] (List.map member d) ++ 125 :: t)
    = Some (d, t).
Proof.
  induction 1 as [|[k v] d Hv Hd IH]; intros Hwf Hne fuel t Hf;
    [congruence|].
  cbn [forallb snd] in Hwf. apply andb_true_iff in Hwf as [Hwv Hwd].
  cbn [snd] in Hv. pose proof (length_member (k, v)) as Hm. cbn [snd] in Hm.
  destruct fuel as [|f]; [lia|].
  destruct d as [|kv' d'].
  - cbn [List.map Json.join] in *.
    rewrite member_app. cbn [fst snd]. rewrite scan_members_eq.
    rewrite scanstring_escaped, skip_ws_opens by reflexivity.
    change (58 =? 58) with true. cbv iota.
    rewrite skip_ws_dumps, (Hv Hwv) by (cbn; auto; lia).
    reflexivity.
  - change (List.map member ((k, v) :: kv' :: d'))
      with (member (k, v) :: member kv' :: List.map member d') in *.
    rewrite join_cons2 in *.
    change (member kv' :: List.map member d')
      with (List.map member (kv' :: d')) in *.
    rewrite !length_app in Hf. cbn [length] in Hf.
    rewrite <- !app_assoc. rewrite member_app. cbn [fst snd app].
    rewrite scan_members_eq.
    rewrite scanstring_escaped, skip_ws_opens by reflexivity.
    change (58 =? 58) with true. cbv iota.
    rewrite skip_ws_dumps, (Hv Hwv) by (cbn; auto; lia).
    rewrite skip_ws_opens by reflexivity.
    change (44 =? 125) with false. change (44 =? 44) with true. cbv iota.
    rewrite skip_ws_members by congruence.
    now rewrite IH by (congruence || lia).
Qed.

Lemma dumps_dict (d : pydict) :
  Json.dumps (PDict d) = 123 :: Json.join [44] (List.map member d) ++ [125].
Proof. reflexivity. Qed.

(** The scanner reads a serialized value back, whatever follows it. *)
Lemma scan_dumps (v : pyval) : scans_back v.
Proof.
  induction v as [| b | z | s | l IH | d IH] using pyval_induction;
    intros Hwf fuel t Hf Ht.
  - destruct fuel; [cbn in Hf; lia|]. apply scan_literals.
  - destruct fuel; [destruct b; cbn in Hf; lia|].
    destruct b; apply scan_literals.
  - cbn [Json.dumps] in *.
    destruct (int_repr_head z) as (c & r & E & Hc).
    destruct fuel; [rewrite E in Hf; cbn in Hf; lia|].
    rewrite E. cbn [app]. rewrite scan_int by assumption.
    rewrite app_comm_cons, <- E. now apply scan_number_repr.
  - destruct fuel; [cbn in Hf; lia|].
    cbn [Json.dumps]. unfold Json.encode_basestring. cbn [app].
    rewrite <- app_assoc. cbn [app].
    now rewrite scan_string, scanstring_escaped.
  - cbn [Json.dumps] in *. cbn [length] in Hf. rewrite length_app in Hf.
    cbn [length] in Hf. destruct fuel as [|f]; [lia|].
    cbn [app]. rewrite <- app_assoc. cbn [app]. rewrite scan_list.
    destruct l as [|v l]; [reflexivity|].
    rewrite skip_ws_join by congruence.
    pose proof (scan_items_dumps (v :: l) IH Hwf ltac:(congruence) f t
                  ltac:(lia)) as Hs.
    cbn [List.map] in Hs |- *.
    destruct (dumps_head v) as (c & r & E & _ & Hc & _).
    destruct (Json.join [44] (Json.dumps v :: List.map Json.dumps l))
      as [|c' r'] eqn:Ej.
    { pose proof (length_join_cons (Json.dumps v)
                    (List.map Json.dumps l)) as Hl.
      rewrite Ej, E in Hl. cbn in Hl. lia. }
    assert (c' = c) as ->.
    { destruct l; cbn [Json.join List.map] in Ej; rewrite E in Ej;
        cbn in Ej; congruence. }
    cbn [app] in Hs |- *. rewrite Hs.
    destruct (N.eqb_spec c 93); [congruence | reflexivity].
  - rewrite dumps_dict in *. cbn [length] in Hf. rewrite length_app in Hf.
    cbn [length] in Hf. destruct fuel as [|f]; [lia|].
    cbn [app]. rewrite <- app_assoc. cbn [app]. rewrite scan_dict.
    destruct d as [|kv d]; [reflexivity|].
    cbn [wf] in Hwf. apply andb_true_iff in Hwf as [Hk Hwf].
    rewrite skip_ws_members by congruence.
    pose proof (scan_members_dumps (kv :: d) IH Hwf ltac:(congruence) f t
                  ltac:(lia)) as Hs.
    destruct (Json.join [44] (List.map member (kv :: d)))
      as [|c' r'] eqn:Ej.
    { cbn [app] in Hs. destruct f; discriminate Hs. }
    assert (c' = 34) as ->.
    { destruct d; cbn [Json.join List.map] in Ej;
        unfold member, Json.encode_basestring in Ej; cbn in Ej;
        congruence. }
    cbn [app] in Hs |- *. rewrite Hs.
    change (34 =? 125) with false. cbv iota.
    now rewrite dict_of_pairs_distinct.
Qed.

(** [json.loads(json.dumps(v))] is [v]. *)
Lemma loads_dumps (v : pyval) :
  wf v = true -> Json.loads (Json.dumps v) = Some v.
Proof.
  intros Hwf. unfold Json.loads.
  pose proof (skip_ws_dumps v []) as Hs. rewrite app_nil_r in Hs.
  rewrite Hs.
  pose proof (scan_dumps v Hwf (S (length (Json.dumps v))) []
                ltac:(lia) I) as H.
  rewrite app_nil_r in H. now rewrite H.
Qed.

(** ** Hexadecimal *)

Lemma hex_digit_lower (d : N) : d < 16 -> is_lower_hex (hex_digit d) = true.
Proof.
  intros H. unfold is_lower_hex, hex_digit. ncases; reflexivity.
Qed.

Lemma hex_fixed_length (k : nat) (n : N) : length (hex_fixed k n) = k.
Proof.
  revert n. induction k as [|k IH]; intros n; cbn; [reflexivity|].
  rewrite length_app, IH. cbn. lia.
Qed.

Lemma hex_fixed_lower (k : nat) (n : N) :
  forallb is_lower_hex (hex_fixed k n) = true.
Proof.
  revert n. induction k as [|k IH]; intros n; cbn; [reflexivity|].
  rewrite forallb_app, IH. cbn. rewrite hex_digit_lower by lia.
  reflexivity.
Qed.

Lemma hex_fixed_byte (x : N) :
  x < 256 -> hex_fixed 2 x = [hex_digit (x / 16); hex_digit (x mod 16)].
Proof.
  intros H. cbn. do 2 f_equal. lia.
Qed.

(** ** SHA-512 and HMAC: shape of the digest *)

Lemma be_bytes_length (k : nat) (n : N) : length (Sha512.be_bytes k n) = k.
Proof.
  revert n. induction k as [|k IH]; intros n; cbn; [reflexivity|].
  rewrite length_app, IH. cbn. lia.
Qed.

Lemma be_bytes_lt (k : nat) (n : N) :
  Forall (fun x => x < 256) (Sha512.be_bytes k n).
Proof.
  revert n. induction k as [|k IH]; intros n; cbn; [constructor|].
  apply Forall_app. split; [apply IH|]. constructor; [lia | constructor].
Qed.

Lemma round_length (st : list N) (kw : N * N) :
  length (Sha512.round st kw) = length st.
Proof.
  unfold Sha512.round.
  destruct st as [|a [|b [|c [|d [|e [|f [|g [|h [|i st]]]]]]]]];
    reflexivity.
Qed.

Lemma rounds_length (l : list (N * N)) (st : list N) :
  length (fold_left Sha512.round l st) = length st.
Proof.
  revert st. induction l as [|kw l IH]; intros st; cbn; [reflexivity|].
  now rewrite IH, round_length.
Qed.

Lemma compress_length (H block : list N) :
  length (Sha512.compress H block) = length H.
Proof.
  unfold Sha512.compress.
  rewrite length_map, length_combine, rounds_length. lia.
Qed.

Lemma blocks_length (l : list (list N)) (H : list N) :
  length (fold_left Sha512.compress l H) = length H.
Proof.
  revert H. induction l as [|b l IH]; intros H; cbn; [reflexivity|].
  now rewrite IH, compress_length.
Qed.

Lemma flat_map_be_bytes_length (l : list N) :
  length (flat_map (Sha512.be_bytes 8) l) = (8 * length l)%nat.
Proof.
  induction l as [|x l IH]; [reflexivity|].
  cbn [flat_map]. rewrite length_app, be_bytes_length, IH. cbn. lia.
Qed.

(** A SHA-512 digest is 64 bytes. *)
Lemma digestN_length (msg : list N) : length (Sha512.digestN msg) = 64%nat.
Proof.
  unfold Sha512.digestN.
  now rewrite flat_map_be_bytes_length, blocks_length.
Qed.

Lemma digestN_lt (msg : list N) :
  Forall (fun x => x < 256) (Sha512.digestN msg).
Proof.
  unfold Sha512.digestN.
  generalize (fold_left Sha512.compress
                (Sha512.chunks (length (msg ++ Sha512.padding
                                           (N.of_nat (length msg))))
                   128 (msg ++ Sha512.padding (N.of_nat (length msg))))
                Sha512.H0) as ws.
  induction ws as [|w ws IH]; cbn [flat_map]; [constructor|].
  apply Forall_app. split; [apply be_bytes_lt | apply IH].
Qed.

Lemma digest_to_N (msg : bytes) :
  List.map Byte.to_N (Sha512.digest msg)
  = Sha512.digestN (List.map Byte.to_N msg).
Proof. apply map_to_N_byte_of_N, digestN_lt. Qed.

Lemma digest_length (msg : bytes) : length (Sha512.digest msg) = 64%nat.
Proof. unfold Sha512.digest. now rewrite length_map, digestN_length. Qed.

Lemma hmac_digest_length (key msg : bytes) :
  length (Hmac.digest key msg) = 64%nat.
Proof. unfold Hmac.digest. now rewrite length_map, digestN_length. Qed.

(** The hexadecimal digest is two lowercase digits per byte. *)
Lemma hexdigest_lower_hex (key msg : bytes) :
  Hmac.hexdigest key msg = lower_hex (Hmac.digest key msg).
Proof.
  unfold Hmac.hexdigest, lower_hex.
  induction (Hmac.digest key msg) as [|x l IH]; [reflexivity|].
  cbn [flat_map]. rewrite IH, hex_fixed_byte by apply to_N_lt.
  reflexivity.
Qed.

Lemma hexdigest_shape (key msg : bytes) :
  length (Hmac.hexdigest key msg) = 128%nat
  /\ forallb is_lower_hex (Hmac.hexdigest key msg) = true.
Proof.
  unfold Hmac.hexdigest.
  pose proof (hmac_digest_length key msg) as Hl.
  revert Hl. generalize (Hmac.digest key msg) as l. intros l.
  assert (G : length (flat_map (fun b => hex_fixed 2 (Byte.to_N b)) l)
              = (2 * length l)%nat
              /\ forallb is_lower_hex
                   (flat_map (fun b => hex_fixed 2 (Byte.to_N b)) l) = true).
  { induction l as [|x l [IH1 IH2]]; [split; reflexivity|].
    cbn [flat_map]. rewrite length_app, forallb_app, hex_fixed_length.
    rewrite hex_fixed_lower, IH1, IH2. split; [cbn; lia | reflexivity]. }
  intros Hl. rewrite Hl in G. exact G.
Qed.

(** ** HMAC: [hmac.py] computes RFC 2104 *)

Lemma xor_pad_lt (b : byte) :
  N.lxor (Byte.to_N b) 0x36 < 256 /\ N.lxor (Byte.to_N b) 0x5C < 256.
Proof. destruct b; split; reflexivity. Qed.

Lemma xor_pad_to_N (k : bytes) :
  List.map Byte.to_N (xor_pad 0x36 k)
  = List.map Hmac.trans_36 (List.map Byte.to_N k)
  /\ List.map Byte.to_N (xor_pad 0x5C k)
     = List.map Hmac.trans_5C (List.map Byte.to_N k).
Proof.
  unfold xor_pad, Hmac.trans_36, Hmac.trans_5C.
  induction k as [|b k [IH1 IH2]]; [split; reflexivity|].
  cbn [List.map]. rewrite IH1, IH2.
  destruct (xor_pad_lt b) as [H1 H2].
  now rewrite !to_N_byte_of_N by assumption.
Qed.

Lemma map_to_N_zeros (n : nat) :
  List.map Byte.to_N (repeat x00 n) = repeat 0 n.
Proof. induction n as [|n IH]; cbn; [reflexivity | now rewrite IH]. Qed.

Lemma rfc2104_key_to_N (key : bytes) :
  List.map Byte.to_N (rfc2104_key key) = Hmac.block_key key.
Proof.
  unfold rfc2104_key, Hmac.block_key, Sha512.block_size.
  now rewrite map_app, map_to_N_zeros.
Qed.

(** [hmac.new(key, msg, hashlib.sha512).digest()] is the HMAC of
    RFC 2104 over SHA-512. *)
Lemma hmac_digest_rfc2104 (key msg : bytes) :
  Hmac.digest key msg = rfc2104_hmac_sha512 key msg.
Proof.
  unfold Hmac.digest, rfc2104_hmac_sha512.
  unfold Sha512.digest at 1. f_equal. f_equal.
  rewrite map_app, digest_to_N, map_app.
  destruct (xor_pad_to_N (rfc2104_key key)) as [-> ->].
  now rewrite rfc2104_key_to_N.
Qed.

(** ** UUID: version 4 and its text *)

Lemma testbit_field (w k n : N) :
  N.testbit (N.shiftl (N.ones w) k) n = (k <=? n) && (n <? k + w).
Proof.
  destruct (N.leb_spec k n) as [H|H]; cbn [andb].
  - rewrite N.shiftl_spec_high' by assumption.
    destruct (N.ltb_spec n (k + w)) as [H'|H'].
    + apply N.ones_spec_low. lia.
    + apply N.ones_spec_high. lia.
  - now apply N.shiftl_spec_low.
Qed.

(** The bits of a version-4 UUID: bits 76 to 79 hold 4, bits 62 and 63
    hold binary 10, the others are the random ones. *)
Lemma of_random_testbit (b : list N) (n : N) :
  N.testbit (Uuid.of_random b) n
  = if n =? 78 then true
    else if (76 <=? n) && (n <? 80) then false
    else if n =? 63 then true
    else if n =? 62 then false
    else N.testbit (Sha512.be_word b) n.
Proof.
  unfold Uuid.of_random.
  change (N.shiftl 4 76) with (2 ^ 78).
  change (N.shiftl 0x8000 48) with (2 ^ 63).
  change (N.shiftl 0xf000 64) with (N.shiftl (N.ones 4) 76).
  change (N.shiftl 0xc000 48) with (N.shiftl (N.ones 2) 62).
  rewrite N.lor_spec, N.ldiff_spec, N.lor_spec, N.ldiff_spec.
  rewrite !N.pow2_bits_eqb, !testbit_field.
  rewrite (N.eqb_sym 78 n), (N.eqb_sym 63 n).
  destruct (N.eqb_spec n 78) as [->|H1]; [now rewrite orb_true_r|].
  rewrite orb_false_r.
  destruct ((76 <=? n) && (n <? 76 + 4)) eqn:E1.
  { change (76 + 4) with 80 in E1. rewrite E1. cbn. apply andb_false_r. }
  change (76 + 4) with 80 in E1. rewrite E1. cbn [negb]. rewrite andb_true_r.
  destruct (N.eqb_spec n 63) as [->|H2]; [now rewrite orb_true_r|].
  rewrite orb_false_r.
  destruct (N.eqb_spec n 62) as [->|H3]; [cbn; apply andb_false_r|].
  assert ((62 <=? n) && (n <? 62 + 2) = false) as ->.
  { ncases; reflexivity. }
  cbn. apply andb_true_r.
Qed.

Lemma of_random_version (b : list N) :
  (Uuid.of_random b / 2 ^ 76) mod 2 ^ 4 = 4.
Proof.
  apply N.bits_inj. intros m.
  change (N.testbit 4 m) with (N.testbit (2 ^ 2) m).
  rewrite N.pow2_bits_eqb.
  destruct (N.ltb_spec m 4) as [H|H].
  - rewrite N.mod_pow2_bits_low, N.div_pow2_bits by assumption.
    rewrite of_random_testbit. ncases; reflexivity.
  - rewrite N.mod_pow2_bits_high by assumption. ncases; reflexivity.
Qed.

Lemma of_random_variant (b : list N) :
  (Uuid.of_random b / 2 ^ 62) mod 2 ^ 2 = 2.
Proof.
  apply N.bits_inj. intros m.
  change (N.testbit 2 m) with (N.testbit (2 ^ 1) m).
  rewrite N.pow2_bits_eqb.
  destruct (N.ltb_spec m 2) as [H|H].
  - rewrite N.mod_pow2_bits_low, N.div_pow2_bits by assumption.
    rewrite of_random_testbit. ncases; reflexivity.
  - rewrite N.mod_pow2_bits_high by assumption. ncases; reflexivity.
Qed.

Lemma nth_hex_fixed (k : nat) (n : N) (j : nat) :
  (j < k)%nat ->
  nth j (hex_fixed k n) 0
  = hex_digit ((n / 16 ^ N.of_nat (k - 1 - j)) mod 16).
Proof.
  revert n j. induction k as [|k IH]; intros n j Hj; [lia|].
  cbn [hex_fixed].
  destruct (Nat.eq_dec j k) as [->|Hne].
  - rewrite app_nth2 by (rewrite hex_fixed_length; lia).
    rewrite hex_fixed_length.
    replace (k - k)%nat with 0%nat by lia.
    replace (S k - 1 - k)%nat with 0%nat by lia.
    cbn [nth N.of_nat]. now rewrite N.pow_0_r, N.div_1_r.
  - rewrite app_nth1 by (rewrite hex_fixed_length; lia).
    rewrite IH by lia.
    replace (S k - 1 - j)%nat with (S (k - 1 - j)) by lia.
    rewrite Nat2N.inj_succ, N.pow_succ_r', N.Div0.div_div.
    reflexivity.
Qed.

(** The text of every version-4 UUID is well formed. *)
Lemma uuid4_well_formed (b : list N) :
  Uuid.well_formed (Uuid.to_str (Uuid.of_random b)) = true.
Proof.
  unfold Uuid.to_str.
  pose proof (hex_fixed_length 32 (Uuid.of_random b)) as Hlen.
  pose proof (hex_fixed_lower 32 (Uuid.of_random b)) as Hhex.
  pose proof (nth_hex_fixed 32 (Uuid.of_random b) 12 ltac:(lia)) as Hv.
  pose proof (nth_hex_fixed 32 (Uuid.of_random b) 16 ltac:(lia)) as Hr.
  change (16 ^ N.of_nat (32 - 1 - 12)) with (2 ^ 76) in Hv.
  change 16 with (2 ^ 4) in Hv.
  rewrite of_random_version in Hv.
  change (16 ^ N.of_nat (32 - 1 - 16)) with (2 ^ 60) in Hr.
  assert (Hd : 8 <= (Uuid.of_random b / 2 ^ 60) mod 16 <= 11).
  { pose proof (of_random_variant b) as H.
    change (2 ^ 62) with (2 ^ 60 * 4) in H.
    rewrite <- N.Div0.div_div in H.
    change (2 ^ 2) with 4 in H.
    generalize dependent (Uuid.of_random b / 2 ^ 60). intros x _ H. lia. }
  assert (Hr' : let c := nth 16 (hex_fixed 32 (Uuid.of_random b)) 0 in
                (c =? 56) || (c =? 57) || (c =? 97) || (c =? 98) = true).
  { cbv zeta. rewrite Hr.
    generalize dependent ((Uuid.of_random b / 2 ^ 60) mod 16).
    intros d _ Hd. unfold hex_digit. ncases; reflexivity. }
  clear Hr Hd. cbv zeta in Hr'.
  generalize dependent (hex_fixed 32 (Uuid.of_random b)). intros hex.
  do 32 (destruct hex as [|? hex]; [discriminate|]).
  destruct hex; [|discriminate]. intros _ Hhex Hv Hr.
  cbn [nth] in Hv, Hr. subst.
  cbn [forallb] in Hhex.
  repeat (apply andb_true_iff in Hhex as [? Hhex]).
  cbn -[is_lower_hex N.eqb].
  repeat (apply andb_true_iff; split);
    first [assumption | reflexivity].
Qed.

Import CoinoneClient.

(** ** The client: how a call runs *)

Lemma fresh_not_allocated (h : gmap loc pydict) : h !! fresh (dom h) = None.
Proof. apply not_elem_of_dom. apply is_fresh. Qed.

Lemma urandom_next (w : world) :
  urandom 16 w = (inr (next_draw w), set_drawn (drawn w + 16)%nat w).
Proof. reflexivity. Qed.

(** [_encode_payload_v21] on parameters that are a dict: the body is
    serialized and encoded, and the world moves to [after_encode]. *)
Lemma encode_payload_run (self : client) (params : loc) (d : pydict)
  (w : world) :
  heap w !! params = Some d ->
  _encode_payload_v21 self params w
  = (match str_encode
             (Json.dumps (PDict (signed_body self d (next_nonce w)))) with
     | inr utf8 => inr (Base64.b64encode utf8)
     | inl e => inl e
     end,
     after_encode self d w).
Proof.
  intros Hd. unfold _encode_payload_v21, bind, dict_copy.
  rewrite Hd. unfold dict_setitem at 1. cbn [heap set_heap].
  rewrite lookup_insert_eq. cbn [heap set_heap entropy drawn transport sent].
  unfold uuid4, bind. rewrite urandom_next. unfold ret.
  unfold dict_setitem. cbn [heap set_heap set_drawn].
  rewrite lookup_insert_eq. unfold dict_read. cbn [heap set_heap].
  rewrite lookup_insert_eq. rewrite !insert_insert_eq.
  unfold lift, after_encode, signed_body, next_nonce.
  cbn [heap set_heap set_drawn entropy drawn transport sent].
  destruct (str_encode _); reflexivity.
Qed.

(** On anything else it raises [TypeError] and touches nothing. *)
Lemma encode_payload_no_dict (self : client) (params : loc) (w : world) :
  heap w !! params = None ->
  _encode_payload_v21 self params w = (inl TypeError, w).
Proof.
  intros Hd. unfold _encode_payload_v21, bind, dict_copy.
  now rewrite Hd.
Qed.

Lemma private_outcome_run (resp : response) (w : world) :
  match raise_for_status resp with
  | Some _ =>
      match resp_json resp with
      | Some (PDict d) =>
          raise (CoinoneAPIError
                   (dict_get_default d (text "error_msg")
                      (PStr (text "HTTP 错误")))
                   (dict_get_default d (text "error_code") PNone)
                   (Some (status_code resp)))
      | Some _ => raise AttributeError
      | None =>
          raise (CoinoneAPIError (PStr (text "HTTP 错误")) PNone
                   (Some (status_code resp)))
      end
  | None =>
      match resp_json resp with
      | None =>
          raise (CoinoneAPIError (PStr (text "API 返回了无效的 JSON"))
                   PNone (Some (status_code resp)))
      | Some j =>
          match is_error_body j with
          | Some d =>
              if py_str_is (dict_get_default d (text "error_code") PNone)
                   (text "4")
              then
                raise (CoinoneRateLimitError
                         (dict_get_default d (text "error_msg")
                            (PStr (text "请求频率过高")))
                         (dict_get_default d (text "error_code") PNone)
                         None)
              else
                raise (CoinoneAPIError
                         (dict_get_default d (text "error_msg")
                            (PStr (text "API 错误")))
                         (dict_get_default d (text "error_code") PNone)
                         None)
          | None => ret (j, resp_headers resp)
          end
      end
  end w
  = (private_outcome resp, w).
Proof.
  unfold private_outcome.
  destruct (raise_for_status resp); destruct (resp_json resp) as [j|];
    try reflexivity.
  - destruct j; reflexivity.
  - destruct (is_error_body j); [|reflexivity].
    destruct (py_str_is _ _); reflexivity.
Qed.

(** [_get]: the request goes out and the answer decides. *)
Lemma get_run (self : client) (path : pystr) (params : option pydict)
  (w : world) :
  let rq := public_request self path params in
  let ans := transport w (length (sent w)) rq in
  _get self path params w
  = (on_answer public_outcome ans, set_sent (sent w ++ [(rq, ans)]) w).
Proof.
  cbv zeta. unfold _get, bind, session_send.
  fold (public_request self path params).
  destruct (transport w _ _) as [e|resp]; [reflexivity|].
  unfold on_answer, public_outcome.
  destruct (raise_for_status resp); [reflexivity|].
  destruct (resp_json resp) as [j|]; [|reflexivity].
  destruct (is_error_body j); reflexivity.
Qed.

(** [_post_v21] with both credentials, on parameters that are a dict:
    encode, sign, send, and the answer decides. *)
Lemma post_v21_run (self : client) (path : pystr) (params : loc)
  (d : pydict) (w : world) :
  truthy (access_token self) = true -> truthy (secret_key self) = true ->
  heap w !! params = Some d ->
  let w1 := after_encode self d w in
  _post_v21 self path params w
  = match str_encode
            (Json.dumps (PDict (signed_body self d (next_nonce w)))) with
    | inl e => (inl e, w1)
    | inr utf8 =>
        let encoded := Base64.b64encode utf8 in
        match _sign self encoded with
        | inl e => (inl e, w1)
        | inr signature =>
            let rq := private_request self path encoded signature in
            let ans := transport w1 (length (sent w1)) rq in
            (on_answer private_outcome ans,
             set_sent (sent w1 ++ [(rq, ans)]) w1)
        end
    end.
Proof.
  intros Ha Hs Hd. cbv zeta. unfold _post_v21.
  rewrite Ha, Hs. cbn [negb orb]. unfold bind at 1.
  rewrite (encode_payload_run _ _ _ _ Hd).
  destruct (str_encode _) as [e|utf8]; [reflexivity|].
  unfold bind at 1. unfold lift at 1.
  destruct (_sign self (Base64.b64encode utf8)) as [e|signature];
    [reflexivity|].
  unfold bind at 1. unfold lift at 1. rewrite b64encode_decode_text.
  unfold bind, session_send.
  fold (private_request self path (Base64.b64encode utf8) signature).
  destruct (transport _ _ _) as [e|resp]; [reflexivity|].
  cbn [on_answer]. apply private_outcome_run.
Qed.

(** Without a credential nothing happens but the error. *)
Lemma post_v21_no_credentials (self : client) (path : pystr) (params : loc)
  (w : world) :
  truthy (access_token self) = false \/ truthy (secret_key self) = false ->
  _post_v21 self path params w
  = (inl (CoinoneAPIError
            (PStr (text "调用私有 API 需要提供 access_token 和 secret_key"))
            PNone None), w).
Proof.
  intros H. unfold _post_v21.
  destruct H as [-> | ->]; [|rewrite orb_true_r]; reflexivity.
Qed.

Lemma post_v21_no_dict (self : client) (path : pystr) (params : loc)
  (w : world) :
  truthy (access_token self) = true -> truthy (secret_key self) = true ->
  heap w !! params = None ->
  _post_v21 self path params w = (inl TypeError, w).
Proof.
  intros Ha Hs Hd. unfold _post_v21. rewrite Ha, Hs. cbn [negb orb].
  unfold bind at 1. now rewrite encode_payload_no_dict.
Qed.

(** ** The client: what a result tells about the run *)

Lemma app_one_neq {A : Type} (l : list A) (x : A) : l <> l ++ [x].
Proof.
  intros H. apply (f_equal (@length A)) in H.
  rewrite length_app in H. cbn in H. lia.
Qed.

(** A private call either ends before anything is sent, in an exception
    that is no rate-limit error, or it encoded the body of a dict,
    signed it, sent one request, and ended as the answer decides. *)
Lemma post_v21_inv (self : client) (path : pystr) (params : loc)
  (w : world) (r : exn + pyval * list (pystr * pystr)) (w' : world) :
  _post_v21 self path params w = (r, w') ->
  (sent w' = sent w /\ exists e, r = inl e /\ is_rate_limit e = false)
  \/ (exists d utf8 signature,
        truthy (access_token self) = true
        /\ truthy (secret_key self) = true
        /\ heap w !! params = Some d
        /\ Utf8.encode
             (Json.dumps (PDict (signed_body self d (next_nonce w))))
           = Some utf8
        /\ _sign self (Base64.b64encode utf8) = inr signature
        /\ let rq := private_request self path (Base64.b64encode utf8)
                       signature in
           let ans := transport w (length (sent w)) rq in
           r = on_answer private_outcome ans
           /\ w' = set_sent (sent w ++ [(rq, ans)]) (after_encode self d w)).
Proof.
  intros H.
  destruct (truthy (access_token self)) eqn:Ha;
    [|rewrite post_v21_no_credentials in H by auto;
      injection H as <- <-; left; eauto].
  destruct (truthy (secret_key self)) eqn:Hs;
    [|rewrite post_v21_no_credentials in H by auto;
      injection H as <- <-; left; eauto].
  destruct (heap w !! params) as [d|] eqn:Hd;
    [|rewrite post_v21_no_dict in H by assumption;
      injection H as <- <-; left; eauto].
  rewrite (post_v21_run _ _ _ _ _ Ha Hs Hd) in H. cbv zeta in H.
  unfold str_encode in H.
  destruct (Utf8.encode _) as [utf8|] eqn:Hu;
    [|injection H as <- <-; left; eauto].
  destruct (_sign self (Base64.b64encode utf8)) as [e|signature] eqn:Hg.
  - injection H as <- <-. left. split; [reflexivity|].
    exists e. split; [reflexivity|].
    unfold _sign in Hg. destruct (secret_key self) as [k|].
    + destruct (str_encode k) as [e'|] eqn:E; [|discriminate].
      injection Hg as <-. unfold str_encode in E.
      destruct (Utf8.encode k); [discriminate|].
      injection E as <-. reflexivity.
    + injection Hg as <-. reflexivity.
  - injection H as <- <-. right. exists d, utf8, signature.
    repeat split; assumption.
Qed.

(** A private call that was answered. *)
Lemma post_v21_answered (self : client) (path : pystr) (params : loc)
  (w : world) (r : exn + pyval * list (pystr * pystr)) (w' : world)
  (rq : request) (ans : transport_error + response) :
  _post_v21 self path params w = (r, w') ->
  sent w' = sent w ++ [(rq, ans)] ->
  r = on_answer private_outcome ans
  /\ exists d utf8 signature,
       heap w !! params = Some d
       /\ Utf8.encode
            (Json.dumps (PDict (signed_body self d (next_nonce w))))
          = Some utf8
       /\ _sign self (Base64.b64encode utf8) = inr signature
       /\ rq = private_request self path (Base64.b64encode utf8) signature.
Proof.
  intros H Hsent.
  destruct (post_v21_inv _ _ _ _ _ _ H) as
    [[Hs _] | (d & utf8 & sg & _ & _ & Hd & Hu & Hg & Hr & Hw)].
  - rewrite Hs in Hsent. now apply app_one_neq in Hsent.
  - subst w'. cbn [sent set_sent after_encode] in Hsent.
    apply app_inv_head in Hsent. injection Hsent as <- <-.
    split; [assumption|]. exists d, utf8, sg. auto.
Qed.

(** A public call that was answered. *)
Lemma get_answered (self : client) (path : pystr) (params : option pydict)
  (w : world) (r : exn + pyval * list (pystr * pystr)) (w' : world)
  (rq : request) (ans : transport_error + response) :
  _get self path params w = (r, w') ->
  sent w' = sent w ++ [(rq, ans)] ->
  r = on_answer public_outcome ans.
Proof.
  intros H Hsent. rewrite get_run in H. injection H as <- <-.
  cbn [sent set_sent] in Hsent.
  apply app_inv_head in Hsent. now injection Hsent as <- <-.
Qed.

(* ================================================================= *)
(** * The properties of the specification *)

(** C1. A private call whose response has a successful HTTP status and
    a JSON mapping with [result == "error"] raises
    [CoinoneRateLimitError] when [str(error_code)] is ["4"] and the
    general [CoinoneAPIError] for any other code; either carries the
    body's [error_msg], or a fallback where the body has none, and the
    body's [error_code]. *)
Theorem private_error_body_classified
  (self : client) (path : pystr) (params : loc) (w w' : world)
  (r : exn + pyval * list (pystr * pystr)) (rq : request)
  (resp : response) (d : pydict) :
  _post_v21 self path params w = (r, w') ->
  sent w' = sent w ++ [(rq, inr resp)] ->
  raise_for_status resp = None ->
  resp_json resp = Some (PDict d) ->
  py_eq_str (dict_get_default d (text "result") PNone) (text "error")
  = true ->
  r = inl (if py_str_is (dict_get_default d (text "error_code") PNone)
                (text "4")
           then CoinoneRateLimitError
                  (dict_get_default d (text "error_msg")
                     (PStr (text "请求频率过高")))
                  (dict_get_default d (text "error_code") PNone) None
           else CoinoneAPIError
                  (dict_get_default d (text "error_msg")
                     (PStr (text "API 错误")))
                  (dict_get_default d (text "error_code") PNone) None).
Proof.
  intros Hrun Hsent Hok Hjson Herr.
  destruct (post_v21_answered _ _ _ _ _ _ _ _ Hrun Hsent) as [-> _].
  cbn [on_answer]. unfold private_outcome, is_error_body.
  rewrite Hok, Hjson, Herr.
  now destruct (py_str_is _ _).
Qed.

(** The simulated response
    [{"result":"error","error_code":"4","error_msg":"rate limit"}]
    raises [CoinoneRateLimitError]. *)
Lemma private_rate_limit_response :
  let run := _post_v21 sample_client (text "/v2.1/order") 1%positive
               (sample_world 0
                  (inr (sample_response 200 (Some rate_limit_body)))) in
  fst run = inl (CoinoneRateLimitError (PStr (text "rate limit"))
                   (PStr (text "4")) None).
Proof.
  cbv zeta.
  refine (private_error_body_classified sample_client (text "/v2.1/order")
            1%positive _ _ _
            (request_sent
               (snd (_post_v21 sample_client (text "/v2.1/order") 1%positive
                       (sample_world 0
                          (inr (sample_response 200
                                  (Some rate_limit_body)))))))
            (sample_response 200 (Some rate_limit_body))
            [(text "result", PStr (text "error"));
             (text "error_code", PStr (text "4"));
             (text "error_msg", PStr (text "rate limit"))]
            (surjective_pairing _) _ _ _ _);
    vm_compute; reflexivity.
Defined.

(** The simulated response
    [{"result":"error","error_code":"100","error_msg":"bad param"}]
    raises the general [CoinoneAPIError]. *)
Example private_bad_param_response :
  fst (_post_v21 sample_client (text "/v2.1/order") 1%positive
         (sample_world 0 (inr (sample_response 200 (Some bad_param_body)))))
  = inl (CoinoneAPIError (PStr (text "bad param")) (PStr (text "100")) None).
Proof. vm_compute. reflexivity. Qed.

Lemma set_if_given_step {A : Type} (l : loc) (k : pystr)
  (x : option pyval) (c : unit -> M A) (w1 : world) :
  is_Some (heap w1 !! l) ->
  exists w2,
    bind (set_if_given l k x) c w1 = c tt w2
    /\ sent w2 = sent w1 /\ drawn w2 = drawn w1
    /\ is_Some (heap w2 !! l).
Proof.
  intros [d Hl]. unfold bind, set_if_given. destruct x as [v|].
  - unfold dict_setitem. rewrite Hl. eexists. split; [reflexivity|].
    cbn. rewrite lookup_insert_eq. eauto.
  - exists w1. cbn. eauto.
Qed.

(** C4. A private call made with an empty or absent access token or
    secret key raises the configuration error ([CoinoneAPIError] with
    its own message, no code, no HTTP status) and leaves the world as
    it was: nothing is copied or encoded, no entropy is read, nothing
    is sent.  The wrappers [get_balance_all], [cancel_all_orders] and
    [place_order], which build their parameters first, raise the same
    error with no entropy read and nothing sent. *)
Theorem private_call_needs_credentials (self : client) (w : world) :
  truthy (access_token self) = false \/ truthy (secret_key self) = false ->
  let error :=
    CoinoneAPIError
      (PStr (text "调用私有 API 需要提供 access_token 和 secret_key"))
      PNone None in
  let untouched (run : (exn + pyval * list (pystr * pystr)) * world) :=
    fst run = inl error
    /\ sent (snd run) = sent w /\ drawn (snd run) = drawn w in
  (forall path params, _post_v21 self path params w = (inl error, w))
  /\ untouched (get_balance_all self w)
  /\ (forall q t, untouched (cancel_all_orders self q t w))
  /\ (forall o, untouched (place_order self o w)).
Proof.
  intros H. cbv zeta.
  assert (G : forall path params w0,
             _post_v21 self path params w0
             = (inl (CoinoneAPIError
                       (PStr (text
                          "调用私有 API 需要提供 access_token 和 secret_key"))
                       PNone None), w0))
    by (intros; now apply post_v21_no_credentials).
  split; [intros; apply G|].
  split; [|split].
  - unfold get_balance_all, bind, dict_new. rewrite G. auto.
  - intros q t. unfold cancel_all_orders, bind, dict_new. rewrite G. auto.
  - intros o.
    assert (P : exists l w8,
               place_order self o w
               = _post_v21 self (text "/v2.1/order") l w8
               /\ sent w8 = sent w /\ drawn w8 = drawn w).
    { unfold place_order, bind at 1, dict_new.
      set (l := fresh (dom (heap w))).
      set (w0 := set_heap _ w).
      assert (Hl : is_Some (heap w0 !! l)).
      { unfold w0. cbn. rewrite lookup_insert_eq. eauto. }
      assert (Hs : sent w0 = sent w) by reflexivity.
      assert (Hd : drawn w0 = drawn w) by reflexivity.
      clearbody w0.
      repeat match goal with
      | |- context [bind (set_if_given ?l ?k ?x) ?c ?w1] =>
          let w2 := fresh "w" in
          let E := fresh "E" in
          let Hs' := fresh "Hs" in
          let Hd' := fresh "Hd" in
          let Hl' := fresh "Hl" in
          destruct (set_if_given_step l k x c w1 Hl)
            as (w2 & E & Hs' & Hd' & Hl');
          rewrite E; cbv beta;
          rewrite Hs in Hs'; rewrite Hd in Hd';
          clear E Hs Hd Hl w1;
          rename Hs' into Hs; rename Hd' into Hd; rename Hl' into Hl
      end.
      eauto. }
    destruct P as (l & w8 & -> & Hs & Hd). rewrite G. cbn. auto.
Qed.

(** With no access token, nothing happens but the error. *)
Lemma private_call_without_token :
  _post_v21 (mk_client None (Some (text "secret")) 10)
    (text "/v2.1/order") 1%positive (sample_world 0 (inl Timeout))
  = (inl (CoinoneAPIError
            (PStr (text "调用私有 API 需要提供 access_token 和 secret_key"))
            PNone None),
     sample_world 0 (inl Timeout)).
Proof.
  exact (proj1 (private_call_needs_credentials
                  (mk_client None (Some (text "secret")) 10)
                  (sample_world 0 (inl Timeout)) (or_introl eq_refl))
           (text "/v2.1/order") 1%positive).
Defined.

(** [raise_for_status] raises exactly on a status from 400 to 599. *)
Lemma raise_for_status_none (resp : response) :
  raise_for_status resp = None
  <-> ~ (400 <= status_code resp < 600)%Z.
Proof.
  unfold raise_for_status.
  destruct (Z.leb_spec 400 (status_code resp));
    destruct (Z.ltb_spec (status_code resp) 500);
    destruct (Z.leb_spec 500 (status_code resp));
    destruct (Z.ltb_spec (status_code resp) 600);
    cbn [andb]; split; intros; try lia; try discriminate; reflexivity.
Qed.

(** C7 (the part the code keeps).  A private call answered with an
    error status raises [CoinoneAPIError] with the HTTP status: with the
    body's [error_msg] and [error_code] when the body is a JSON mapping,
    and with the plain message and no code when the body is no JSON. *)
Lemma private_http_error_classified
  (self : client) (path : pystr) (params : loc) (w w' : world)
  (r : exn + pyval * list (pystr * pystr)) (rq : request)
  (resp : response) :
  _post_v21 self path params w = (r, w') ->
  sent w' = sent w ++ [(rq, inr resp)] ->
  raise_for_status resp <> None ->
  (forall d, resp_json resp = Some (PDict d) ->
     r = inl (CoinoneAPIError
                (dict_get_default d (text "error_msg")
                   (PStr (text "HTTP 错误")))
                (dict_get_default d (text "error_code") PNone)
                (Some (status_code resp))))
  /\ (resp_json resp = None ->
      r = inl (CoinoneAPIError (PStr (text "HTTP 错误")) PNone
                 (Some (status_code resp)))).
Proof.
  intros Hrun Hsent Hst.
  destruct (post_v21_answered _ _ _ _ _ _ _ _ Hrun Hsent) as [-> _].
  cbn [on_answer]. unfold private_outcome.
  destruct (raise_for_status resp); [|congruence].
  split; [intros d Hj | intros Hj]; now rewrite Hj.
Qed.

(** C7 (where the code fails).  An error status with a JSON body that
    is no mapping, here HTTP 500 with the body [[]]: [j.get] raises
    [AttributeError], which is none of the client's errors and carries
    neither the HTTP status nor a message. *)
Example private_http_error_with_list_body :
  fst (_post_v21 sample_client (text "/v2.1/order") 1%positive
         (sample_world 0 (inr (sample_response 500 (Some (PList []))))))
  = inl AttributeError.
Proof. vm_compute. reflexivity. Qed.

(** C8. A response, public or private, with a successful HTTP status
    and a body that is no JSON raises the format error: [CoinoneAPIError]
    with its own message, no code, and the HTTP status; the call returns
    no body and headers.  The error differs from whatever the same
    calls raise on a transport failure (the transport's own exception,
    or an error status). *)
Theorem invalid_json_is_format_error (resp : response) :
  raise_for_status resp = None ->
  resp_json resp = None ->
  let error :=
    CoinoneAPIError (PStr (text "API 返回了无效的 JSON")) PNone
      (Some (status_code resp)) in
  (forall self path params w r w' rq,
     _get self path params w = (r, w') ->
     sent w' = sent w ++ [(rq, inr resp)] -> r = inl error)
  /\ (forall self path params w r w' rq,
        _post_v21 self path params w = (r, w') ->
        sent w' = sent w ++ [(rq, inr resp)] -> r = inl error)
  /\ (forall self path params w r w' rq ans,
        _get self path params w = (r, w') ->
        sent w' = sent w ++ [(rq, ans)] ->
        transport_failure ans -> r <> inl error)
  /\ (forall self path params w r w' rq ans,
        _post_v21 self path params w = (r, w') ->
        sent w' = sent w ++ [(rq, ans)] ->
        transport_failure ans -> r <> inl error).
Proof.
  intros Hok Hjson. cbv zeta. repeat split.
  - intros self path params w r w' rq Hrun Hsent.
    rewrite (get_answered _ _ _ _ _ _ _ _ Hrun Hsent).
    cbn [on_answer]. unfold public_outcome. now rewrite Hok, Hjson.
  - intros self path params w r w' rq Hrun Hsent.
    destruct (post_v21_answered _ _ _ _ _ _ _ _ Hrun Hsent) as [-> _].
    cbn [on_answer]. unfold private_outcome. now rewrite Hok, Hjson.
  - intros self path params w r w' rq ans Hrun Hsent Hfail.
    rewrite (get_answered _ _ _ _ _ _ _ _ Hrun Hsent).
    destruct ans as [e|resp']; cbn [on_answer transport_failure] in *;
      [discriminate|].
    unfold public_outcome.
    destruct (raise_for_status resp') eqn:E; [|congruence].
    intros Heq.
    assert (Hst : status_code resp' = status_code resp) by congruence.
    apply raise_for_status_none in Hok.
    assert (raise_for_status resp' <> None) as Hn by congruence.
    rewrite raise_for_status_none in Hn. rewrite Hst in Hn. tauto.
  - intros self path params w r w' rq ans Hrun Hsent Hfail.
    destruct (post_v21_answered _ _ _ _ _ _ _ _ Hrun Hsent) as [-> _].
    destruct ans as [e|resp']; cbn [on_answer transport_failure] in *;
      [discriminate|].
    assert (Hn : ~ ~ (400 <= status_code resp' < 600)%Z)
      by now rewrite <- raise_for_status_none.
    apply raise_for_status_none in Hok.
    unfold private_outcome.
    destruct (raise_for_status resp'); [|congruence].
    destruct (resp_json resp') as [[]|]; try discriminate;
      intros Heq;
      assert (Hst : status_code resp' = status_code resp) by congruence;
      rewrite Hst in Hn; tauto.
Qed.

(** HTTP 200 with the body [not json], on a public and on a private
    call. *)
Lemma not_json_response :
  let resp := sample_response 200 None in
  let error :=
    CoinoneAPIError (PStr (text "API 返回了无效的 JSON")) PNone (Some 200%Z) in
  fst (_get sample_client (text "/markets/KRW") None
         (sample_world 0 (inr resp))) = inl error
  /\ fst (_post_v21 sample_client (text "/v2.1/order") 1%positive
            (sample_world 0 (inr resp))) = inl error.
Proof.
  cbv zeta.
  pose proof (invalid_json_is_format_error (sample_response 200 None)
                eq_refl eq_refl) as (Hget & Hpost & _).
  split.
  - refine (Hget sample_client (text "/markets/KRW") None
              (sample_world 0 (inr (sample_response 200 None))) _ _
              (request_sent
                 (snd (_get sample_client (text "/markets/KRW") None
                         (sample_world 0
                            (inr (sample_response 200 None))))))
              (surjective_pairing _) _).
    vm_compute. reflexivity.
  - refine (Hpost sample_client (text "/v2.1/order") 1%positive
              (sample_world 0 (inr (sample_response 200 None))) _ _
              (request_sent
                 (snd (_post_v21 sample_client (text "/v2.1/order")
                         1%positive
                         (sample_world 0
                            (inr (sample_response 200 None))))))
              (surjective_pairing _) _).
    vm_compute. reflexivity.
Defined.

(** C10. [CoinoneRateLimitError] is raised only by a private call
    whose response has a successful HTTP status and a JSON mapping with
    [result == "error"] and [str(error_code) == "4"].  A public call
    never raises it: on the same error body it raises the general
    [CoinoneAPIError].  A private call answered with an error status
    and a mapping, whatever its [error_code], raises the general
    [CoinoneAPIError] with the HTTP status. *)
Theorem rate_limit_only_on_private_success :
  (forall self path params w e w',
     _post_v21 self path params w = (inl e, w') ->
     is_rate_limit e = true ->
     exists rq resp d,
       sent w' = sent w ++ [(rq, inr resp)]
       /\ raise_for_status resp = None
       /\ resp_json resp = Some (PDict d)
       /\ py_eq_str (dict_get_default d (text "result") PNone)
            (text "error") = true
       /\ py_str_is (dict_get_default d (text "error_code") PNone)
            (text "4") = true)
  /\ (forall self path params w e w',
        _get self path params w = (inl e, w') -> is_rate_limit e = false)
  /\ (forall self path params w r w' rq resp d,
        _get self path params w = (r, w') ->
        sent w' = sent w ++ [(rq, inr resp)] ->
        raise_for_status resp = None ->
        resp_json resp = Some (PDict d) ->
        py_eq_str (dict_get_default d (text "result") PNone)
          (text "error") = true ->
        r = inl (CoinoneAPIError
                   (dict_get_default d (text "error_msg")
                      (PStr (text "API 错误")))
                   (dict_get_default d (text "error_code") PNone) None))
  /\ (forall self path params w r w' rq resp d,
        _post_v21 self path params w = (r, w') ->
        sent w' = sent w ++ [(rq, inr resp)] ->
        raise_for_status resp <> None ->
        resp_json resp = Some (PDict d) ->
        r = inl (CoinoneAPIError
                   (dict_get_default d (text "error_msg")
                      (PStr (text "HTTP 错误")))
                   (dict_get_default d (text "error_code") PNone)
                   (Some (status_code resp)))).
Proof.
  repeat split.
  - intros self path params w e w' Hrun Hrl.
    destruct (post_v21_inv _ _ _ _ _ _ Hrun) as
      [(_ & e' & [= <-] & He) |
       (d & utf8 & sg & _ & _ & _ & _ & _ & Hr & Hw)]; [congruence|].
    cbv zeta in Hr, Hw.
    set (rq := private_request self path (Base64.b64encode utf8) sg) in *.
    destruct (transport w (length (sent w)) rq) as [te|resp] eqn:Ht;
      cbn [on_answer] in Hr; [injection Hr as ->; discriminate|].
    unfold private_outcome in Hr.
    destruct (raise_for_status resp) eqn:Hst.
    { destruct (resp_json resp) as [[]|]; injection Hr as ->;
        discriminate. }
    destruct (resp_json resp) as [j|] eqn:Hj;
      [|injection Hr as ->; discriminate].
    unfold is_error_body in Hr.
    destruct j as [| | | | |dj]; try discriminate.
    destruct (py_eq_str _ _) eqn:Herr; [|discriminate].
    destruct (py_str_is _ _) eqn:H4; [|injection Hr as ->; discriminate].
    exists rq, resp, dj. subst w'. cbn [sent set_sent after_encode].
    auto.
  - intros self path params w e w' Hrun.
    rewrite get_run in Hrun. injection Hrun as Hr _.
    destruct (transport w _ _) as [te|resp]; cbn [on_answer] in Hr;
      [injection Hr as <-; reflexivity|].
    unfold public_outcome in Hr.
    destruct (raise_for_status resp); [injection Hr as <-; reflexivity|].
    destruct (resp_json resp) as [j|]; [|injection Hr as <-; reflexivity].
    destruct (is_error_body j); [injection Hr as <-; reflexivity|].
    discriminate.
  - intros self path params w r w' rq resp d Hrun Hsent Hok Hj Herr.
    rewrite (get_answered _ _ _ _ _ _ _ _ Hrun Hsent).
    cbn [on_answer]. unfold public_outcome, is_error_body.
    now rewrite Hok, Hj, Herr.
  - intros self path params w r w' rq resp d Hrun Hsent Hst Hj.
    now apply (private_http_error_classified _ _ _ _ _ _ _ _ Hrun Hsent Hst).
Qed.

(** The rate-limit body on a public call, and under HTTP 429 on a
    private call: the general error both times. *)
Lemma rate_limit_body_elsewhere :
  fst (_get sample_client (text "/markets/KRW") None
         (sample_world 0 (inr (sample_response 200 (Some rate_limit_body)))))
  = inl (CoinoneAPIError (PStr (text "rate limit")) (PStr (text "4")) None)
  /\ fst (_post_v21 sample_client (text "/v2.1/order") 1%positive
            (sample_world 0
               (inr (sample_response 429 (Some rate_limit_body)))))
     = inl (CoinoneAPIError (PStr (text "rate limit")) (PStr (text "4"))
              (Some 429%Z)).
Proof.
  destruct rate_limit_only_on_private_success as (_ & _ & Hget & Hpost).
  split.
  - refine (Hget sample_client (text "/markets/KRW") None
              (sample_world 0
                 (inr (sample_response 200 (Some rate_limit_body)))) _ _
              (request_sent
                 (snd (_get sample_client (text "/markets/KRW") None
                         (sample_world 0
                            (inr (sample_response 200
                                    (Some rate_limit_body)))))))
              (sample_response 200 (Some rate_limit_body))
              [(text "result", PStr (text "error"));
               (text "error_code", PStr (text "4"));
               (text "error_msg", PStr (text "rate limit"))]
              (surjective_pairing _) _ _ _ _); vm_compute; reflexivity.
  - refine (Hpost sample_client (text "/v2.1/order") 1%positive
              (sample_world 0
                 (inr (sample_response 429 (Some rate_limit_body)))) _ _
              (request_sent
                 (snd (_post_v21 sample_client (text "/v2.1/order")
                         1%positive
                         (sample_world 0
                            (inr (sample_response 429
                                    (Some rate_limit_body)))))))
              (sample_response 429 (Some rate_limit_body))
              [(text "result", PStr (text "error"));
               (text "error_code", PStr (text "4"));
               (text "error_msg", PStr (text "rate limit"))]
              (surjective_pairing _) _ _ _);
      [vm_compute; reflexivity | discriminate | reflexivity].
Defined.

(** ** What [_encode_payload_v21] does to the heap *)

Lemma after_encode_lookup (self : client) (d0 : pydict) (w : world)
  (l : loc) (d : pydict) :
  heap w !! l = Some d -> heap (after_encode self d0 w) !! l = Some d.
Proof.
  intros H. unfold after_encode. cbn [heap].
  rewrite lookup_insert_ne; [assumption|].
  intros E. rewrite <- E, fresh_not_allocated in H. discriminate.
Qed.

(** C9. Payload construction leaves the caller's mapping as it was:
    [dict(params)] is a new object, the token and the nonce are set in
    the new object, and every dict that existed before the call, the
    caller's among them, holds the same items after it.  The same
    holds for the whole of [_post_v21]. *)
Theorem params_left_unchanged (self : client) (path : pystr)
  (params : loc) (w : world) (d : pydict) :
  heap w !! params = Some d ->
  heap (snd (_encode_payload_v21 self params w))
  = <[fresh (dom (heap w)) := signed_body self d (next_nonce w)]> (heap w)
  /\ heap w !! fresh (dom (heap w)) = None
  /\ (forall l dl,
        heap w !! l = Some dl ->
        heap (snd (_encode_payload_v21 self params w)) !! l = Some dl
        /\ heap (snd (_post_v21 self path params w)) !! l = Some dl).
Proof.
  intros Hd. rewrite (encode_payload_run _ _ _ _ Hd). cbn [snd].
  split; [reflexivity|]. split; [apply fresh_not_allocated|].
  intros l dl Hl. split; [now apply after_encode_lookup|].
  destruct (truthy (access_token self)) eqn:Ha;
    [|rewrite post_v21_no_credentials by auto; assumption].
  destruct (truthy (secret_key self)) eqn:Hs;
    [|rewrite post_v21_no_credentials by auto; assumption].
  rewrite (post_v21_run _ _ _ _ _ Ha Hs Hd). cbv zeta.
  destruct (str_encode _); [now apply after_encode_lookup|].
  destruct (_sign _ _); cbn [snd set_sent heap];
    now apply after_encode_lookup.
Qed.

(** After a payload is built for the sample parameters, the caller's
    dict holds neither [access_token] nor [nonce]. *)
Lemma sample_params_left_unchanged :
  let w := sample_world 0 (inl Timeout) in
  let w' := snd (_encode_payload_v21 sample_client 1%positive w) in
  heap w' !! 1%positive = Some sample_params
  /\ dict_get sample_params (text "access_token") = None
  /\ dict_get sample_params (text "nonce") = None.
Proof.
  cbv zeta. split; [|split; reflexivity].
  refine (proj1 (proj2 (proj2
            (params_left_unchanged sample_client [] 1%positive
               (sample_world 0 (inl Timeout)) sample_params eq_refl))
            1%positive sample_params eq_refl)).
Defined.

(** ** Characters of a serialized value *)

Section dumps_chars.
  Variables p q : N -> bool.
  Hypothesis p_graphic : forall c, 33 <= c <= 126 -> p c = true.
  Hypothesis q_p : forall c, q c = true -> 0x20 <= c -> p c = true.

Lemma escape_char_chars (c : N) :
  q c = true -> forallb p (Json.escape_char c) = true.
Proof.
  intros Hc. unfold Json.escape_char.
  destruct (N.eqb_spec c 34); [cbn; now rewrite !p_graphic by lia|].
  destruct (N.eqb_spec c 92); [cbn; now rewrite !p_graphic by lia|].
  destruct (N.eqb_spec c 10); [cbn; now rewrite !p_graphic by lia|].
  destruct (N.eqb_spec c 13); [cbn; now rewrite !p_graphic by lia|].
  destruct (N.eqb_spec c 9); [cbn; now rewrite !p_graphic by lia|].
  destruct (N.eqb_spec c 8); [cbn; now rewrite !p_graphic by lia|].
  destruct (N.eqb_spec c 12); [cbn; now rewrite !p_graphic by lia|].
  destruct (N.ltb_spec c 0x20).
  - cbn [forallb hex_fixed app]. rewrite !p_graphic by lia. cbn [andb].
    assert (G : forall d, d < 16 -> p (hex_digit d) = true).
    { intros d Hd. apply p_graphic. unfold hex_digit. ncases; lia. }
    now rewrite !G by lia.
  - cbn. now rewrite q_p.
Qed.

Lemma encode_basestring_chars (s : pystr) :
  forallb q s = true -> forallb p (Json.encode_basestring s) = true.
Proof.
  intros Hs. unfold Json.encode_basestring. cbn [forallb].
  rewrite p_graphic by lia. rewrite forallb_app. cbn.
  rewrite p_graphic by lia. rewrite andb_true_r. cbn [andb].
  induction s as [|c s IH]; [reflexivity|].
  cbn [forallb flat_map] in *. apply andb_true_iff in Hs as [Hc Hs].
  now rewrite forallb_app, escape_char_chars, IH.
Qed.

Lemma uint_chars_chars (u : Decimal.uint) :
  forallb p (uint_chars u) = true.
Proof.
  induction u; cbn [uint_chars forallb]; rewrite ?p_graphic by lia;
    auto.
Qed.

Lemma int_repr_chars (z : Z) : forallb p (int_repr z) = true.
Proof.
  unfold int_repr. destruct (Z.to_int z); cbn [forallb];
    rewrite ?p_graphic by lia; apply uint_chars_chars.
Qed.

Lemma join_chars (l : list pystr) :
  Forall (fun x => forallb p x = true) l ->
  forallb p (Json.join [44] l) = true.
Proof.
  induction 1 as [|x l Hx Hl IH]; [reflexivity|].
  destruct l as [|y l]; [assumption|].
  rewrite join_cons2, !forallb_app.
  apply andb_true_iff; split; [exact Hx|].
  apply andb_true_iff; split; [|exact IH].
  cbn. now rewrite p_graphic by lia.
Qed.

(** Every character of a serialized value passes [p] when [p] holds of
    graphic ASCII and the characters of its strings pass [q], which
    gives [p] from 0x20 on: control characters are written as escapes
    and the rest of the text is graphic ASCII. *)
Lemma dumps_chars (v : pyval) :
  all_chars q v = true -> forallb p (Json.dumps v) = true.
Proof.
  induction v as [| b | z | s | l IH | d IH] using pyval_induction;
    intros Hv.
  - cbn. now rewrite !p_graphic by lia.
  - destruct b; cbn; now rewrite !p_graphic by lia.
  - apply int_repr_chars.
  - now apply encode_basestring_chars.
  - cbn [Json.dumps forallb]. rewrite p_graphic by lia.
    rewrite forallb_app. cbn. rewrite p_graphic by lia.
    rewrite andb_true_r. cbn [andb]. apply join_chars.
    cbn [all_chars] in Hv. clear -IH Hv.
    induction IH as [|v l Hx _ IHl]; cbn [List.map]; [constructor|].
    cbn [forallb] in Hv. apply andb_true_iff in Hv as [H1 H2].
    constructor; auto.
  - rewrite dumps_dict. cbn [forallb]. rewrite p_graphic by lia.
    rewrite forallb_app. cbn. rewrite p_graphic by lia.
    rewrite andb_true_r. cbn [andb]. apply join_chars.
    cbn [all_chars] in Hv. clear -IH Hv p_graphic q_p.
    induction IH as [|[k v] l Hx _ IHl]; cbn [List.map]; [constructor|].
    cbn [forallb fst snd] in Hv. apply andb_true_iff in Hv as [H1 H2].
    apply andb_true_iff in H1 as [Hk Hvv].
    constructor; [|auto].
    unfold member. cbn [fst snd]. rewrite forallb_app.
    rewrite encode_basestring_chars by assumption. cbn.
    rewrite p_graphic by lia. cbn in Hx. auto.
Qed.

Lemma dict_set_chars (d : pydict) (k : pystr) (v : pyval) :
  all_chars q (PDict d) = true -> forallb q k = true ->
  all_chars q v = true ->
  all_chars q (PDict (dict_set d k v)) = true.
Proof.
  cbn [all_chars]. intros Hd Hk Hv.
  induction d as [|[k' v'] d IH]; cbn [dict_set forallb fst snd].
  - now rewrite Hk, Hv.
  - cbn [forallb fst snd] in Hd. apply andb_true_iff in Hd as [H1 H2].
    apply andb_true_iff in H1 as [Hk' Hv'].
    destruct (str_eqb k' k); cbn [forallb fst snd].
    + now rewrite Hk', Hv, H2.
    + now rewrite Hk', Hv', IH.
Qed.

End dumps_chars.

(** ** The body of a signed payload *)

Lemma forallb_firstn {A : Type} (p : A -> bool) (n : nat) (l : list A) :
  forallb p l = true -> forallb p (firstn n l) = true.
Proof.
  revert l. induction n as [|n IH]; intros [|x l]; cbn; auto.
  intros H. apply andb_true_iff in H as [-> H]. now apply IH.
Qed.

Lemma forallb_skipn {A : Type} (p : A -> bool) (n : nat) (l : list A) :
  forallb p l = true -> forallb p (skipn n l) = true.
Proof.
  revert l. induction n as [|n IH]; intros [|x l]; cbn; auto.
  intros H. apply andb_true_iff in H as [_ H]. now apply IH.
Qed.

Lemma uuid_to_str_chars (p : N -> bool) (i : N) :
  (forall c, 33 <= c <= 126 -> p c = true) ->
  forallb p (Uuid.to_str i) = true.
Proof.
  intros Hp.
  assert (Hhex : forallb p (hex_fixed 32 i) = true).
  { pose proof (hex_fixed_lower 32 i) as H.
    induction (hex_fixed 32 i) as [|c l IH]; [reflexivity|].
    cbn [forallb] in *. apply andb_true_iff in H as [Hc Hl].
    rewrite IH by assumption. rewrite Hp; [reflexivity|].
    unfold is_lower_hex in Hc. revert Hc. ncases; intros; try lia;
      discriminate. }
  unfold Uuid.to_str.
  repeat (rewrite forallb_app || cbn [forallb]).
  rewrite !Hp by lia.
  rewrite !forallb_firstn, !forallb_skipn
    by auto using forallb_skipn.
  reflexivity.
Qed.

Lemma signed_body_wf (self : client) (d : pydict) (nonce : pystr) :
  wf (PDict d) = true -> wf (PDict (signed_body self d nonce)) = true.
Proof.
  intros H. unfold signed_body.
  apply dict_set_wf; [apply dict_set_wf; [assumption|] | reflexivity].
  now destruct (access_token self).
Qed.

Lemma signed_body_get (self : client) (d : pydict) (nonce : pystr) :
  dict_get (signed_body self d nonce) (text "access_token")
  = Some (of_optional (access_token self))
  /\ dict_get (signed_body self d nonce) (text "nonce") = Some (PStr nonce)
  /\ (forall k, k <> text "access_token" -> k <> text "nonce" ->
        dict_get (signed_body self d nonce) k = dict_get d k).
Proof.
  unfold signed_body. repeat split.
  - rewrite dict_get_set_ne by (apply str_eqb_neq; reflexivity).
    apply dict_get_set_eq.
  - apply dict_get_set_eq.
  - intros k H1 H2. now rewrite !dict_get_set_ne by congruence.
Qed.

Lemma signed_body_keys (self : client) (d : pydict) (nonce : pystr) :
  exists extra,
    List.map fst (signed_body self d nonce) = List.map fst d ++ extra.
Proof.
  unfold signed_body. rewrite !dict_set_keys.
  repeat match goal with
  | |- context [if ?b then _ else _] => destruct b
  end; rewrite <- ?app_assoc; eauto using app_nil_r.
Qed.

Lemma signed_body_chars (p : N -> bool) (self : client) (d : pydict)
  (nonce : pystr) :
  (forall c, 33 <= c <= 126 -> p c = true) ->
  all_chars p (PDict d) = true ->
  all_chars p (of_optional (access_token self)) = true ->
  forallb p nonce = true ->
  all_chars p (PDict (signed_body self d nonce)) = true.
Proof.
  intros Hp Hd Ht Hn. unfold signed_body.
  assert (G : forall s, forallb (fun c => (33 <=? c) && (c <=? 126)) s = true
                        -> forallb p s = true).
  { induction s as [|c s IH]; cbn; [reflexivity|]. intros H.
    apply andb_true_iff in H as [Hc Hs]. rewrite IH by assumption.
    rewrite Hp; [reflexivity|]. revert Hc. ncases; intros; try lia;
      discriminate. }
  apply dict_set_chars; [apply dict_set_chars; auto| |assumption];
    apply G; reflexivity.
Qed.

(** What [_encode_payload_v21] returns decodes to the body. *)
Lemma encode_payload_decodes (self : client) (params : loc) (w w' : world)
  (d : pydict) (encoded : bytes) :
  heap w !! params = Some d -> wf (PDict d) = true ->
  _encode_payload_v21 self params w = (inr encoded, w') ->
  exists utf8,
    Utf8.encode (Json.dumps (PDict (signed_body self d (next_nonce w))))
    = Some utf8
    /\ encoded = Base64.b64encode utf8
    /\ Base64.b64decode encoded = Some utf8
    /\ Utf8.decode utf8
       = Some (Json.dumps (PDict (signed_body self d (next_nonce w))))
    /\ Json.loads (Json.dumps (PDict (signed_body self d (next_nonce w))))
       = Some (PDict (signed_body self d (next_nonce w)))
    /\ w' = after_encode self d w.
Proof.
  intros Hd Hwf Hrun. rewrite (encode_payload_run _ _ _ _ Hd) in Hrun.
  unfold str_encode in Hrun.
  destruct (Utf8.encode _) as [utf8|] eqn:Hu; [|discriminate].
  injection Hrun as <- <-. exists utf8.
  repeat split; auto using b64decode_b64encode, utf8_decode_encode.
  apply loads_dumps. now apply signed_body_wf.
Qed.

(** C6. Decoding the constructed payload (base64, then UTF-8, then
    JSON) gives back the body: the caller's mapping with [access_token]
    and [nonce] set.  Every other key has the caller's value, the
    caller's keys keep their order, the token is the client's and the
    nonce is a well-formed version-4 UUID text.  The statement is
    about a payload that was constructed: where [json.dumps] or
    [str.encode] raises there is none. *)
Theorem encoded_payload_round_trip (self : client) (params : loc)
  (w : world) (d : pydict) :
  heap w !! params = Some d ->
  wf (PDict d) = true ->
  let nonce := next_nonce w in
  let body := signed_body self d nonce in
  (forall encoded w',
     _encode_payload_v21 self params w = (inr encoded, w') ->
     exists utf8 txt,
       Base64.b64decode encoded = Some utf8
       /\ Utf8.decode utf8 = Some txt
       /\ Json.loads txt = Some (PDict body))
  /\ dict_get body (text "access_token")
     = Some (of_optional (access_token self))
  /\ dict_get body (text "nonce") = Some (PStr nonce)
  /\ Uuid.well_formed nonce = true
  /\ (forall k, k <> text "access_token" -> k <> text "nonce" ->
        dict_get body k = dict_get d k)
  /\ (exists extra, List.map fst body = List.map fst d ++ extra).
Proof.
  intros Hd Hwf. cbv zeta.
  destruct (signed_body_get self d (next_nonce w)) as (Ht & Hn & Hk).
  split.
  { intros encoded w' Hrun.
    destruct (encode_payload_decodes _ _ _ _ _ _ Hd Hwf Hrun)
      as (utf8 & _ & _ & H1 & H2 & H3 & _).
    eauto. }
  split; [exact Ht|]. split; [exact Hn|].
  split; [apply uuid4_well_formed|]. split; [exact Hk|].
  apply signed_body_keys.
Qed.

(** The payload of the sample parameters decodes to the sample
    parameters with the token and the nonce. *)
Lemma sample_payload_round_trip :
  let w := sample_world 0 (inl Timeout) in
  exists encoded utf8 txt,
    fst (_encode_payload_v21 sample_client 1%positive w) = inr encoded
    /\ Base64.b64decode encoded = Some utf8
    /\ Utf8.decode utf8 = Some txt
    /\ Json.loads txt
       = Some (PDict (sample_params
                        ++ [(text "access_token", PStr (text "token"));
                            (text "nonce",
                             PStr (text
                               "00010203-0405-4607-8809-0a0b0c0d0e0f"))])).
Proof.
  cbv zeta.
  assert (E : _encode_payload_v21 sample_client 1%positive
                (sample_world 0 (inl Timeout))
              = (inr (payload_of
                        (fst (_encode_payload_v21 sample_client 1%positive
                                (sample_world 0 (inl Timeout))))),
                 snd (_encode_payload_v21 sample_client 1%positive
                        (sample_world 0 (inl Timeout)))))
    by (apply injective_projections; [vm_compute|]; reflexivity).
  destruct (encoded_payload_round_trip sample_client 1%positive
              (sample_world 0 (inl Timeout)) sample_params
              eq_refl eq_refl) as (Hrt & _).
  destruct (Hrt _ _ E) as (utf8 & txt & H1 & H2 & H3).
  eexists _, utf8, txt.
  split; [exact (f_equal fst E)|]. repeat split; assumption.
Defined.

(** C3. The payload a private call transmits is the base64 form of
    the UTF-8 bytes of the compact JSON text of the body (the caller's
    mapping with [access_token] and [nonce] set): the very bytes
    [_encode_payload_v21] returns are the POST body, their text is the
    [X-COINONE-PAYLOAD] header, and they are what [_sign] signs for the
    [X-COINONE-SIGNATURE] header.  The JSON text is the items in the
    dict's order, joined by [,] with [:] between key and value and
    nothing else; it holds no white space unless a string of the body
    holds a space; parsing it gives the body back, items in order; and
    non-ASCII characters stand for themselves. *)
Theorem payload_is_compact_json_base64
  (self : client) (path : pystr) (params : loc) (w w' : world)
  (r : exn + pyval * list (pystr * pystr)) (rq : request)
  (ans : transport_error + response) :
  _post_v21 self path params w = (r, w') ->
  sent w' = sent w ++ [(rq, ans)] ->
  exists d utf8 signature,
    heap w !! params = Some d
    /\ let body := signed_body self d (next_nonce w) in
       let json_str := Json.dumps (PDict body) in
       let encoded := Base64.b64encode utf8 in
       Utf8.encode json_str = Some utf8
       /\ fst (_encode_payload_v21 self params w) = inr encoded
       /\ req_method rq = POST
       /\ req_data rq = Some encoded
       /\ header (req_headers rq) (text "X-COINONE-PAYLOAD")
          = Some (bytes_text encoded)
       /\ _sign self encoded = inr signature
       /\ header (req_headers rq) (text "X-COINONE-SIGNATURE")
          = Some signature
       /\ json_str = 123 :: Json.join [44] (List.map member body) ++ [125]
       /\ (all_chars (fun c => negb (c =? 32)) (PDict body) = true ->
           forallb (fun c => negb (Json.is_ws c)) json_str = true)
       /\ (wf (PDict d) = true -> Json.loads json_str = Some (PDict body))
       /\ (forall s, forallb (fun c => 0x80 <=? c) s = true ->
             Json.dumps (PStr s) = 34 :: s ++ [34]).
Proof.
  intros Hrun Hsent.
  destruct (post_v21_answered _ _ _ _ _ _ _ _ Hrun Hsent)
    as (_ & d & utf8 & sg & Hd & Hu & Hg & ->).
  exists d, utf8, sg. split; [assumption|]. cbv zeta.
  split; [assumption|].
  split.
  { rewrite (encode_payload_run _ _ _ _ Hd). unfold str_encode.
    now rewrite Hu. }
  split; [reflexivity|]. split; [reflexivity|].
  split; [reflexivity|]. split; [assumption|]. split; [reflexivity|].
  split; [apply dumps_dict|].
  split.
  { apply (dumps_chars (fun c => negb (Json.is_ws c))
             (fun c => negb (c =? 32)));
      intros c; unfold Json.is_ws; ncases; intros; try reflexivity;
      discriminate || lia. }
  split.
  { intros Hwf. apply loads_dumps. now apply signed_body_wf. }
  intros s Hs. cbn [Json.dumps]. unfold Json.encode_basestring.
  do 2 f_equal. induction s as [|c s IH]; [reflexivity|].
  cbn [forallb flat_map] in *. apply andb_true_iff in Hs as [Hc Hs].
  rewrite IH by assumption.
  unfold Json.escape_char. revert Hc. ncases; intros; try discriminate;
    reflexivity.
Qed.

(** The request of a sample call carries the payload in its body and
    in its header. *)
Lemma sample_request_carries_payload :
  let w := sample_world 0 (inl Timeout) in
  let run := _post_v21 sample_client (text "/v2.1/order") 1%positive w in
  let rq := request_sent (snd run) in
  exists encoded,
    fst (_encode_payload_v21 sample_client 1%positive w) = inr encoded
    /\ req_data rq = Some encoded
    /\ header (req_headers rq) (text "X-COINONE-PAYLOAD")
       = Some (bytes_text encoded).
Proof.
  cbv zeta.
  destruct (payload_is_compact_json_base64 sample_client
              (text "/v2.1/order") 1%positive
              (sample_world 0 (inl Timeout)) _ _
              (request_sent
                 (snd (_post_v21 sample_client (text "/v2.1/order")
                         1%positive (sample_world 0 (inl Timeout)))))
              (inl Timeout) (surjective_pairing _)
              ltac:(vm_compute; reflexivity))
    as (d & utf8 & sg & _ & _ & He & _ & Hdata & Hh & _).
  exists (Base64.b64encode utf8). auto.
Defined.

(** C2. Signing is a function of the secret key and the payload bytes
    alone: with the key's UTF-8 bytes [kb], [_sign] returns the
    HMAC-SHA512 of the payload under [kb] (RFC 2104 over SHA-512),
    written as 128 lowercase hexadecimal digits, whatever the rest of
    the client is. *)
Theorem sign_is_hmac_sha512 (self : client) (key : pystr) (kb : bytes)
  (payload : bytes) :
  secret_key self = Some key ->
  Utf8.encode key = Some kb ->
  let digest := lower_hex (rfc2104_hmac_sha512 kb payload) in
  _sign self payload = inr digest
  /\ length digest = 128%nat
  /\ forallb is_lower_hex digest = true
  /\ (forall other,
        secret_key other = Some key ->
        _sign other payload = _sign self payload).
Proof.
  intros Hk Hb. cbv zeta.
  assert (G : forall c, secret_key c = Some key ->
                        _sign c payload
                        = inr (lower_hex (rfc2104_hmac_sha512 kb payload))).
  { intros c Hc. unfold _sign, str_encode. rewrite Hc, Hb.
    now rewrite hexdigest_lower_hex, hmac_digest_rfc2104. }
  split; [now apply G|].
  rewrite <- hmac_digest_rfc2104, <- hexdigest_lower_hex.
  destruct (hexdigest_shape kb payload) as [Hl Hh].
  repeat split; try assumption.
  intros other Ho. now rewrite !G.
Qed.

(** The vector of RFC 4231, test case 2: key [Jefe], data
    [what do ya want for nothing?]. *)
Lemma sign_rfc4231_case_2 :
  _sign (mk_client None (Some (text "Jefe")) 10)
    (list_byte_of_string "what do ya want for nothing?")
  = inr (text ("164b7a7bfcf819e2e395fbe73b56e0a387bd64222e831fd6"
               ++ "10270cd7ea2505549758bf75c05a994a6d034f65f8f0e6fd"
               ++ "caeab1a34d4a6b4b636e070a38bce737")).
Proof.
  destruct (sign_is_hmac_sha512
              (mk_client None (Some (text "Jefe")) 10) (text "Jefe")
              (list_byte_of_string "Jefe")
              (list_byte_of_string "what do ya want for nothing?")
              eq_refl eq_refl) as [H _].
  rewrite H. vm_compute. reflexivity.
Defined.

Lemma hex_digit_inj (a b : N) :
  a < 16 -> b < 16 -> hex_digit a = hex_digit b -> a = b.
Proof. unfold hex_digit. ncases; lia. Qed.

Lemma lower_hex_inj (a b : bytes) : lower_hex a = lower_hex b -> a = b.
Proof.
  revert b. induction a as [|x a IH]; intros [|y b] H; cbn in H;
    try discriminate; [reflexivity|].
  injection H as H1 H2 H3.
  pose proof (to_N_lt x). pose proof (to_N_lt y).
  apply hex_digit_inj in H1; [|lia|lia].
  apply hex_digit_inj in H2; [|lia|lia].
  f_equal; [|now apply IH].
  rewrite <- (byte_of_N_to_N x), <- (byte_of_N_to_N y). f_equal. lia.
Qed.

(** C5 (as the code has it).  Two encodings of the same parameters,
    one after the other, give the same payload exactly when the two
    nonces drawn are the same: different nonces always give different
    payloads, and nothing but the draws of [os.urandom] makes the
    nonces differ.  The two signatures are then the HMAC-SHA512 of
    different payloads: they are equal only if the two payloads
    collide under HMAC-SHA512 with the secret key. *)
Theorem same_payload_iff_same_nonce (self : client) (params : loc)
  (w w1 w2 : world) (d : pydict) (p1 p2 : bytes) :
  heap w !! params = Some d ->
  wf (PDict d) = true ->
  _encode_payload_v21 self params w = (inr p1, w1) ->
  _encode_payload_v21 self params w1 = (inr p2, w2) ->
  (p1 = p2 <-> next_nonce w = next_nonce w1)
  /\ (forall key kb,
        secret_key self = Some key -> Utf8.encode key = Some kb ->
        _sign self p1 = _sign self p2 ->
        rfc2104_hmac_sha512 kb p1 = rfc2104_hmac_sha512 kb p2).
Proof.
  intros Hd Hwf H1 H2.
  split; cycle 1.
  { intros key kb Hk Hb. unfold _sign, str_encode. rewrite Hk, Hb.
    rewrite !hexdigest_lower_hex, !hmac_digest_rfc2104.
    intros [= E]. now apply lower_hex_inj. }
  destruct (encode_payload_decodes _ _ _ _ _ _ Hd Hwf H1)
    as (u1 & Hu1 & -> & Hb1 & Hdec1 & Hl1 & ->).
  pose proof (after_encode_lookup self d w params d Hd) as Hd1.
  destruct (encode_payload_decodes _ _ _ _ _ _ Hd1 Hwf H2)
    as (u2 & Hu2 & -> & Hb2 & Hdec2 & Hl2 & _).
  set (w1 := after_encode self d w) in *.
  split.
  - intros E. rewrite E in Hb1.
    assert (u1 = u2) as -> by congruence.
    assert (Hj : Json.dumps (PDict (signed_body self d (next_nonce w)))
                 = Json.dumps (PDict (signed_body self d (next_nonce w1))))
      by congruence.
    rewrite Hj in Hl1.
    assert (Hbody : signed_body self d (next_nonce w)
                    = signed_body self d (next_nonce w1)) by congruence.
    destruct (signed_body_get self d (next_nonce w)) as (_ & Hn & _).
    destruct (signed_body_get self d (next_nonce w1)) as (_ & Hn1 & _).
    rewrite Hbody in Hn. congruence.
  - intros E. rewrite E in Hu1. congruence.
Qed.

(** In the sample world the second draw continues the count: the
    nonces differ and so do the payloads. *)
Lemma sample_payloads_differ :
  let w := sample_world 0 (inl Timeout) in
  let run1 := _encode_payload_v21 sample_client 1%positive w in
  let run2 := _encode_payload_v21 sample_client 1%positive (snd run1) in
  (payload_of (fst run1) = payload_of (fst run2)
   <-> next_nonce w = next_nonce (snd run1))
  /\ next_nonce w <> next_nonce (snd run1).
Proof.
  cbv zeta. split.
  - refine (proj1 (same_payload_iff_same_nonce sample_client 1%positive
              (sample_world 0 (inl Timeout)) _ 
              (snd (_encode_payload_v21 sample_client 1%positive
                      (snd (_encode_payload_v21 sample_client 1%positive
                              (sample_world 0 (inl Timeout))))))
              sample_params _ _ eq_refl eq_refl _ _));
      apply injective_projections;
      [vm_compute; reflexivity | reflexivity
      |vm_compute; reflexivity | reflexivity].
  - intros E. vm_compute in E. discriminate E.
Defined.

(** C5 (as the specification states it) fails.  In a world whose first two
    draws of [os.urandom(16)] differ only in the bits that [uuid4]
    overwrites, two encodings of the same parameters draw different
    random bytes and still make the same nonce, the same payload and
    the same signature. *)
Lemma same_parameters_same_payload :
  let run1 := _encode_payload_v21 sample_client 1%positive twin_world in
  let run2 := _encode_payload_v21 sample_client 1%positive (snd run1) in
  next_draw twin_world <> next_draw (snd run1)
  /\ next_nonce twin_world = next_nonce (snd run1)
  /\ fst run1 = inr (payload_of (fst run1))
  /\ fst run2 = inr (payload_of (fst run1))
  /\ _sign sample_client (payload_of (fst run1))
     = _sign sample_client (payload_of (fst run2))
  /\ exists signature,
       _sign sample_client (payload_of (fst run1)) = inr signature.
Proof.
  cbv zeta. split; [intros E; vm_compute in E; discriminate E|].
  split; [vm_compute; reflexivity|].
  split; [vm_compute; reflexivity|].
  split; [vm_compute; reflexivity|].
  split; [vm_compute; reflexivity|].
  exists (match _sign sample_client
                  (payload_of
                     (fst (_encode_payload_v21 sample_client 1%positive
                             twin_world))) with
          | inr s => s
          | inl _ => []
          end).
  vm_compute. reflexivity.
Qed.

(* ================================================================= *)
(** * Further properties of the two calls *)

(** One call of the session per call, and no retry: a public call
    calls [session.get] exactly once, whatever comes back; a private
    call calls [session.post] once, or not at all when it raises
    before.  HTTP exchanges that [requests] makes inside the one call
    (redirects) are not counted. *)
Theorem one_request_per_call (self : client) (path : pystr) (w : world) :
  (forall params,
     exists rq ans,
       sent (snd (_get self path params w)) = sent w ++ [(rq, ans)])
  /\ (forall params,
        sent (snd (_post_v21 self path params w)) = sent w
        \/ exists rq ans,
             sent (snd (_post_v21 self path params w))
             = sent w ++ [(rq, ans)]).
Proof.
  split; intros params.
  - rewrite get_run. cbn [snd sent set_sent]. eauto.
  - destruct (_post_v21 self path params w) as [r w'] eqn:E.
    destruct (post_v21_inv _ _ _ _ _ _ E) as
      [[Hs _] | (d & utf8 & sg & _ & _ & _ & _ & _ & _ & ->)];
      cbn [snd sent set_sent after_encode]; eauto.
Qed.

(** A response with a successful status and a JSON body that is no
    error mapping is returned as it is, with the response headers, by
    a public and by a private call. *)
Theorem success_returns_body_and_headers (resp : response) (j : pyval) :
  raise_for_status resp = None ->
  resp_json resp = Some j ->
  is_error_body j = None ->
  (forall self path params w r w' rq,
     _get self path params w = (r, w') ->
     sent w' = sent w ++ [(rq, inr resp)] ->
     r = inr (j, resp_headers resp))
  /\ (forall self path params w r w' rq,
        _post_v21 self path params w = (r, w') ->
        sent w' = sent w ++ [(rq, inr resp)] ->
        r = inr (j, resp_headers resp)).
Proof.
  intros Hok Hj He. split; intros self path params w r w' rq Hrun Hsent.
  - rewrite (get_answered _ _ _ _ _ _ _ _ Hrun Hsent).
    cbn [on_answer]. unfold public_outcome. now rewrite Hok, Hj, He.
  - destruct (post_v21_answered _ _ _ _ _ _ _ _ Hrun Hsent) as [-> _].
    cbn [on_answer]. unfold private_outcome. now rewrite Hok, Hj, He.
Qed.

(** HTTP 200 with the body [[]] on a private call. *)
Lemma empty_list_response_returned :
  fst (_post_v21 sample_client (text "/v2.1/order") 1%positive
         (sample_world 0 (inr (sample_response 200 (Some (PList []))))))
  = inr (PList [], [(text "Content-Type", text "application/json")]).
Proof.
  refine (proj2 (success_returns_body_and_headers
                   (sample_response 200 (Some (PList []))) (PList [])
                   eq_refl eq_refl eq_refl)
            sample_client (text "/v2.1/order") 1%positive
            (sample_world 0 (inr (sample_response 200 (Some (PList [])))))
            _ _
            (request_sent
               (snd (_post_v21 sample_client (text "/v2.1/order") 1%positive
                       (sample_world 0
                          (inr (sample_response 200 (Some (PList []))))))))
            (surjective_pairing _) _).
  vm_compute. reflexivity.
Defined.

(* ================================================================= *)
(** * The wrappers of the private API *)

(** ** What the wrappers build *)

Lemma with_dict_twice (l : loc) (d d' : pydict) (w : world) :
  with_dict l d' (with_dict l d w) = with_dict l d' w.
Proof.
  unfold with_dict, set_heap. cbn. now rewrite insert_insert_eq.
Qed.

Lemma with_dict_lookup (l : loc) (d : pydict) (w : world) :
  heap (with_dict l d w) !! l = Some d.
Proof. cbn. apply lookup_insert_eq. Qed.

Lemma dict_new_run {A : Type} (d : pydict) (c : loc -> M A) (w : world) :
  bind (dict_new d) c w
  = c (fresh (dom (heap w))) (with_dict (fresh (dom (heap w))) d w).
Proof. reflexivity. Qed.

(** An optional field whose key is new goes last, or nowhere. *)
Lemma set_if_given_fresh {A : Type} (l : loc) (k : string)
  (x : option pyval) (c : unit -> M A) (d : pydict) (w : world) :
  existsb (str_eqb (text k)) (List.map fst d) = false ->
  bind (set_if_given l (text k) x) c (with_dict l d w)
  = c tt (with_dict l (d ++ given k x) w).
Proof.
  intros Hk. unfold bind, set_if_given. destruct x as [v|]; cbn [given].
  - unfold dict_setitem. rewrite with_dict_lookup.
    rewrite (dict_set_fresh _ _ _ Hk).
    change (set_heap ?h (with_dict l d w))
      with (with_dict l (d ++ [(text k, v)]) (with_dict l d w)) at 1.
    now rewrite with_dict_twice.
  - now rewrite app_nil_r.
Qed.

Lemma fresh_given (k : pystr) (k' : string) (x : option pyval) :
  str_eqb k (text k') = false ->
  existsb (str_eqb k) (List.map fst (given k' x)) = false.
Proof. intros Hk. destruct x; cbn; [now rewrite Hk | reflexivity]. Qed.

(** A key is none of the keys of a dict made of fields and optional
    fields. *)
Ltac fresh_key :=
  rewrite ?List.map_app, ?existsb_app;
  rewrite ?fresh_given by (vm_compute; reflexivity);
  vm_compute; reflexivity.

(** [place_order] hands [_post_v21] a new dict that holds the fields of
    the order. *)
Lemma place_order_run (self : client) (o : order) (w : world) :
  place_order self o w
  = _post_v21 self (text "/v2.1/order") (fresh (dom (heap w)))
      (with_dict (fresh (dom (heap w))) (order_fields o) w).
Proof.
  unfold place_order. rewrite dict_new_run.
  do 7 (rewrite set_if_given_fresh by fresh_key).
  unfold order_fields. now rewrite <- !app_assoc.
Qed.

Lemma order_fields_wf (o : order) : wf (PDict (order_fields o)) = true.
Proof.
  destruct o as [q t s ty [p|] [qt|] [a|] [po|] [lp|] [tp|] [u|]];
    vm_compute; reflexivity.
Qed.

(** Parameters that hold neither [access_token] nor [nonce] get both at
    the end. *)
Lemma signed_body_fresh (self : client) (d : pydict) (nonce : pystr) :
  existsb (str_eqb (text "access_token")) (List.map fst d) = false ->
  existsb (str_eqb (text "nonce")) (List.map fst d) = false ->
  signed_body self d nonce = d ++ credential_fields self nonce.
Proof.
  intros Ha Hn. unfold signed_body, credential_fields.
  rewrite (dict_set_fresh d _ _ Ha). rewrite dict_set_fresh.
  - now rewrite <- app_assoc.
  - rewrite List.map_app, existsb_app, Hn. vm_compute. reflexivity.
Qed.

(** The body of the request of a private call decodes to the signed
    body of the parameters. *)
Lemma private_request_payload (self : client) (path : pystr)
  (params : loc) (w w' : world) (r : exn + pyval * list (pystr * pystr))
  (rq : request) (ans : transport_error + response) (d : pydict) :
  _post_v21 self path params w = (r, w') ->
  sent w' = sent w ++ [(rq, ans)] ->
  heap w !! params = Some d ->
  wf (PDict d) = true ->
  req_method rq = POST
  /\ req_url rq = PRIVATE_BASE_URL ++ path
  /\ request_payload rq
     = Some (PDict (signed_body self d (next_nonce w)))
  /\ r = on_answer private_outcome ans.
Proof.
  intros Hrun Hsent Hd Hwf.
  destruct (post_v21_answered _ _ _ _ _ _ _ _ Hrun Hsent)
    as (Hr & d' & utf8 & sg & Hd' & Hu & _ & ->).
  rewrite Hd in Hd'. injection Hd' as <-.
  repeat split; try assumption.
  unfold request_payload, decode_payload. cbn [private_request req_data].
  rewrite b64decode_b64encode, (utf8_decode_encode _ _ Hu).
  apply loads_dumps. now apply signed_body_wf.
Qed.

(** [place_order] sends, to [/v2.1/order] of the private API, a
    payload that decodes to these fields in this order: the four
    mandatory ones, then each optional argument that is not [None]
    under its own name ([post_only] as a boolean), then [access_token]
    and [nonce].  An optional argument that is [None] is not in the
    payload at all.  The call then ends as the answer decides. *)
Theorem place_order_payload (self : client) (o : order) (w w' : world)
  (r : exn + pyval * list (pystr * pystr)) (rq : request)
  (ans : transport_error + response) :
  place_order self o w = (r, w') ->
  sent w' = sent w ++ [(rq, ans)] ->
  req_method rq = POST
  /\ req_url rq = text "https://api.coinone.co.kr/v2.1/order"
  /\ request_payload rq
     = Some (PDict (order_fields o
                      ++ credential_fields self (next_nonce w)))
  /\ r = on_answer private_outcome ans.
Proof.
  intros Hrun Hsent. rewrite place_order_run in Hrun.
  destruct (private_request_payload _ _ _ _ _ _ _ _ _ Hrun Hsent
              (with_dict_lookup _ _ _) (order_fields_wf o))
    as (Hm & Hu & Hp & Hr).
  repeat split; try assumption.
  rewrite Hp. do 2 f_equal.
  apply signed_body_fresh; unfold order_fields; fresh_key.
Qed.

(** The sample order, refused by a transport that times out. *)
Lemma sample_order_payload :
  let run := place_order sample_client sample_order
               (sample_world 0 (inl Timeout)) in
  request_payload (request_sent (snd run))
  = Some (PDict [(text "quote_currency", PStr (text "KRW"));
                 (text "target_currency", PStr (text "BTC"));
                 (text "side", PStr (text "BUY"));
                 (text "type", PStr (text "LIMIT"));
                 (text "price", PStr (text "50000000"));
                 (text "qty", PStr (text "0.01"));
                 (text "post_only", PBool true);
                 (text "access_token", PStr (text "token"));
                 (text "nonce",
                  PStr (text "00010203-0405-4607-8809-0a0b0c0d0e0f"))])
  /\ fst run = inl (RequestException Timeout).
Proof.
  cbv zeta.
  destruct (place_order_payload sample_client sample_order
              (sample_world 0 (inl Timeout)) _ _
              (request_sent
                 (snd (place_order sample_client sample_order
                         (sample_world 0 (inl Timeout)))))
              (inl Timeout) (surjective_pairing _)
              ltac:(vm_compute; reflexivity))
    as (_ & _ & Hp & Hr).
  split; [exact Hp | exact Hr].
Defined.

Lemma get_balance_all_run (self : client) (w : world) :
  get_balance_all self w
  = _post_v21 self (text "/v2.1/account/balance/all")
      (fresh (dom (heap w))) (with_dict (fresh (dom (heap w))) [] w).
Proof. reflexivity. Qed.

Lemma cancel_all_orders_run (self : client) (q t : pystr) (w : world) :
  cancel_all_orders self q t w
  = _post_v21 self (text "/v2.1/order/cancel/all")
      (fresh (dom (heap w)))
      (with_dict (fresh (dom (heap w)))
         [(text "quote_currency", PStr q); (text "target_currency", PStr t)]
         w).
Proof. reflexivity. Qed.

(** [get_balance_all] sends to [/v2.1/account/balance/all] a
    payload that holds [access_token] and [nonce] and nothing else;
    [cancel_all_orders] sends to [/v2.1/order/cancel/all] the two
    currencies, then [access_token] and [nonce].  Either call ends as
    the answer decides. *)
Theorem account_calls_payload (self : client) (w w' : world)
  (r : exn + pyval * list (pystr * pystr)) (rq : request)
  (ans : transport_error + response) :
  sent w' = sent w ++ [(rq, ans)] ->
  (get_balance_all self w = (r, w') ->
   req_method rq = POST
   /\ req_url rq
      = text "https://api.coinone.co.kr/v2.1/account/balance/all"
   /\ request_payload rq
      = Some (PDict (credential_fields self (next_nonce w)))
   /\ r = on_answer private_outcome ans)
  /\ (forall q t,
        cancel_all_orders self q t w = (r, w') ->
        req_method rq = POST
        /\ req_url rq
           = text "https://api.coinone.co.kr/v2.1/order/cancel/all"
        /\ request_payload rq
           = Some (PDict ([(text "quote_currency", PStr q);
                           (text "target_currency", PStr t)]
                            ++ credential_fields self (next_nonce w)))
        /\ r = on_answer private_outcome ans).
Proof.
  intros Hsent. split; [|intros q t]; intros Hrun.
  - rewrite get_balance_all_run in Hrun.
    destruct (private_request_payload _ _ _ _ _ _ _ _ _ Hrun Hsent
                (with_dict_lookup _ _ _) eq_refl)
      as (Hm & Hu & Hp & Hr).
    repeat split; assumption.
  - rewrite cancel_all_orders_run in Hrun.
    destruct (private_request_payload _ _ _ _ _ _ _ _ _ Hrun Hsent
                (with_dict_lookup _ _ _) eq_refl)
      as (Hm & Hu & Hp & Hr).
    repeat split; try assumption.
Qed.

(** Cancelling the orders of KRW-BTC, on a transport that times out. *)
Lemma sample_cancel_payload :
  let run := cancel_all_orders sample_client (text "KRW") (text "BTC")
               (sample_world 0 (inl Timeout)) in
  request_payload (request_sent (snd run))
  = Some (PDict [(text "quote_currency", PStr (text "KRW"));
                 (text "target_currency", PStr (text "BTC"));
                 (text "access_token", PStr (text "token"));
                 (text "nonce",
                  PStr (text "00010203-0405-4607-8809-0a0b0c0d0e0f"))])
  /\ fst run = inl (RequestException Timeout).
Proof.
  cbv zeta.
  destruct (proj2 (account_calls_payload sample_client
                     (sample_world 0 (inl Timeout))
                     (snd (cancel_all_orders sample_client (text "KRW")
                             (text "BTC") (sample_world 0 (inl Timeout))))
                     (fst (cancel_all_orders sample_client (text "KRW")
                             (text "BTC") (sample_world 0 (inl Timeout))))
                     (request_sent
                        (snd (cancel_all_orders sample_client (text "KRW")
                                (text "BTC")
                                (sample_world 0 (inl Timeout)))))
                     (inl Timeout) ltac:(vm_compute; reflexivity))
              (text "KRW") (text "BTC") (surjective_pairing _))
    as (_ & _ & Hp & Hr).
  split; [exact Hp | exact Hr].
Defined.

(* ================================================================= *)
(** * The exceptions of a call *)

(** A response that makes a public call raise makes it raise
    [CoinoneAPIError], with the status and no code, or with no status
    for an error body. *)
Lemma public_outcome_error (resp : response) (e : exn) :
  public_outcome resp = inl e ->
  exists m c s,
    e = CoinoneAPIError m c s
    /\ match s with
       | Some st => st = status_code resp /\ c = PNone
       | None =>
           raise_for_status resp = None
           /\ exists j, resp_json resp = Some j /\ is_error_body j <> None
       end.
Proof.
  unfold public_outcome.
  destruct (raise_for_status resp) as [m|];
    [intros [= <-]; do 3 eexists; split; [reflexivity | cbn; auto]|].
  destruct (resp_json resp) as [j|];
    [|intros [= <-]; do 3 eexists; split; [reflexivity | cbn; auto]].
  destruct (is_error_body j) as [d|] eqn:E; [|discriminate].
  intros [= <-]. do 3 eexists. split; [reflexivity|].
  split; [reflexivity|]. exists j. split; [reflexivity|]. congruence.
Qed.

(** The same for a private call, where a body that is no mapping adds
    [AttributeError]. *)
Lemma private_outcome_error (resp : response) (e : exn) :
  private_outcome resp = inl e ->
  match e with
  | CoinoneAPIError _ _ _ => True
  | CoinoneRateLimitError _ _ _ => raise_for_status resp = None
  | AttributeError =>
      raise_for_status resp <> None
      /\ exists j, resp_json resp = Some j /\ forall d, j <> PDict d
  | _ => False
  end.
Proof.
  unfold private_outcome.
  destruct (raise_for_status resp) as [m|].
  - destruct (resp_json resp) as [j|]; [|intros [= <-]; exact I].
    destruct j; intros [= <-]; try exact I;
      (split; [discriminate|]); eexists; (split; [reflexivity|]);
      discriminate.
  - destruct (resp_json resp) as [j|]; [|intros [= <-]; exact I].
    destruct (is_error_body j) as [d|]; [|discriminate].
    destruct (py_str_is _ _); intros [= <-]; [reflexivity | exact I].
Qed.






(** A response never makes a call raise the exception of the
    transport. *)
Lemma outcome_not_transport (resp : response) (t : transport_error) :
  public_outcome resp <> inl (RequestException t)
  /\ private_outcome resp <> inl (RequestException t).
Proof.
  split; intros H.
  - destruct (public_outcome_error _ _ H) as (m & c & s & E & _).
    discriminate.
  - now apply private_outcome_error in H.
Qed.

(** A timeout or a lost connection reaches the caller as the exception
    [requests] raised, not as a [CoinoneAPIError]; and a call ends in
    that exception for no other reason. *)
Theorem transport_exception_propagates (w w' : world)
  (r : exn + pyval * list (pystr * pystr)) (rq : request)
  (ans : transport_error + response) (t : transport_error) :
  sent w' = sent w ++ [(rq, ans)] ->
  (forall self path params,
     _get self path params w = (r, w') ->
     (r = inl (RequestException t) <-> ans = inl t))
  /\ (forall self path params,
        _post_v21 self path params w = (r, w') ->
        (r = inl (RequestException t) <-> ans = inl t)).
Proof.
  intros Hsent.
  assert (G : forall f : response -> exn + pyval * list (pystr * pystr),
             (forall resp, f resp <> inl (RequestException t)) ->
             on_answer f ans = inl (RequestException t) <-> ans = inl t).
  { intros f Hf. destruct ans as [t'|resp]; cbn [on_answer].
    - split; congruence.
    - split; [intros H; now apply Hf in H | discriminate]. }
  split; intros self path params Hrun.
  - rewrite (get_answered _ _ _ _ _ _ _ _ Hrun Hsent).
    apply G. intros resp. apply outcome_not_transport.
  - destruct (post_v21_answered _ _ _ _ _ _ _ _ Hrun Hsent) as [-> _].
    apply G. intros resp. apply outcome_not_transport.
Qed.

(** A private call whose request times out. *)
Lemma private_call_timeout :
  fst (_post_v21 sample_client (text "/v2.1/order") 1%positive
         (sample_world 0 (inl Timeout)))
  = inl (RequestException Timeout).
Proof.
  refine (proj2 (proj2 (transport_exception_propagates
                          (sample_world 0 (inl Timeout))
                          (snd (_post_v21 sample_client
                                  (text "/v2.1/order") 1%positive
                                  (sample_world 0 (inl Timeout))))
                          (fst (_post_v21 sample_client
                                  (text "/v2.1/order") 1%positive
                                  (sample_world 0 (inl Timeout))))
                          (request_sent
                             (snd (_post_v21 sample_client
                                     (text "/v2.1/order") 1%positive
                                     (sample_world 0 (inl Timeout)))))
                          (inl Timeout) Timeout _)
                   sample_client (text "/v2.1/order") 1%positive
                   (surjective_pairing _))
            eq_refl).
  vm_compute. reflexivity.
Defined.

(* ================================================================= *)
(** * The code of the rate limit *)

(** [str(x) == "4"] holds of the text [4] and of the integer 4, and of
    nothing else. *)
Lemma py_str_is_4 (x : pyval) :
  py_str_is x (text "4") = true <-> x = PStr (text "4") \/ x = PInt 4.
Proof.
  split.
  - destruct x as [|[|]|z|s|l|d]; try discriminate.
    + unfold py_str_is, py_str. intros H. apply str_eqb_eq in H.
      pose proof (scan_number_repr z [] I) as Hz.
      rewrite app_nil_r, H in Hz. vm_compute in Hz.
      injection Hz as <-. now right.
    + unfold py_str_is, py_str. intros H. apply str_eqb_eq in H.
      left. now subst.
  - intros [-> | ->]; reflexivity.
Qed.

(** A private error body raises [CoinoneRateLimitError] exactly when
    its [error_code] is the text [4] or the integer 4: a code such as
    ["04"], [" 4"] or [True] raises the general error. *)
Theorem rate_limit_codes (self : client) (path : pystr) (params : loc)
  (w w' : world) (r : exn + pyval * list (pystr * pystr)) (rq : request)
  (resp : response) (d : pydict) :
  _post_v21 self path params w = (r, w') ->
  sent w' = sent w ++ [(rq, inr resp)] ->
  raise_for_status resp = None ->
  resp_json resp = Some (PDict d) ->
  py_eq_str (dict_get_default d (text "result") PNone) (text "error")
  = true ->
  let code := dict_get_default d (text "error_code") PNone in
  (exists e, r = inl e /\ is_api_error e = true)
  /\ ((exists e, r = inl e /\ is_rate_limit e = true)
      <-> code = PStr (text "4") \/ code = PInt 4).
Proof.
  intros Hrun Hsent Hok Hjson Herr code.
  destruct (post_v21_answered _ _ _ _ _ _ _ _ Hrun Hsent) as [-> _].
  cbn [on_answer]. unfold private_outcome, is_error_body.
  rewrite Hok, Hjson, Herr. fold code.
  rewrite <- py_str_is_4.
  destruct (py_str_is code (text "4")).
  - split; [eauto|]. split; [reflexivity | eauto].
  - split; [eauto|]. split; [|discriminate].
    intros (e & [= <-] & H). discriminate.
Qed.

(** The integer code 4 is the rate limit as well. *)
Lemma numeric_rate_limit_code :
  let run := _post_v21 sample_client (text "/v2.1/order") 1%positive
               (sample_world 0
                  (inr (sample_response 200 (Some numeric_limit_body)))) in
  exists e, fst run = inl e /\ is_rate_limit e = true.
Proof.
  cbv zeta.
  refine (proj2 (proj2 (rate_limit_codes sample_client
                          (text "/v2.1/order") 1%positive _ _ _
                          (request_sent
                             (snd (_post_v21 sample_client
                                     (text "/v2.1/order") 1%positive
                                     (sample_world 0
                                        (inr (sample_response 200
                                                (Some numeric_limit_body)))))))
                          (sample_response 200 (Some numeric_limit_body))
                          [(text "result", PStr (text "error"));
                           (text "error_code", PInt 4)]
                          (surjective_pairing _) _ _ _ _))
            (or_intror eq_refl));
    vm_compute; reflexivity.
Defined.

(* ================================================================= *)
(** * What a request shows of the credentials *)

Lemma signed_body_token (self self' : client) (d : pydict)
  (nonce : pystr) :
  access_token self = access_token self' ->
  signed_body self d nonce = signed_body self' d nonce.
Proof. intros H. unfold signed_body. now rewrite H. Qed.

(** The secret key reaches the request through the signature and
    through nothing else: two clients with the same token and time
    bound that make the same private call in the same world send the
    same URL, the same body and the same headers, the
    [X-COINONE-SIGNATURE] header apart. *)
Theorem secret_key_only_signs (self self' : client) (path : pystr)
  (params : loc) (w w1 w2 : world)
  (r1 r2 : exn + pyval * list (pystr * pystr)) (rq1 rq2 : request)
  (ans1 ans2 : transport_error + response) :
  access_token self = access_token self' ->
  timeout self = timeout self' ->
  _post_v21 self path params w = (r1, w1) ->
  sent w1 = sent w ++ [(rq1, ans1)] ->
  _post_v21 self' path params w = (r2, w2) ->
  sent w2 = sent w ++ [(rq2, ans2)] ->
  req_method rq1 = req_method rq2
  /\ req_url rq1 = req_url rq2
  /\ req_params rq1 = req_params rq2
  /\ req_data rq1 = req_data rq2
  /\ req_timeout rq1 = req_timeout rq2
  /\ List.map fst (req_headers rq1) = List.map fst (req_headers rq2)
  /\ forall name,
       name <> text "X-COINONE-SIGNATURE" ->
       header (req_headers rq1) name = header (req_headers rq2) name.
Proof.
  intros Ht Hto H1 Hs1 H2 Hs2.
  destruct (post_v21_answered _ _ _ _ _ _ _ _ H1 Hs1)
    as (_ & d & utf8 & sg & Hd & Hu & _ & ->).
  destruct (post_v21_answered _ _ _ _ _ _ _ _ H2 Hs2)
    as (_ & d' & utf8' & sg' & Hd' & Hu' & _ & ->).
  rewrite Hd in Hd'. injection Hd' as <-.
  rewrite (signed_body_token _ _ _ _ Ht), Hu' in Hu. injection Hu as <-.
  unfold private_request. cbn [req_method req_url req_params req_data
                               req_timeout req_headers List.map fst].
  repeat split; try assumption.
  intros name Hn. cbn [header].
  destruct (str_eqb _ name); [reflexivity|].
  destruct (str_eqb _ name); [reflexivity|].
  destruct (str_eqb (text "X-COINONE-SIGNATURE") name) eqn:E;
    [|reflexivity].
  apply str_eqb_eq in E. congruence.
Qed.

(** Two secret keys, one request body. *)
Lemma sample_body_without_secret :
  let w := sample_world 0 (inl Timeout) in
  req_data (request_sent
              (snd (_post_v21 sample_client (text "/v2.1/order")
                      1%positive w)))
  = req_data (request_sent
                (snd (_post_v21 other_client (text "/v2.1/order")
                        1%positive w))).
Proof.
  cbv zeta.
  refine (proj1 (proj2 (proj2 (proj2
            (secret_key_only_signs sample_client other_client
               (text "/v2.1/order") 1%positive
               (sample_world 0 (inl Timeout))
               (snd (_post_v21 sample_client (text "/v2.1/order")
                       1%positive (sample_world 0 (inl Timeout))))
               (snd (_post_v21 other_client (text "/v2.1/order")
                       1%positive (sample_world 0 (inl Timeout))))
               (fst (_post_v21 sample_client (text "/v2.1/order")
                       1%positive (sample_world 0 (inl Timeout))))
               (fst (_post_v21 other_client (text "/v2.1/order")
                       1%positive (sample_world 0 (inl Timeout))))
               _ _ (inl Timeout) (inl Timeout) eq_refl eq_refl
               (surjective_pairing _) _ (surjective_pairing _) _)))));
    vm_compute; reflexivity.
Defined.

(** A public call does not look at the credentials: it does on any
    client what it does on one that has none.  Its request carries the
    [Accept] header and no other, and no body; no dict is made and no
    entropy is read. *)
Theorem public_call_needs_no_credentials (self : client) (path : pystr)
  (params : option pydict) (w : world) :
  let run := _get self path params w in
  run = _get (mk_client None None (timeout self)) path params w
  /\ heap (snd run) = heap w
  /\ drawn (snd run) = drawn w
  /\ exists ans,
       sent (snd run)
       = sent w
         ++ [(mk_request GET (PUBLIC_BASE_URL ++ path) params None
                [(text "Accept", text "application/json")] (timeout self),
              ans)].
Proof.
  cbv zeta. rewrite !get_run. cbn [snd heap drawn sent set_sent timeout].
  repeat split. eexists. reflexivity.
Qed.

(* ================================================================= *)
(** * The wrappers of the public API *)



(** On an HTTP error status a public call does not read the body: the
    error carries the status, the text of the [HTTPError] of
    [requests], and no code, whatever the body says. *)
Theorem public_http_error_ignores_body (self : client) (path : pystr)
  (params : option pydict) (w w' : world)
  (r : exn + pyval * list (pystr * pystr)) (rq : request)
  (resp : response) :
  _get self path params w = (r, w') ->
  sent w' = sent w ++ [(rq, inr resp)] ->
  (400 <= status_code resp < 600)%Z ->
  r = inl (CoinoneAPIError
             (PStr (text "HTTP 错误: " ++ int_repr (status_code resp)
                      ++ text (if (status_code resp <? 500)%Z
                               then " Client Error: "
                               else " Server Error: ")
                      ++ reason resp ++ text " for url: " ++ resp_url resp))
             PNone (Some (status_code resp))).
Proof.
  intros Hrun Hsent Hst.
  rewrite (get_answered _ _ _ _ _ _ _ _ Hrun Hsent).
  cbn [on_answer]. unfold public_outcome, raise_for_status.
  destruct (Z.ltb_spec (status_code resp) 500).
  - replace ((400 <=? status_code resp)%Z) with true
      by (symmetry; apply Z.leb_le; lia).
    reflexivity.
  - replace ((400 <=? status_code resp)%Z) with true
      by (symmetry; apply Z.leb_le; lia).
    replace ((500 <=? status_code resp)%Z) with true
      by (symmetry; apply Z.leb_le; lia).
    replace ((status_code resp <? 600)%Z) with true
      by (symmetry; apply Z.ltb_lt; lia).
    reflexivity.
Qed.

(** HTTP 429 with the rate-limit body on a public call: no code, no
    rate-limit error. *)
Lemma public_too_many_requests :
  let resp :=
    mk_response 429 (text "Too Many Requests")
      (text "https://api.coinone.co.kr/public/v2/markets/KRW")
      (Some rate_limit_body) [] in
  fst (_get sample_client (text "/markets/KRW") None
         (sample_world 0 (inr resp)))
  = inl (CoinoneAPIError
           (PStr (text "HTTP 错误: 429 Client Error: Too Many Requests for url: https://api.coinone.co.kr/public/v2/markets/KRW"))
           PNone (Some 429%Z)).
Proof.
  cbv zeta.
  set (resp := mk_response 429 _ _ _ _).
  refine (public_http_error_ignores_body sample_client
            (text "/markets/KRW") None (sample_world 0 (inr resp)) _ _
            (request_sent
               (snd (_get sample_client (text "/markets/KRW") None
                       (sample_world 0 (inr resp)))))
            resp (surjective_pairing _) _ _);
    [vm_compute; reflexivity | cbn; lia].
Defined.

(* ================================================================= *)
(** * Text that UTF-8 cannot encode *)

Lemma utf8_encode_scalar (s : pystr) (b : bytes) :
  Utf8.encode s = Some b -> forallb Utf8.scalar s = true.
Proof.
  revert b. induction s as [|c s IH]; intros b H; [reflexivity|].
  cbn in H. destruct (Utf8.encode_char c) as [bs|] eqn:Hc; [|discriminate].
  destruct (Utf8.encode s) as [rest|]; [|discriminate].
  cbn. rewrite (IH rest eq_refl), andb_true_r.
  unfold Utf8.encode_char in Hc. unfold Utf8.scalar.
  revert Hc. ncases; intros; try discriminate; reflexivity.
Qed.

Lemma utf8_encode_none (s : pystr) :
  Utf8.encode s = None <-> forallb Utf8.scalar s = false.
Proof.
  split; intros H.
  - destruct (forallb Utf8.scalar s) eqn:E; [|reflexivity].
    destruct (utf8_encode_total s E) as [b Hb]. congruence.
  - destruct (Utf8.encode s) as [b|] eqn:E; [|reflexivity].
    apply utf8_encode_scalar in E. congruence.
Qed.

(** The serialized form keeps every character that is no scalar
    value: only characters below 0x80 are escaped. *)
Lemma escape_char_scalar (c : N) :
  forallb Utf8.scalar (Json.escape_char c) = true -> Utf8.scalar c = true.
Proof.
  unfold Json.escape_char.
  destruct (N.eqb_spec c 34) as [->|]; [reflexivity|].
  destruct (N.eqb_spec c 92) as [->|]; [reflexivity|].
  destruct (N.eqb_spec c 10) as [->|]; [reflexivity|].
  destruct (N.eqb_spec c 13) as [->|]; [reflexivity|].
  destruct (N.eqb_spec c 9) as [->|]; [reflexivity|].
  destruct (N.eqb_spec c 8) as [->|]; [reflexivity|].
  destruct (N.eqb_spec c 12) as [->|]; [reflexivity|].
  destruct (N.ltb_spec c 0x20).
  - intros _. unfold Utf8.scalar. ncases; reflexivity.
  - cbn. now rewrite andb_true_r.
Qed.

Lemma encode_basestring_scalar (s : pystr) :
  forallb Utf8.scalar (Json.encode_basestring s) = true ->
  forallb Utf8.scalar s = true.
Proof.
  unfold Json.encode_basestring. cbn [forallb].
  rewrite forallb_app, !andb_true_iff. intros (_ & H & _).
  induction s as [|c s IH]; [reflexivity|].
  cbn in H. rewrite forallb_app, andb_true_iff in H. destruct H as [Hc Hs].
  cbn. now rewrite (escape_char_scalar _ Hc), IH.
Qed.

Lemma join_parts (p : N -> bool) (sep : pystr) (l : list pystr) :
  forallb p (Json.join sep l) = true ->
  Forall (fun x => forallb p x = true) l.
Proof.
  induction l as [|x l IH]; [constructor|].
  destruct l as [|y l].
  - cbn. intros H. now repeat constructor.
  - change (Json.join sep (x :: y :: l))
      with (x ++ sep ++ Json.join sep (y :: l)).
    rewrite !forallb_app, !andb_true_iff. intros (Hx & _ & Hl).
    constructor; auto.
Qed.

Lemma dumps_scalar (v : pyval) :
  forallb Utf8.scalar (Json.dumps v) = true ->
  all_chars Utf8.scalar v = true.
Proof.
  induction v as [| | | |l IH|d IH] using pyval_induction;
    try reflexivity.
  - apply encode_basestring_scalar.
  - cbn [Json.dumps all_chars forallb].
    rewrite forallb_app, !andb_true_iff. intros (_ & H & _).
    apply join_parts in H. apply forallb_forall. intros x Hx.
    rewrite List.Forall_forall in IH, H.
    apply IH; [assumption|]. apply H. now apply in_map.
  - cbn [Json.dumps all_chars forallb].
    rewrite forallb_app, !andb_true_iff. intros (_ & H & _).
    apply join_parts in H. apply forallb_forall. intros kv Hkv.
    rewrite List.Forall_forall in IH, H.
    specialize (H _ (in_map _ _ _ Hkv)). cbv beta in H.
    rewrite forallb_app in H. cbn [forallb] in H.
    rewrite !andb_true_iff in H. destruct H as (Hk & _ & Hv).
    cbv beta. apply andb_true_iff. split.
    + now apply encode_basestring_scalar.
    + now apply (IH kv).
Qed.

Lemma dumps_encodable (v : pyval) :
  (exists b, Utf8.encode (Json.dumps v) = Some b)
  <-> all_chars Utf8.scalar v = true.
Proof.
  split.
  - intros [b H]. apply dumps_scalar. now apply utf8_encode_scalar in H.
  - intros H. apply utf8_encode_total.
    apply (dumps_chars Utf8.scalar Utf8.scalar); [|auto|assumption].
    intros c Hc. unfold Utf8.scalar. ncases; reflexivity.
Qed.

(** A payload is built only from text that UTF-8 can encode.  Where
    [_encode_payload_v21] returns a payload, every character of the
    body (the parameters after the token and the nonce were set; keys
    and values, at any depth) is a Unicode scalar value: [json.dumps]
    with [ensure_ascii=False] leaves a lone surrogate as it is, and
    [str.encode] refuses it.  So a lone surrogate in the body means
    that there is no payload and that a private call raises with
    nothing sent.  And where [_encode_payload_v21] raises
    [UnicodeEncodeError], the body holds such a character, the copy
    was made and the nonce was drawn. *)
Theorem payload_needs_scalar_text (self : client) (params : loc)
  (w : world) (d : pydict) :
  heap w !! params = Some d ->
  let body := PDict (signed_body self d (next_nonce w)) in
  let run := _encode_payload_v21 self params w in
  (forall encoded,
     fst run = inr encoded -> all_chars Utf8.scalar body = true)
  /\ (fst run = inl UnicodeEncodeError ->
      all_chars Utf8.scalar body = false
      /\ snd run = after_encode self d w)
  /\ (all_chars Utf8.scalar body = false ->
      (forall encoded, fst run <> inr encoded)
      /\ forall path,
           sent (snd (_post_v21 self path params w)) = sent w
           /\ exists e, fst (_post_v21 self path params w) = inl e).
Proof.
  intros Hd body run. unfold run.
  rewrite (encode_payload_run _ _ _ _ Hd). cbn [fst snd].
  fold body. unfold str_encode.
  pose proof (dumps_encodable body) as He.
  destruct (Utf8.encode (Json.dumps body)) as [utf8|] eqn:E.
  - assert (Hb : all_chars Utf8.scalar body = true) by (apply He; eauto).
    rewrite Hb. repeat split; discriminate.
  - assert (Hb : all_chars Utf8.scalar body = false).
    { destruct (all_chars Utf8.scalar body); [|reflexivity].
      destruct (proj2 He eq_refl). discriminate. }
    rewrite Hb. split; [discriminate|]. split; [auto|].
    intros _. split; [discriminate|]. intros path.
    destruct (truthy (access_token self)) eqn:Ha;
      [|rewrite post_v21_no_credentials by auto; cbn; eauto].
    destruct (truthy (secret_key self)) eqn:Hs;
      [|rewrite post_v21_no_credentials by auto; cbn; eauto].
    rewrite (post_v21_run _ _ _ _ _ Ha Hs Hd). cbv zeta.
    fold body. unfold str_encode. rewrite E. cbn. eauto.
Qed.

(** A lone surrogate in [user_order_id]: the call raises and nothing is
    sent. *)
Lemma surrogate_in_parameters :
  let run := _post_v21 sample_client (text "/v2.1/order") 1%positive
               surrogate_world in
  sent (snd run) = [] /\ exists e, fst run = inl e.
Proof.
  cbv zeta.
  exact (proj2 (proj2 (proj2
                  (payload_needs_scalar_text sample_client 1%positive
                     surrogate_world surrogate_params eq_refl))
                  ltac:(vm_compute; reflexivity))
           (text "/v2.1/order")).
Defined.
